(** * The OTLP trace decoder and the bounded span store of telemetry-service

    A shallow embedding of [telemetry-service/src/storage.ts] (class
    [TelemetryStorage]) and [telemetry-service/src/otlp-processor.ts] (class
    [OTLPProcessor]), followed by the properties of the design document that
    concern them.

    The two classes are TypeScript compiled to JavaScript.  The decoder takes
    an [any]-typed payload, so the embedding works on run-time values: numbers
    are IEEE 754 binary64 (the Standard Library's [SpecFloat]), payloads are
    JSON values, exceptions are explicit results, and the arrays the store
    shares with its callers live in a heap of references. *)

From Stdlib Require Import ZArith Lia List String Ascii Bool SpecFloat.
From Stdlib Require Import Strings.Byte.
From stdpp Require Import base tactics option list strings gmap.
From Stdlib Require Import Sorting.Permutation Sorting.Sorted.
From Stdlib Require OrderedTypeEx.
From stdpp Require Import sorting.

Set Warnings "-register-all".

(** ** JavaScript numbers *)

Module Num.
#[local] Open Scope Z_scope.

(** A JavaScript number is a binary64 float. *)
Definition number : Type := spec_float.
Definition prec : Z := 53.
Definition emax : Z := 1024.

Definition NaN : number := S754_nan.

(** The number nearest to an integer (ties to even, overflow to infinity). *)
Definition of_Z (z : Z) : number := binary_normalize prec emax z 0 false.

Definition div (x y : number) : number := SFdiv prec emax x y.
Definition sub (x y : number) : number := SFsub prec emax x y.

(** [x === y] on numbers: NaN differs from itself, the two zeros agree. *)
Definition eqb (x y : number) : bool := SFeqb x y.

Definition is_nan (x : number) : bool :=
  match x with S754_nan => true | _ => false end.
Definition is_zero (x : number) : bool :=
  match x with S754_zero _ => true | _ => false end.

(** The integer a number denotes, when it denotes one. *)
Definition to_Z (x : number) : option Z :=
  match x with
  | S754_zero _ => Some 0
  | S754_finite s m e =>
      if 0 <=? e then Some (cond_Zopp s (Zpos m * 2 ^ e))
      else if Zpos m mod 2 ^ (- e) =? 0
           then Some (cond_Zopp s (Zpos m / 2 ^ (- e)))
           else None
  | _ => None
  end.

(** [ToIntegerOrInfinity] of a finite number: the fraction is dropped. *)
Definition trunc_Z (x : number) : option Z :=
  match x with
  | S754_zero _ => Some 0
  | S754_finite s m e =>
      Some (cond_Zopp s (if 0 <=? e then Zpos m * 2 ^ e else Zpos m / 2 ^ (- e)))
  | _ => None
  end.

(** [Math.floor]: NaN, the infinities and the zeros are returned as they
    are; the floor of a number in (0,1) is +0. *)
Definition floor (x : number) : number :=
  match x with
  | S754_finite s m e =>
      if 0 <=? e then x
      else match cond_Zopp s (Zpos m) / 2 ^ (- e) with
           | 0 => S754_zero false
           | z => of_Z z
           end
  | _ => x
  end.

(** Digits of a non-negative integer in a radix up to 36, lowercase. *)
Definition digit_char (d : Z) : ascii :=
  if d <? 10 then ascii_of_nat (48 + Z.to_nat d)
  else ascii_of_nat (87 + Z.to_nat d).

Fixpoint digits_from (fuel : nat) (radix z : Z) (acc : string) : string :=
  match fuel with
  | O => acc
  | S fuel' =>
      let acc' := String (digit_char (z mod radix)) acc in
      if z / radix =? 0 then acc' else digits_from fuel' radix (z / radix) acc'
  end.

Definition Z_to_string (radix z : Z) : string :=
  let body := digits_from (S (Z.to_nat (Z.log2 (Z.abs z)))) radix (Z.abs z) EmptyString in
  if z <? 0 then String "-" body else body.

(** The integers that [Number.prototype.toString] prints digit for digit. *)
Definition safe_integer (x : number) : option Z :=
  match to_Z x with
  | Some z => if Z.abs z <? 2 ^ 53 then Some z else None
  | None => None
  end.

(** [parseInt(s)] with no radix argument: leading white space, a sign, an
    optional [0x] prefix, then the longest run of digits; no digit at all
    gives NaN.  The white space and line terminators among the 8-bit
    characters are TAB, LF, VT, FF, CR, the space and the no-break space. *)
Definition is_white (c : ascii) : bool :=
  let n := nat_of_ascii c in
  ((9 <=? n)%nat && (n <=? 13)%nat) || (n =? 32)%nat || (n =? 160)%nat.

Fixpoint trim_start (s : string) : string :=
  match s with
  | String c r => if is_white c then trim_start r else s
  | EmptyString => s
  end.

Definition digit_val (radix : Z) (c : ascii) : option Z :=
  let n := Z.of_nat (nat_of_ascii c) in
  let d := if (48 <=? n) && (n <=? 57) then n - 48
           else if (97 <=? n) && (n <=? 122) then n - 87
           else if (65 <=? n) && (n <=? 90) then n - 55
           else radix in
  if d <? radix then Some d else None.

Fixpoint parse_digits (radix : Z) (s : string) (acc : option Z) : option Z :=
  match s with
  | EmptyString => acc
  | String c r =>
      match digit_val radix c with
      | Some d => parse_digits radix r (Some (default 0 acc * radix + d))
      | None => acc
      end
  end.

Definition parseInt_string (s : string) : number :=
  let s1 := trim_start s in
  let '(neg, s2) :=
    match s1 with
    | String "-" r => (true, r)
    | String "+" r => (false, r)
    | _ => (false, s1)
    end in
  let '(radix, s3) :=
    match s2 with
    | String "0" (String "x" r) => (16, r)
    | String "0" (String "X" r) => (16, r)
    | _ => (10, s2)
    end in
  match parse_digits radix s3 None with
  | None => NaN
  | Some 0 => S754_zero neg
  | Some z => of_Z (if neg then - z else z)
  end.
End Num.

Abbreviation number := Num.number.

(** ** Run-time values, exceptions and coercions *)

Module JS.
#[local] Open Scope string_scope.
#[local] Open Scope Z_scope.

(** The values a payload is made of: what [JSON.parse] produces, and
    [undefined].  An object is the list of its own properties; a
    [Uint8Array] is read as the array of its elements; a string is a
    sequence of 8-bit characters, the code units U+0000 to U+00FF: texts
    with other characters are not modelled. *)
Inductive value : Type :=
| VUndefined
| VNull
| VBool (b : bool)
| VNum (n : number)
| VStr (s : string)
| VArr (elems : list value)
| VObj (props : list (string * value)).

Inductive exn : Type :=
| TypeError (msg : string)
| RangeError (msg : string).

(** A computation that returns or throws. *)
Inductive outcome (A : Type) : Type :=
| Return (a : A)
| Throw (e : exn).
Arguments Return {A} a.
Arguments Throw {A} e.

#[global] Instance outcome_ret : MRet outcome := fun A a => Return a.
#[global] Instance outcome_bind : MBind outcome :=
  fun A B f m => match m with Return a => f a | Throw e => Throw e end.

Definition returns {A} (m : outcome A) : bool :=
  match m with Return _ => true | Throw _ => false end.

(** The built-ins of the engine whose algorithms are fixed by ECMAScript
    and not by this repository: number printing outside the safe
    integers, [StringToNumber], [JSON.stringify], and the calendar
    arithmetic of [Date.prototype.toISOString] on a valid time value. *)
Class Host : Type := {
  host_Number_toString : Z -> number -> string;
  host_StringToNumber : string -> number;
  host_JSON_stringify : value -> string;
  host_ISO_format : Z -> string
}.

(** [ToBoolean]. *)
Definition truthy (v : value) : bool :=
  match v with
  | VUndefined | VNull => false
  | VBool b => b
  | VNum n => negb (Num.is_zero n || Num.is_nan n)
  | VStr s => negb (String.eqb s "")
  | VArr _ | VObj _ => true
  end.

Definition lookup_prop (k : string) (props : list (string * value)) : value :=
  match List.find (fun kv => String.eqb (fst kv) k) props with
  | Some kv => snd kv
  | None => VUndefined
  end.

Definition has_prop (k : string) (props : list (string * value)) : bool :=
  match List.find (fun kv => String.eqb (fst kv) k) props with
  | Some _ => true
  | None => false
  end.

(** [v.k] for the property names this program reads (none of them is
    inherited from a prototype, except [length] of arrays and strings). *)
Definition get (v : value) (k : string) : outcome value :=
  match v with
  | VUndefined | VNull =>
      Throw (TypeError ("Cannot read properties of undefined or null: " ++ k))
  | VObj props => Return (lookup_prop k props)
  | VArr l =>
      Return (if String.eqb k "length" then VNum (Num.of_Z (Z.of_nat (List.length l)))
              else VUndefined)
  | VStr s =>
      Return (if String.eqb k "length" then VNum (Num.of_Z (Z.of_nat (String.length s)))
              else VUndefined)
  | VBool _ | VNum _ => Return VUndefined
  end.

(** [v?.k] *)
Definition get_opt (v : value) (k : string) : value :=
  match get v k with Return x => x | Throw _ => VUndefined end.

Definition is_undefined (v : value) : bool :=
  match v with VUndefined => true | _ => false end.

Definition typeof_string (v : value) : bool :=
  match v with VStr _ => true | _ => false end.

(** [v === s] for a string literal [s], [v === n] for a number literal. *)
Definition strict_eq_str (v : value) (s : string) : bool :=
  match v with VStr s' => String.eqb s' s | _ => false end.
Definition strict_eq_num (v : value) (n : number) : bool :=
  match v with VNum n' => Num.eqb n' n | _ => false end.

(** [for (const x of v)]: arrays and strings are iterable. *)
Definition chars (s : string) : list value :=
  List.map (fun c => VStr (String c EmptyString)) (list_ascii_of_string s).

Definition iterate (v : value) : outcome (list value) :=
  match v with
  | VArr l => Return l
  | VStr s => Return (chars s)
  | _ => Throw (TypeError "value is not iterable")
  end.

Section Coercions.
Context `{Host}.

(** [Number::toString(radix)]. *)
Definition Number_toString (radix : Z) (n : number) : string :=
  match n with
  | S754_nan => "NaN"
  | S754_infinity false => "Infinity"
  | S754_infinity true => "-Infinity"
  | _ => match Num.safe_integer n with
         | Some z => Num.Z_to_string radix z
         | None => host_Number_toString radix n
         end
  end.

(** [ToString], which also is what [v.toString(radix)] returns for the
    values that have such a method.  An own [toString] property of a
    JSON object is not callable. *)
Fixpoint ToString_radix (radix : Z) (v : value) : outcome string :=
  match v with
  | VUndefined => Return "undefined"
  | VNull => Return "null"
  | VBool true => Return "true"
  | VBool false => Return "false"
  | VNum n => Return (Number_toString radix n)
  | VStr s => Return s
  | VArr l =>
      (fix join (l : list value) (first : bool) : outcome string :=
         match l with
         | [] => Return ""
         | x :: r =>
             match (match x with
                    | VUndefined | VNull => Return ""
                    | _ => ToString_radix 10 x
                    end) with
             | Throw e => Throw e
             | Return sx =>
                 match join r false with
                 | Throw e => Throw e
                 | Return sr => Return ((if first then "" else ",") ++ sx ++ sr)
                 end
             end
         end) l true
  | VObj props =>
      if has_prop "toString" props
      then Throw (TypeError "toString is not a function")
      else Return "[object Object]"
  end.

Definition ToString (v : value) : outcome string := ToString_radix 10 v.

(** [b.toString(16)]: [undefined] and [null] have no methods. *)
Definition toString_method (radix : Z) (v : value) : outcome string :=
  match v with
  | VUndefined | VNull =>
      Throw (TypeError "Cannot read properties of undefined or null: toString")
  | _ => ToString_radix radix v
  end.

(** [ToNumber]. *)
Definition ToNumber (v : value) : outcome number :=
  match v with
  | VUndefined => Return Num.NaN
  | VNull => Return (S754_zero false)
  | VBool b => Return (Num.of_Z (if b then 1 else 0))
  | VNum n => Return n
  | VStr s => Return (host_StringToNumber s)
  | VArr _ | VObj _ => s ← ToString v; Return (host_StringToNumber s)
  end.

(** [parseInt(v)] *)
Definition parseInt (v : value) : outcome number :=
  s ← ToString v; Return (Num.parseInt_string s).

(** [JSON.stringify(v)] of a value taken from a payload. *)
Definition JSON_stringify (v : value) : value := VStr (host_JSON_stringify v).

(** [ToLength] *)
Definition ToLength (v : value) : outcome Z :=
  n ← ToNumber v;
  Return (match n with
          | S754_infinity false => 2 ^ 53 - 1
          | _ => match Num.trunc_Z n with
                 | Some z => Z.min (Z.max z 0) (2 ^ 53 - 1)
                 | None => 0
                 end
          end).

(** [Array.from(v)]: the elements of an array, the indexed properties
    of an object that has a [length], nothing for a number or boolean. *)
Definition Array_from (v : value) : outcome (list value) :=
  match v with
  | VArr l => Return l
  | VStr s => Return (chars s)
  | VObj props =>
      len ← ToLength (lookup_prop "length" props);
      if 2 ^ 32 - 1 <? len then Throw (RangeError "Invalid array length")
      else Return (List.map
                     (fun i => lookup_prop (Num.Z_to_string 10 (Z.of_nat i)) props)
                     (seq 0 (Z.to_nat len)))
  | _ => Return []
  end.
End Coercions.

(** [a.map(f)] where [f] may throw. *)
Fixpoint map_outcome {A B} (f : A -> outcome B) (l : list A) : outcome (list B) :=
  match l with
  | [] => Return []
  | x :: r => y ← f x; ys ← map_outcome f r; Return (y :: ys)
  end.

(** A loop that threads an accumulator and may throw. *)
Fixpoint fold_outcome {A B} (f : B -> A -> outcome B) (acc : B) (l : list A) : outcome B :=
  match l with
  | [] => Return acc
  | x :: r => acc' ← f acc x; fold_outcome f acc' r
  end.

(** [SameValueZero], the equality of [Map] and [Set] keys: NaN equals
    itself and the two zeros agree.  Objects are compared by identity in
    the engine; a value carries no identity, so two objects count as the
    same key when their contents agree, and the model can merge object
    keys that the engine keeps apart.  This is exact for the primitive
    keys [TelemetrySpan] declares. *)
Fixpoint same_value_zero (x y : value) {struct x} : bool :=
  match x, y with
  | VUndefined, VUndefined | VNull, VNull => true
  | VBool a, VBool b => Bool.eqb a b
  | VNum a, VNum b => (Num.is_nan a && Num.is_nan b) || Num.eqb a b
  | VStr a, VStr b => String.eqb a b
  | VArr a, VArr b =>
      (fix all2 (a b : list value) : bool :=
         match a, b with
         | [], [] => true
         | x :: a', y :: b' => same_value_zero x y && all2 a' b'
         | _, _ => false
         end) a b
  | VObj a, VObj b =>
      (fix all2 (a b : list (string * value)) : bool :=
         match a, b with
         | [], [] => true
         | (k, x) :: a', (k', y) :: b' =>
             String.eqb k k' && same_value_zero x y && all2 a' b'
         | _, _ => false
         end) a b
  | _, _ => false
  end.

(** A [Set] and a [Map], in insertion order. *)
Definition Set_add (x : value) (s : list value) : list value :=
  if existsb (same_value_zero x) s then s else s ++ [x].
Definition Set_of (l : list value) : list value :=
  fold_left (fun s x => Set_add x s) l [].

Definition Map_get {V} (k : value) (m : list (value * V)) : option V :=
  snd <$> List.find (fun kv => same_value_zero (fst kv) k) m.
Fixpoint Map_set {V} (k : value) (v : V) (m : list (value * V)) : list (value * V) :=
  match m with
  | [] => [(k, v)]
  | (k', v') :: r =>
      if same_value_zero k' k then (k', v) :: r else (k', v') :: Map_set k v r
  end.

(** [a.sort(cmp)], which is stable; [a.sort()] on strings. *)
Fixpoint sort_insert {A} (cmp : A -> A -> Z) (x : A) (l : list A) : list A :=
  match l with
  | [] => [x]
  | y :: r => if cmp x y <=? 0 then x :: l else y :: sort_insert cmp x r
  end.
Definition Array_sort {A} (cmp : A -> A -> Z) (l : list A) : list A :=
  fold_right (sort_insert cmp) [] l.
Definition string_cmp (a b : string) : Z :=
  match String.compare a b with Lt => -1 | Eq => 0 | Gt => 1 end.

(** [s.padStart(n, "0")] *)
Definition padStart0 (n : nat) (s : string) : string :=
  String.concat "" (List.repeat "0" (n - String.length s)%nat) ++ s.

(** [new Date(ms).toISOString()]: the constructor clips the time value,
    and an invalid time value makes [toISOString] throw. *)
Definition TimeClip (ms : number) : option Z :=
  match Num.trunc_Z ms with
  | Some t => if Z.abs t <=? 8640000000000000 then Some t else None
  | None => None
  end.

Definition Date_toISOString `{Host} (ms : number) : outcome string :=
  match TimeClip ms with
  | Some t => Return (host_ISO_format t)
  | None => Throw (RangeError "Invalid time value")
  end.
End JS.

Export JS.

(** ** storage.ts: the span record, the heap of span arrays, the store *)

Module Storage.
#[local] Open Scope string_scope.
#[local] Open Scope Z_scope.

(** [TelemetrySpan].  The interface declares [operationName],
    [serviceName] and the event names as strings; the decoder stores
    whatever truthy value the payload carries there, so at run time they
    are values. *)
Record SpanEvent : Type := {
  ev_name : value;
  ev_timestamp : number;
  ev_attributes : gmap string value
}.

Record TelemetrySpan : Type := {
  traceId : string;
  spanId : string;
  parentSpanId : option string;
  operationName : value;
  startTime : number;
  endTime : number;
  duration : number;
  status : string;
  attributes : gmap string value;
  events : list SpanEvent;
  serviceName : value;
  timestamp : string
}.

Record TelemetryStats : Type := {
  totalSpans : nat;
  uniqueServices : nat;
  uniqueOperations : nat;
  timeRange : option string * option string;
  topOperations : list (value * nat);
  errorCount : nat;
  successCount : nat
}.

(** An array of spans is a reference into the heap: [push] and [reverse]
    change the array in place, [slice], [filter] and the spread copy it. *)
Definition ref : Type := nat.

(** The fields of a [TelemetryStorage] object. *)
Record TelemetryStorage : Type := {
  spans : ref;
  maxSpans : Z
}.

Inductive level : Type := Info | Warn | Error.

Record world : Type := {
  heap : list (list TelemetrySpan);
  storage : TelemetryStorage;
  logged : list (level * string)
}.

(** Methods run in a state monad over the world and may throw; the state
    reached when an exception is thrown is kept. *)
Definition M (A : Type) : Type := world -> outcome A * world.

#[global] Instance M_ret : MRet M := fun A a w => (Return a, w).
#[global] Instance M_bind : MBind M :=
  fun A B f m w =>
    match m w with
    | (Return a, w') => f a w'
    | (Throw e, w') => (Throw e, w')
    end.

Definition throw {A} (e : exn) : M A := fun w => (Throw e, w).
Definition lift {A} (o : outcome A) : M A := fun w => (o, w).

(** [try { body } catch (error) { handler(error) }] *)
Definition try_catch {A} (body : M A) (handler : exn -> M A) : M A :=
  fun w =>
    match body w with
    | (Return a, w') => (Return a, w')
    | (Throw e, w') => handler e w'
    end.

Definition exec {A} (m : M A) (w : world) : world := snd (m w).
Definition result {A} (m : M A) (w : world) : outcome A := fst (m w).

(** *** Arrays *)

Definition array_new (l : list TelemetrySpan) : M ref :=
  fun w => (Return (List.length (heap w)),
            {| heap := heap w ++ [l]; storage := storage w; logged := logged w |}).

Definition array_read (r : ref) : M (list TelemetrySpan) :=
  fun w => (Return (default [] (heap w !! r)), w).

Definition array_write (r : ref) (l : list TelemetrySpan) : M unit :=
  fun w => (Return tt,
            {| heap := <[r := l]> (heap w); storage := storage w; logged := logged w |}).

(** [a.slice(start)] on a list: a negative start counts from the end, and
    [-0] is [0]. *)
Definition slice_list {A} (start : Z) (l : list A) : list A :=
  let len := Z.of_nat (List.length l) in
  let k := if start <? 0 then Z.max (len + start) 0 else Z.min start len in
  drop (Z.to_nat k) l.

Definition array_push (r : ref) (x : TelemetrySpan) : M unit :=
  l ← array_read r; array_write r (l ++ [x]).
Definition array_length (r : ref) : M Z :=
  l ← array_read r; mret (Z.of_nat (List.length l)).
Definition array_reverse (r : ref) : M ref :=
  l ← array_read r; array_write r (rev l);; mret r.
Definition array_slice (r : ref) (start : Z) : M ref :=
  l ← array_read r; array_new (slice_list start l).
Definition array_filter (p : TelemetrySpan -> bool) (r : ref) : M ref :=
  l ← array_read r; array_new (List.filter p l).
Definition array_spread (r : ref) : M ref :=
  l ← array_read r; array_new l.

(** *** Fields of [this] *)

Definition this_spans : M ref := fun w => (Return (spans (storage w)), w).
Definition this_maxSpans : M Z := fun w => (Return (maxSpans (storage w)), w).
Definition set_this_spans (r : ref) : M unit :=
  fun w => (Return tt,
            {| heap := heap w;
               storage := {| spans := r; maxSpans := maxSpans (storage w) |};
               logged := logged w |}).

Definition log (lv : level) (msg : string) : M unit :=
  fun w => (Return tt,
            {| heap := heap w; storage := storage w;
               logged := logged w ++ [(lv, msg)] |}).

(** [new TelemetryStorage()], with the capacity as a parameter; the source
    initialises [maxSpans] to 10000. *)
Definition new_world (cap : Z) : world :=
  {| heap := [[]]; storage := {| spans := 0%nat; maxSpans := cap |}; logged := [] |}.
Definition initial_world : world := new_world 10000.

(** The spans the store holds, in insertion order. *)
Definition contents (w : world) : list TelemetrySpan :=
  default [] (heap w !! spans (storage w)).

(** *** Methods of [TelemetryStorage] *)

Definition addSpan (span : TelemetrySpan) : M unit :=
  a ← this_spans; array_push a span;;
  a ← this_spans; len ← array_length a; cap ← this_maxSpans;
  if cap <? len
  then a ← this_spans; cap ← this_maxSpans;
       r ← array_slice a (- cap); set_this_spans r
  else mret tt.

Definition getAllSpans : M ref :=
  a ← this_spans; c ← array_spread a; array_reverse c.

Definition getSpansByService (name : string) : M ref :=
  a ← this_spans; array_filter (fun span => strict_eq_str (serviceName span) name) a.

Definition getSpansByOperation (name : string) : M ref :=
  a ← this_spans; array_filter (fun span => strict_eq_str (operationName span) name) a.

Definition getTotalSpans : M Z :=
  a ← this_spans; array_length a.

Definition empty_stats : TelemetryStats :=
  {| totalSpans := 0; uniqueServices := 0; uniqueOperations := 0;
     timeRange := (None, None); topOperations := [];
     errorCount := 0; successCount := 0 |}.

(** The body of the [forEach] of [getStats]. *)
Definition is_error (span : TelemetrySpan) : bool :=
  String.eqb (status span) "ERROR" || String.eqb (status span) "error".

Definition count_span (acc : list (value * nat) * nat * nat) (span : TelemetrySpan)
  : list (value * nat) * nat * nat :=
  let '(operations, errors, successes) := acc in
  let opName := operationName span in
  let operations' :=
    Map_set opName (default 0%nat (Map_get opName operations) + 1)%nat operations in
  if is_error span then (operations', S errors, successes)
  else (operations', errors, S successes).

(** [x || null] for a string or a missing element. *)
Definition or_null (x : option string) : option string :=
  match x with
  | Some t => if String.eqb t "" then None else Some t
  | None => None
  end.

(** The statistics of the array [this.spans] refers to.  The arrays that
    [getStats] sorts are the new ones made by [map] and [Array.from]. *)
Definition stats_of (l : list TelemetrySpan) : TelemetryStats :=
  if Z.of_nat (List.length l) =? 0 then empty_stats
  else
    let services := Set_of (List.map serviceName l) in
    let '(operations, errors, successes) :=
      fold_left count_span l ([], 0%nat, 0%nat) in
    let top :=
      take 10 (Array_sort (fun x y => Z.of_nat (snd y) - Z.of_nat (snd x)) operations) in
    let timestamps := Array_sort string_cmp (List.map timestamp l) in
    {| totalSpans := List.length l;
       uniqueServices := List.length services;
       uniqueOperations := List.length operations;
       timeRange := (or_null (head timestamps), or_null (last timestamps));
       topOperations := top;
       errorCount := errors;
       successCount := successes |}.

Definition getStats : M TelemetryStats :=
  a ← this_spans; l ← array_read a; mret (stats_of l).

Definition clear : M unit :=
  r ← array_new []; set_this_spans r.

(** [limit] defaults to 50. *)
Definition getRecentSpans (limit : option Z) : M ref :=
  a ← this_spans; c ← array_slice a (- default 50 limit); array_reverse c.

(** A caller that appends the spans of a list one after the other. *)
Fixpoint append_all (l : list TelemetrySpan) : M unit :=
  match l with
  | [] => mret tt
  | span :: rest => addSpan span;; append_all rest
  end.

(** The store's array is allocated. *)
Definition wf (w : world) : Prop :=
  (spans (storage w) < List.length (heap w))%nat.

(** The world with another heap. *)
Definition with_heap (h : list (list TelemetrySpan)) (w : world) : world :=
  {| heap := h; storage := storage w; logged := logged w |}.

(** The last [n] elements of a list. *)
Definition last_n {A} (n : nat) (l : list A) : list A :=
  drop (List.length l - n) l.
End Storage.

Export Storage.

(** ** otlp-processor.ts *)

Module Processor.
#[local] Open Scope string_scope.
#[local] Open Scope Z_scope.

Section OTLPProcessor.
Context `{Host}.

(** The [for] loop of [extractServiceName]: the first attribute whose
    key is ["service.name"] decides. *)
Fixpoint scan_service_name (attrs : list value) : outcome value :=
  match attrs with
  | [] => Return (VStr "unknown-service")
  | attr :: rest =>
      k ← get attr "key";
      if strict_eq_str k "service.name"
      then v ← get attr "value";
           let sv := get_opt v "stringValue" in
           Return (if truthy sv then sv else VStr "unknown-service")
      else scan_service_name rest
  end.

Definition extractServiceName (resource : value) : outcome value :=
  if negb (truthy resource) then Return (VStr "unknown-service")
  else
    attrs ← get resource "attributes";
    if negb (truthy attrs) then Return (VStr "unknown-service")
    else items ← iterate attrs; scan_service_name items.

Definition nanosToMillis (nanos : value) : outcome number :=
  if typeof_string nanos
  then n ← parseInt nanos; Return (Num.floor (Num.div n (Num.of_Z 1000000)))
  else n ← ToNumber nanos; Return (Num.floor (Num.div n (Num.of_Z 1000000))).

Definition bytesToHex (bytes : value) : outcome string :=
  match bytes with
  | VStr s => Return s
  | _ =>
      if negb (truthy bytes) then Return ""
      else
        len ← get bytes "length";
        if strict_eq_num len (Num.of_Z 0) then Return ""
        else
          elems ← Array_from bytes;
          parts ← map_outcome (fun b => s ← toString_method 16 b; Return (padStart0 2 s)) elems;
          Return (String.concat "" parts)
  end.

Definition extractStatus (st : value) : outcome string :=
  if negb (truthy st) then Return "OK"
  else
    code ← get st "code";
    Return (if strict_eq_num code (Num.of_Z 0) then "UNSET"
            else if strict_eq_num code (Num.of_Z 1) then "OK"
            else if strict_eq_num code (Num.of_Z 2) then "ERROR"
            else "UNKNOWN").

(** The object [result] that [extractAttributes] fills: its own
    properties, and its prototype, which is [Object.prototype] for the
    object literal [{}] and can become [null] or an object of the payload
    through an assignment to [__proto__]. *)
Inductive prototype : Type :=
| ObjectPrototype
| NullPrototype
| ValuePrototype (v : value).

Record object : Type := {
  proto : prototype;
  own : gmap string value
}.

Definition object_literal : object := {| proto := ObjectPrototype; own := ∅ |}.

(** Whether an assignment to [__proto__] that walks the chain of
    prototypes finds the accessor of [Object.prototype].  An object of the
    payload inherits from [Object.prototype] (an array through
    [Array.prototype]); it hides the accessor when it has an own property
    of that name, as [JSON.parse] creates one. *)
Definition reaches_proto_setter (p : prototype) : bool :=
  match p with
  | ObjectPrototype => true
  | NullPrototype => false
  | ValuePrototype (VObj props) => negb (has_prop "__proto__" props)
  | ValuePrototype _ => true
  end.

(** [result[key] = v].  The key is converted to a property name.  Every
    name but [__proto__] becomes an own property.  An assignment to
    [__proto__] writes an own property when the object has one or the
    accessor is out of reach; otherwise it calls the setter, which
    replaces the prototype by an object or [null] and ignores any other
    value. *)
Definition set_prop (result : object) (key : value) (v : value) : outcome object :=
  name ← ToString key;
  Return
    (if String.eqb name "__proto__"
        && negb (bool_decide (is_Some (own result !! name)))
        && reaches_proto_setter (proto result)
     then match v with
          | VObj _ | VArr _ => {| proto := ValuePrototype v; own := own result |}
          | VNull => {| proto := NullPrototype; own := own result |}
          | _ => result
          end
     else {| proto := proto result; own := <[name := v]> (own result) |}).

(** One iteration of the loop of [extractAttributes]. *)
Definition extract_attribute (result : object) (attr : value) : outcome object :=
  k ← get attr "key";
  if negb (truthy k) then Return result
  else
    v ← get attr "value";
    if negb (truthy v) then Return result
    else
      sv ← get v "stringValue";
      if negb (is_undefined sv) then set_prop result k sv
      else
        iv ← get v "intValue";
        if negb (is_undefined iv) then n ← parseInt iv; set_prop result k (VNum n)
        else
          dv ← get v "doubleValue";
          if negb (is_undefined dv) then set_prop result k dv
          else
            bv ← get v "boolValue";
            if negb (is_undefined bv) then set_prop result k bv
            else set_prop result k (JSON_stringify v).

(** Of the object returned, a span keeps the own properties: they are
    what the routes serialize. *)
Definition extractAttributes (attributes : value) : outcome (gmap string value) :=
  if negb (truthy attributes) then Return ∅
  else
    items ← iterate attributes;
    result ← fold_outcome extract_attribute object_literal items;
    Return (own result).

Definition convertEvent (event : value) : outcome SpanEvent :=
  name ← get event "name";
  t ← get event "timeUnixNano";
  ts ← nanosToMillis t;
  attrs ← get event "attributes";
  a ← extractAttributes attrs;
  Return {| ev_name := if truthy name then name else VStr "unknown-event";
            ev_timestamp := ts;
            ev_attributes := a |}.

Definition extractEvents (evs : value) : outcome (list SpanEvent) :=
  if negb (truthy evs) then Return []
  else match evs with
       | VArr l => map_outcome convertEvent l
       | _ => Throw (TypeError "events.map is not a function")
       end.

Definition convertSpan (span : value) (service : value) : outcome TelemetrySpan :=
  start ← get span "startTimeUnixNano";
  startTimeMs ← nanosToMillis start;
  stop ← get span "endTimeUnixNano";
  endTimeMs ← nanosToMillis stop;
  tid ← get span "traceId";
  trace ← bytesToHex tid;
  sid ← get span "spanId";
  spanid ← bytesToHex sid;
  pid ← get span "parentSpanId";
  parent ← (if truthy pid then p ← bytesToHex pid; Return (Some p) else Return None);
  name ← get span "name";
  st ← get span "status";
  status_text ← extractStatus st;
  attrs ← get span "attributes";
  attributes_map ← extractAttributes attrs;
  evs ← get span "events";
  events_list ← extractEvents evs;
  iso ← Date_toISOString startTimeMs;
  Return {| traceId := trace;
            spanId := spanid;
            parentSpanId := parent;
            operationName := if truthy name then name else VStr "unknown-operation";
            startTime := startTimeMs;
            endTime := endTimeMs;
            duration := Num.sub endTimeMs startTimeMs;
            status := status_text;
            attributes := attributes_map;
            events := events_list;
            serviceName := service;
            timestamp := iso |}.

(** [for (const x of items) body(x)] in the world monad. *)
Fixpoint for_each {A} (body : A -> M unit) (items : list A) : M unit :=
  match items with
  | [] => mret tt
  | x :: rest => body x;; for_each body rest
  end.

Definition process_span (service : value) (span : value) : M unit :=
  telemetrySpan ← lift (convertSpan span service);
  addSpan telemetrySpan;;
  log Info "Processed span".

Definition process_scopeSpan (service : value) (scopeSpan : value) : M unit :=
  sp ← lift (get scopeSpan "spans");
  if negb (truthy sp) then log Warn "No spans found in scopeSpan"
  else items ← lift (iterate sp); for_each (process_span service) items.

Definition process_resourceSpan (resourceSpan : value) : M unit :=
  resource ← lift (get resourceSpan "resource");
  service ← lift (extractServiceName resource);
  scopes ← lift (get resourceSpan "scopeSpans");
  if negb (truthy scopes) then log Warn "No scopeSpans found in resourceSpan"
  else items ← lift (iterate scopes); for_each (process_scopeSpan service) items.

(** The promise of the [async] method is rejected exactly when the body
    re-throws. *)
Definition processTraces (data : value) : M unit :=
  try_catch
    (log Info "Processing OTLP traces data";;
     if negb (truthy data) then log Warn "No resourceSpans found in traces data"
     else
       rs ← lift (get data "resourceSpans");
       if negb (truthy rs) then log Warn "No resourceSpans found in traces data"
       else items ← lift (iterate rs); for_each process_resourceSpan items)
    (fun error => log Error "Error processing traces:";; throw error).
End OTLPProcessor.
End Processor.

Export Processor.

(** ** Vocabulary of the design document, and sample data *)

Module Spec.
#[local] Open Scope string_scope.
#[local] Open Scope Z_scope.

(** "status ERROR (case-insensitive on the raw wire string)". *)
Definition upper (c : ascii) : ascii :=
  let n := nat_of_ascii c in
  if ((97 <=? n) && (n <=? 122))%nat then ascii_of_nat (n - 32) else c.

Fixpoint uppercase (s : string) : string :=
  match s with
  | EmptyString => EmptyString
  | String c r => String (upper c) (uppercase r)
  end.

Definition matches_ERROR_ci (s : string) : bool :=
  String.eqb (uppercase s) "ERROR".

(** The statuses the store's [getStats] is written for. *)
Definition exactly_ERROR_or_error (s : string) : bool :=
  bool_decide (s = "ERROR" \/ s = "error").

(** A span with the given names and status; the other fields are those of
    a span decoded from an empty raw span starting at the epoch. *)
Definition sample_span (id service operation st : string) : TelemetrySpan :=
  {| traceId := id; spanId := id; parentSpanId := None;
     operationName := VStr operation;
     startTime := S754_zero false; endTime := S754_zero false;
     duration := S754_zero false;
     status := st; attributes := ∅; events := [];
     serviceName := VStr service;
     timestamp := "1970-01-01T00:00:00.000Z" |}.

(** "A decimal-digit string": one digit at least, and digits only; the
    nanosecond count it denotes. *)
Definition is_digit (c : ascii) : bool :=
  let n := nat_of_ascii c in ((48 <=? n) && (n <=? 57))%nat.

Definition is_decimal_digits (s : string) : bool :=
  negb (String.eqb s "") && forallb is_digit (list_ascii_of_string s).

Fixpoint decimal_value_from (acc : Z) (s : string) : Z :=
  match s with
  | EmptyString => acc
  | String c r => decimal_value_from (acc * 10 + (Z.of_nat (nat_of_ascii c) - 48)) r
  end.

Definition decimal_value (s : string) : Z := decimal_value_from 0 s.

(** A host to run the decoder on inputs that never reach the engine's
    built-ins; what it answers is of no consequence. *)
Definition any_host : Host :=
  {| host_Number_toString := fun _ _ => "";
     host_StringToNumber := fun _ => Num.NaN;
     host_JSON_stringify := fun _ => "";
     host_ISO_format := fun _ => "" |}.

(** Wire data. *)
Definition nullish (v : value) : bool :=
  match v with VUndefined | VNull => true | _ => false end.

Definition has_key (k : string) (attr : value) : bool :=
  strict_eq_str (get_opt attr "key") k.

Definition string_value_of (attr : value) : value :=
  get_opt (get_opt attr "value") "stringValue".

Definition resource_with (attrs : list value) : value :=
  VObj [("attributes", VArr attrs)].

Definition attribute (k : string) (v : value) : value :=
  VObj [("key", VStr k); ("value", v)].

Definition string_attribute (k s : string) : value :=
  attribute k (VObj [("stringValue", VStr s)]).

(** "A byte sequence is rendered as lowercase hex, each byte zero-padded to
    two hex digits, concatenated with no separators." *)
Definition hex_digit (n : N) : ascii :=
  default "0"%char (String.get (N.to_nat n) "0123456789abcdef").
Definition hex_byte (b : byte) : string :=
  let n := Byte.to_N b in
  String (hex_digit (n / 16)) (String (hex_digit (n mod 16)) EmptyString).
Definition hex_bytes (l : list byte) : string :=
  String.concat "" (List.map hex_byte l).
Definition byte_value (b : byte) : value := VNum (Num.of_Z (Z.of_N (Byte.to_N b))).
Definition bytes_value (l : list byte) : value := VArr (List.map byte_value l).

(** A field of a value object is present when it is not [undefined]. *)
Definition present (k : string) (v : value) : bool :=
  negb (is_undefined (get_opt v k)).

(** "A value is read from exactly one of stringValue, intValue, doubleValue,
    boolValue", the first present in that order; otherwise the JSON text of
    the value object. *)
Definition reference_value `{Host} (v : value) : outcome value :=
  if present "stringValue" v then Return (get_opt v "stringValue")
  else if present "intValue" v then n ← parseInt (get_opt v "intValue"); Return (VNum n)
  else if present "doubleValue" v then Return (get_opt v "doubleValue")
  else if present "boolValue" v then Return (get_opt v "boolValue")
  else Return (JSON_stringify v).

(** "Skip entries with no key or no value object"; a later entry replaces an
    earlier one with the same key. *)
Definition reference_entry `{Host} (result : gmap string value) (entry : value)
  : outcome (gmap string value) :=
  match get_opt entry "key", get_opt entry "value" with
  | VStr k, VObj props =>
      if String.eqb k "" then Return result
      else v ← reference_value (VObj props); Return (<[k := v]> result)
  | _, _ => Return result
  end.

Definition reference_attributes `{Host} (entries : list value)
  : outcome (gmap string value) :=
  fold_outcome reference_entry ∅ entries.

(** An entry as the wire format has it: an object whose key, if any, is a
    string and whose value, if any, is an object. *)
Definition wire_entry (entry : value) : Prop :=
  exists props,
    entry = VObj props /\
    (lookup_prop "key" props = VUndefined \/ exists k, lookup_prop "key" props = VStr k) /\
    (lookup_prop "value" props = VUndefined \/ exists p, lookup_prop "value" props = VObj p).

(** The key of the entry names an own property of the result. *)
Definition own_key (entry : value) : Prop := get_opt entry "key" <> VStr "__proto__".

(** A traces payload with one resource group, one scope group and the
    given raw spans. *)
Definition payload_of_spans (raw : list value) : value :=
  VObj [("resourceSpans",
         VArr [VObj [("scopeSpans", VArr [VObj [("spans", VArr raw)]])]])].

(** The store after spans with the given statuses were appended to a new
    store. *)
Definition store_with_statuses (sts : list string) : world :=
  exec (append_all (List.map (sample_span "00" "svc" "op") sts)) initial_world.
End Spec.

Export Spec.

(** ** Callers of the store *)

Module Usage.
#[local] Open Scope string_scope.
#[local] Open Scope Z_scope.

(** A call of one of the public methods of [TelemetryStorage], its result
    dropped. *)
Inductive call : Type :=
| CallAddSpan (span : TelemetrySpan)
| CallClear
| CallGetAllSpans
| CallGetRecentSpans (limit : option Z)
| CallGetSpansByService (name : string)
| CallGetSpansByOperation (name : string)
| CallGetTotalSpans
| CallGetStats.

Definition run_call (c : call) : M unit :=
  match c with
  | CallAddSpan span => addSpan span
  | CallClear => clear
  | CallGetAllSpans => getAllSpans;; mret tt
  | CallGetRecentSpans limit => getRecentSpans limit;; mret tt
  | CallGetSpansByService name => getSpansByService name;; mret tt
  | CallGetSpansByOperation name => getSpansByOperation name;; mret tt
  | CallGetTotalSpans => getTotalSpans;; mret tt
  | CallGetStats => getStats;; mret tt
  end.

Fixpoint run_calls (calls : list call) : M unit :=
  match calls with
  | [] => mret tt
  | c :: rest => run_call c;; run_calls rest
  end.

(** The spans passed to [addSpan] since the last [clear], oldest first. *)
Fixpoint added_since_clear (acc : list TelemetrySpan) (calls : list call)
  : list TelemetrySpan :=
  match calls with
  | [] => acc
  | CallAddSpan span :: rest => added_since_clear (acc ++ [span]) rest
  | CallClear :: rest => added_since_clear [] rest
  | _ :: rest => added_since_clear acc rest
  end.

(** The number of spans of a list with a given operation name, and the
    lists whose operation names are strings, as [TelemetrySpan] declares. *)
Definition operation_count (name : string) (l : list TelemetrySpan) : nat :=
  List.length (List.filter (fun span => strict_eq_str (operationName span) name) l).

Definition operations_are_strings (l : list TelemetrySpan) : Prop :=
  Forall (fun span => exists name, operationName span = VStr name) l.

Definition services_are_strings (l : list TelemetrySpan) : Prop :=
  Forall (fun span => exists name, serviceName span = VStr name) l.

(** The spans of a list whose field is the string [name], in the order of
    the list and as often as they occur in it. *)
#[global] Instance is_string_dec (v : value) (name : string) : Decision (v = VStr name).
Proof.
  destruct v as [| | | |s| |]; try (right; discriminate).
  destruct (decide (s = name)) as [->|Hne]; [left; reflexivity|right; congruence].
Defined.

Definition spans_named (field : TelemetrySpan -> value) (name : string)
    (l : list TelemetrySpan) : list TelemetrySpan :=
  filter (fun span => field span = VStr name) l.
(** A store holding three spans of two services and two operations. *)
Definition sample_store : world :=
  exec (append_all [sample_span "01" "web" "load" "OK";
                    sample_span "02" "web" "save" "ERROR";
                    sample_span "03" "api" "load" "OK"]) initial_world.
End Usage.

Export Usage.

(** ** Payloads and what the decoder does to the store *)

Module Wire.
#[local] Open Scope string_scope.
#[local] Open Scope Z_scope.

(** A traces payload with any number of resource groups, each with its
    resource and its scope groups, each of these with its raw spans. *)
Definition scope_value (raw : list value) : value := VObj [("spans", VArr raw)].

Definition group_value (g : value * list (list value)) : value :=
  VObj [("resource", fst g); ("scopeSpans", VArr (List.map scope_value (snd g)))].

Definition payload_value (groups : list (value * list (list value))) : value :=
  VObj [("resourceSpans", VArr (List.map group_value groups))].

(** The raw spans of a resource group are convertible, with the service
    name of the group's resource. *)
Definition group_decodes `{Host} (g : value * list (list value))
    (ts : list (list TelemetrySpan)) : Prop :=
  exists service : value,
    extractServiceName (fst g) = Return service /\
    Forall2 (Forall2 (fun raw t => convertSpan raw service = Return t)) (snd g) ts.

(** A store of positive capacity [cap] that is within it. *)
Definition store_ok (cap : nat) (w : world) : Prop :=
  wf w /\ maxSpans (storage w) = Z.of_nat cap /\ (List.length (contents w) <= cap)%nat.

(** Running [m] from [w] ends with [o], having appended [added] to the
    store and [msgs] to the log. *)
Definition effect (cap : nat) (w : world) (m : M unit) (o : outcome unit)
    (added : list TelemetrySpan) (msgs : list (level * string)) : Prop :=
  exists w' : world,
    m w = (o, w') /\ store_ok cap w' /\
    contents w' = last_n cap (contents w ++ added) /\
    logged w' = (logged w ++ msgs)%list.

Definition processed (m : level * string) : bool :=
  match fst m with Info => String.eqb (snd m) "Processed span" | _ => false end.

Definition is_Error (m : level * string) : bool :=
  match fst m with Error => true | _ => false end.

(** What every run of the decoder's loops keeps: the spans appended
    satisfy [P], one line is logged per span, and no error line. *)
Definition tidy (P : TelemetrySpan -> Prop) (added : list TelemetrySpan)
    (msgs : list (level * string)) : Prop :=
  Forall P added /\
  List.length (List.filter processed msgs) = List.length added /\
  List.filter is_Error msgs = [].

Definition decoder_effect (P : TelemetrySpan -> Prop) (cap : nat) (w : world)
    (m : M unit) : Prop :=
  exists o added msgs, effect cap w m o added msgs /\ tidy P added msgs.

(** The span is the conversion of a raw span, for the service name
    extracted from a resource. *)
Definition converted `{Host} (t : TelemetrySpan) : Prop :=
  exists raw resource service : value,
    extractServiceName resource = Return service /\
    convertSpan raw service = Return t.
(** The raw spans of a payload, in the order of the document, and the
    test for the OTLP status code of an error. *)
Definition raw_spans (groups : list (value * list (list value))) : list value :=
  concat (List.map (fun g => concat (snd g)) groups).

Definition has_error_code (raw : value) : bool :=
  truthy (get_opt raw "status") &&
  strict_eq_num (get_opt (get_opt raw "status") "code") (Num.of_Z 2).

(** An entry that the loop of [extractAttributes] does not skip, with the
    property name its key gives. *)
Definition kept_entry `{Host} (entry : value) (name : string) : Prop :=
  truthy (get_opt entry "key") = true /\
  truthy (get_opt entry "value") = true /\
  ToString (get_opt entry "key") = Return name.

(** Reading a lowercase hex text back into bytes. *)
Definition hex_digit_value (c : ascii) : option N :=
  let n := N_of_ascii c in
  if ((48 <=? n) && (n <=? 57))%N then Some (n - 48)%N
  else if ((97 <=? n) && (n <=? 102))%N then Some (n - 87)%N
  else None.

Fixpoint bytes_of_hex (s : string) : option (list byte) :=
  match s with
  | EmptyString => Some []
  | String c1 (String c2 r) =>
      match hex_digit_value c1, hex_digit_value c2, bytes_of_hex r with
      | Some hi, Some lo, Some rest =>
          match Byte.of_N (16 * hi + lo) with
          | Some b => Some (b :: rest)
          | None => None
          end
      | _, _, _ => None
      end
  | String _ EmptyString => None
  end.
End Wire.

Export Wire.

(** ** index.ts: the handlers of the routes *)

Module Routes.
#[local] Open Scope string_scope.
#[local] Open Scope Z_scope.

(** What a handler passes to [res.json], and the status it set (200 when
    it set none).  The answer of the root route is a constant.  The
    pictographs that open some log messages are left out of the texts. *)
Inductive reply : Type :=
| ReplySuccess
| ReplyError (error : string)
| ReplySpans (total : Z) (page : list TelemetrySpan)
| ReplyStats (stats : TelemetryStats)
| ReplyCleared (message : string)
| ReplyHealth (status : string) (timestamp : string) (uptime : number) (totalSpans : Z)
| ReplyRoot.

Record response : Type := {
  code : Z;
  body : reply
}.

(** [a.slice(start, stop)] on a list. *)
Definition slice_range {A} (start stop : Z) (l : list A) : list A :=
  let len := Z.of_nat (List.length l) in
  let k := if start <? 0 then Z.max (len + start) 0 else Z.min start len in
  let final := if stop <? 0 then Z.max (len + stop) 0 else Z.min stop len in
  take (Z.to_nat (final - k)) (drop (Z.to_nat k) l).

Definition array_slice_range (r : ref) (start stop : Z) : M ref :=
  l ← array_read r; array_new (slice_range start stop l).

(** [GET /telemetry/spans] *)
Definition get_telemetry_spans : M response :=
  all ← getAllSpans;
  total ← array_length all;
  page ← array_slice_range all 0 100;
  l ← array_read page;
  mret {| code := 200; body := ReplySpans total l |}.

(** [GET /telemetry/stats] *)
Definition get_telemetry_stats : M response :=
  stats ← getStats; mret {| code := 200; body := ReplyStats stats |}.

(** [DELETE /telemetry/clear] *)
Definition delete_telemetry_clear : M response :=
  clear;;
  log Info "Cleared all telemetry data";;
  mret {| code := 200; body := ReplyCleared "All telemetry data cleared" |}.

(** [JSON.stringify(req.body)]: [undefined] for a request without a
    parsed body, a text otherwise. *)
Definition JSON_stringify_body `{Host} (b : value) : value :=
  if is_undefined b then VUndefined else JSON_stringify b.

(** [POST /v1/traces].  The length of the JSON text of the body is read
    twice before the processor runs, for the console and for the log. *)
Definition post_v1_traces `{Host} (b : value) : M response :=
  try_catch
    (lift (JS.get (JSON_stringify_body b) "length");;
     lift (JS.get (JSON_stringify_body b) "length");;
     log Info "Received traces data";;
     processTraces b;;
     mret {| code := 200; body := ReplySuccess |})
    (fun error =>
       log Error "Error processing traces:";;
       mret {| code := 500; body := ReplyError "Failed to process traces" |}).











End Routes.

Export Routes.

(** ** TelemetryService.ts: the client that exports spans *)

Module Client.
#[local] Open Scope string_scope.
#[local] Open Scope Z_scope.

Definition number_mul (x y : number) : number := SFmul Num.prec Num.emax x y.
Definition number_add (x y : number) : number := SFadd Num.prec Num.emax x y.

(** [o[key] = v] on an object literal [{}], for a key that is a string:
    the name [__proto__] reaches the inherited setter and creates no own
    property.  [Object.entries] lists a key once, so the setter is called
    once at most and the accessor stays in reach. *)
Definition assign (o : gmap string value) (key : string) (v : value) : gmap string value :=
  if String.eqb key "__proto__" then o else <[key := v]> o.

(** [flattenMetadata].  The metadata is given by its entries, in the
    order of [Object.entries]; [None] is a missing metadata object. *)
Definition flattenMetadata (metadata : option (list (string * value)))
  : gmap string value :=
  match metadata with
  | None => ∅
  | Some entries =>
      fold_left
        (fun flattened kv =>
           if negb (is_undefined (snd kv)) then assign flattened (fst kv) (snd kv)
           else flattened)
        entries ∅
  end.

(** [s.replace(/\//g, '_')] and [s.replace(/^_/, '')]. *)
Fixpoint replace_slashes (s : string) : string :=
  match s with
  | EmptyString => EmptyString
  | String c r => String (if Ascii.eqb c "/" then "_"%char else c) (replace_slashes r)
  end.

Definition drop_leading_underscore (s : string) : string :=
  match s with
  | String "_" r => r
  | _ => s
  end.

(** [getPathFromUrl].  The parser of [new URL(url)] is the engine's:
    [pathname_of] gives the path of a URL that parses, and nothing for one
    that makes the constructor throw. *)
Definition getPathFromUrl (pathname_of : string -> option string) (url : string) : string :=
  match pathname_of url with
  | Some pathname =>
      let path := drop_leading_underscore (replace_slashes pathname) in
      if negb (String.eqb path "") then path else "root"
  | None => "invalid_url"
  end.

(** The payload [manualExportSpan] builds before it serializes it: the
    identifiers of the span context, the time [now] of [Date.now()], the
    name of the span and the entries of its attributes. *)
Definition export_attribute `{Host} (kv : string * value) : outcome value :=
  text ← ToString (snd kv);
  Return (VObj [("key", VStr (fst kv)); ("value", VObj [("stringValue", VStr text)])]).

Definition otlpData `{Host} (traceId spanId : string) (now : number) (spanName : string)
    (attributes : list (string * value)) : outcome value :=
  let start := Number_toString 10 (number_mul now (Num.of_Z 1000000)) in
  let stop :=
    Number_toString 10 (number_mul (number_add now (Num.of_Z 100)) (Num.of_Z 1000000)) in
  entries ← map_outcome export_attribute attributes;
  Return
    (VObj [("resourceSpans",
       VArr [VObj [
         ("resource",
            VObj [("attributes",
               VArr [VObj [("key", VStr "service.name");
                           ("value", VObj [("stringValue", VStr "opentelemetry-rn-app")])];
                     VObj [("key", VStr "service.version");
                           ("value", VObj [("stringValue", VStr "1.0.0")])]])]);
         ("scopeSpans",
            VArr [VObj [
              ("scope", VObj [("name", VStr "opentelemetry-rn-app");
                              ("version", VStr "1.0.0")]);
              ("spans",
                 VArr [VObj [("traceId", VStr traceId);
                             ("spanId", VStr spanId);
                             ("name", VStr spanName);
                             ("kind", VNum (Num.of_Z 1));
                             ("startTimeUnixNano", VStr start);
                             ("endTimeUnixNano", VStr stop);
                             ("attributes", VArr entries);
                             ("status", VObj [("code", VNum (Num.of_Z 1))])]])]])]])]).

(** The entries of attributes whose values are strings. *)
Definition string_entries (l : list (string * string)) : list (string * value) :=
  List.map (fun kv => (fst kv, VStr (snd kv))) l.

(** The keys the receiver keeps. *)
Definition kept_key (kv : string * value) : bool :=
  negb (String.eqb (fst kv) "") && negb (String.eqb (fst kv) "__proto__").

(** A host that prints an integral number with all its digits; read back,
    the text gives the number. *)
Definition exact_host : Host :=
  {| host_Number_toString :=
       fun radix x => match Num.to_Z x with
                      | Some z => Num.Z_to_string radix z
                      | None => ""
                      end;
     host_StringToNumber := fun _ => Num.NaN;
     host_JSON_stringify := fun _ => "";
     host_ISO_format := fun _ => "" |}.
End Client.

Export Client.

(** ** config/telemetry.ts: the manager of the tracer provider *)

Module Manager.
#[local] Open Scope string_scope.

Record TelemetryConfig : Type := {
  cfg_serviceName : string;
  cfg_serviceVersion : string;
  cfg_endpoint : string;
  cfg_apiKey : option string;
  cfg_environment : option string
}.

(** What the tracing library does inside the [try] of [initialize]: the
    set-up completes, or it throws before the provider is assigned, or it
    throws after that. *)
Inductive sdk_outcome : Type :=
| SdkReady
| SdkFailsBeforeProvider
| SdkFailsAfterProvider.

(** The fields of a [TelemetryManager]; of the provider only whether
    there is one. *)
Record TelemetryManager : Type := {
  provider : bool;
  isInitialized : bool;
  config : option TelemetryConfig
}.

Definition new_manager : TelemetryManager :=
  {| provider := false; isInitialized := false; config := None |}.

Definition initialize (sdk : sdk_outcome) (c : TelemetryConfig) (m : TelemetryManager)
  : TelemetryManager :=
  if isInitialized m then m
  else {| provider := match sdk with
                      | SdkFailsBeforeProvider => provider m
                      | SdkReady | SdkFailsAfterProvider => true
                      end;
          isInitialized := true;
          config := Some c |}.

(** [shutdown] returns at once when there is no provider; otherwise the
    fields are reset when the promise of the provider settles, fulfilled
    or rejected. *)
Definition shutdown_starts (m : TelemetryManager) : bool := provider m.

Definition shutdown_settles (m : TelemetryManager) : TelemetryManager :=
  {| provider := false; isInitialized := false; config := config m |}.

Definition isReady (m : TelemetryManager) : bool := isInitialized m.
Definition getConfig (m : TelemetryManager) : option TelemetryConfig := config m.

(** Calls of the manager and settlements of its pending shutdowns, in
    the order in which they happen. *)
Inductive manager_event : Type :=
| Initialize (sdk : sdk_outcome) (c : TelemetryConfig)
| Shutdown
| ShutdownSettles.

Definition manager_step (s : TelemetryManager * nat) (ev : manager_event)
  : TelemetryManager * nat :=
  let '(m, pending) := s in
  match ev with
  | Initialize sdk c => (initialize sdk c m, pending)
  | Shutdown => if shutdown_starts m then (m, S pending) else (m, pending)
  | ShutdownSettles =>
      match pending with
      | O => (m, O)
      | S p => (shutdown_settles m, p)
      end
  end.

Definition manager_run (events : list manager_event) (s : TelemetryManager * nat)
  : TelemetryManager * nat :=
  fold_left manager_step events s.

Definition is_Initialize (ev : manager_event) : bool :=
  match ev with Initialize _ _ => true | _ => false end.

Definition is_ShutdownSettles (ev : manager_event) : bool :=
  match ev with ShutdownSettles => true | _ => false end.

(** The configuration the application passes by default. *)
Definition defaultTelemetryConfig : TelemetryConfig :=
  {| cfg_serviceName := "opentelemetry-rn-app";
     cfg_serviceVersion := "1.0.0";
     cfg_endpoint := "http://10.0.2.2:4318";
     cfg_apiKey := None;
     cfg_environment := Some "development" |}.
End Manager.

Export Manager.

(** * Properties *)

(** ** The store *)

Section StoreFacts.
#[local] Open Scope Z_scope.

Lemma slice_list_neg {A} (n : nat) (l : list A) :
  (0 < n)%nat -> slice_list (- Z.of_nat n) l = last_n n l.
Proof.
  intros Hn. unfold slice_list, last_n.
  destruct (Z.ltb_spec (- Z.of_nat n) 0) as [_|Hge]; [|lia].
  f_equal. lia.
Qed.


Lemma last_n_all {A} (n : nat) (l : list A) :
  (List.length l <= n)%nat -> last_n n l = l.
Proof.
  intros Hle. unfold last_n.
  replace (List.length l - n)%nat with 0%nat by lia. reflexivity.
Qed.

Lemma last_n_app {A} (n : nat) (a b : list A) :
  last_n n (last_n n a ++ b) = last_n n (a ++ b).
Proof.
  destruct (Nat.le_gt_cases (List.length a) n) as [Hle|Hgt].
  - rewrite (last_n_all n a Hle). reflexivity.
  - unfold last_n.
    rewrite <- (drop_app_le a b (List.length a - n)) by lia.
    rewrite drop_drop. f_equal.
    rewrite length_drop, !length_app. lia.
Qed.

Lemma length_last_n {A} (n : nat) (l : list A) :
  List.length (last_n n l) = Nat.min n (List.length l).
Proof. unfold last_n. rewrite length_drop. lia. Qed.

(** What one [addSpan] does to a well-formed world. *)
Lemma addSpan_run (span : TelemetrySpan) (w : world) :
  wf w ->
  let l := contents w ++ [span] in
  addSpan span w =
    (Return tt,
     if maxSpans (storage w) <? Z.of_nat (List.length l)
     then {| heap := <[spans (storage w) := l]> (heap w)
                       ++ [slice_list (- maxSpans (storage w)) l];
             storage := {| spans := List.length (heap w);
                           maxSpans := maxSpans (storage w) |};
             logged := logged w |}
     else {| heap := <[spans (storage w) := l]> (heap w);
             storage := storage w;
             logged := logged w |}).
Proof.
  intros Hwf l. unfold wf in Hwf.
  unfold addSpan, array_push, array_length, array_slice, array_read, array_write,
    array_new, this_spans, this_maxSpans, set_this_spans.
  unfold mbind, M_bind, mret, M_ret. cbn [heap storage logged fst snd].
  rewrite list_lookup_insert_eq by exact Hwf. cbn [default].
  fold (contents w). fold l.
  change (id l) with l.
  destruct (maxSpans (storage w) <? Z.of_nat (List.length l)); [|reflexivity].
  cbn [heap storage logged spans maxSpans].
  rewrite list_lookup_insert_eq by exact Hwf. cbn [default].
  rewrite length_insert. reflexivity.
Qed.

Lemma addSpan_wf (span : TelemetrySpan) (w : world) :
  wf w -> wf (exec (addSpan span) w).
Proof.
  intros Hwf. unfold exec. rewrite addSpan_run by exact Hwf.
  cbn [snd]. unfold wf in *.
  destruct (_ <? _); cbn [heap storage spans].
  - rewrite length_app, length_insert. cbn. lia.
  - rewrite length_insert. exact Hwf.
Qed.

Lemma addSpan_maxSpans (span : TelemetrySpan) (w : world) :
  wf w -> maxSpans (storage (exec (addSpan span) w)) = maxSpans (storage w).
Proof.
  intros Hwf. unfold exec. rewrite addSpan_run by exact Hwf.
  cbn [snd]. destruct (_ <? _); reflexivity.
Qed.

Lemma addSpan_contents (span : TelemetrySpan) (w : world) :
  wf w ->
  contents (exec (addSpan span) w) =
    let l := contents w ++ [span] in
    if maxSpans (storage w) <? Z.of_nat (List.length l)
    then slice_list (- maxSpans (storage w)) l else l.
Proof.
  intros Hwf. unfold exec. rewrite addSpan_run by exact Hwf.
  cbn [snd]. cbv zeta.
  destruct (_ <? _); unfold contents at 1; cbn [heap storage spans].
  - rewrite lookup_app_r by (rewrite length_insert; lia).
    rewrite length_insert, Nat.sub_diag. reflexivity.
  - rewrite list_lookup_insert_eq by exact Hwf. reflexivity.
Qed.

Lemma append_all_cons (span : TelemetrySpan) (rest : list TelemetrySpan) (w : world) :
  wf w ->
  exec (append_all (span :: rest)) w = exec (append_all rest) (exec (addSpan span) w).
Proof.
  intros Hwf. unfold exec at 1 3. cbn [append_all].
  unfold mbind at 1, M_bind at 1.
  rewrite (addSpan_run span w Hwf). cbv zeta. reflexivity.
Qed.

Lemma append_all_contents (m : nat) (l : list TelemetrySpan) :
  (0 < m)%nat ->
  forall w : world,
    wf w -> maxSpans (storage w) = Z.of_nat m ->
    (List.length (contents w) <= m)%nat ->
    contents (exec (append_all l) w) = last_n m (contents w ++ l).
Proof.
  intros Hm. induction l as [|span rest IH]; intros w Hwf Hcap Hlen.
  - rewrite app_nil_r, last_n_all by exact Hlen. reflexivity.
  - rewrite append_all_cons by exact Hwf.
    assert (Hstep : contents (exec (addSpan span) w) = last_n m (contents w ++ [span])).
    { rewrite addSpan_contents by exact Hwf. cbv zeta. rewrite Hcap.
      destruct (Z.ltb_spec (Z.of_nat m) (Z.of_nat (List.length (contents w ++ [span]))))
        as [Hlt|Hge].
      - apply slice_list_neg. exact Hm.
      - symmetry. apply last_n_all. lia. }
    rewrite IH.
    + rewrite Hstep, last_n_app, <- app_assoc. reflexivity.
    + apply addSpan_wf. exact Hwf.
    + rewrite addSpan_maxSpans by exact Hwf. exact Hcap.
    + rewrite Hstep, length_last_n. lia.
Qed.


(** The reads: each allocates at most one array and touches no other. *)
Lemma array_filter_run (p : TelemetrySpan -> bool) (w : world) :
  (a ← this_spans; array_filter p a) w =
    (Return (List.length (heap w)),
     with_heap (heap w ++ [List.filter p (contents w)]) w).
Proof. reflexivity. Qed.

Lemma copy_reverse_run (l : list TelemetrySpan) (w : world) :
  (c ← array_new l; array_reverse c) w =
    (Return (List.length (heap w)), with_heap (heap w ++ [rev l]) w).
Proof.
  unfold array_new, array_reverse, array_read, array_write.
  unfold mbind, M_bind, mret, M_ret, with_heap. cbn [heap storage logged].
  rewrite lookup_app_r by lia. rewrite Nat.sub_diag. cbn [lookup list_lookup default].
  rewrite insert_app_r_alt by lia. rewrite Nat.sub_diag. reflexivity.
Qed.

Lemma getAllSpans_run (w : world) :
  getAllSpans w =
    (Return (List.length (heap w)), with_heap (heap w ++ [rev (contents w)]) w).
Proof. apply (copy_reverse_run (contents w) w). Qed.

Lemma getRecentSpans_run (limit : option Z) (w : world) :
  getRecentSpans limit w =
    (Return (List.length (heap w)),
     with_heap (heap w ++ [rev (slice_list (- default 50 limit) (contents w))]) w).
Proof. apply (copy_reverse_run (slice_list (- default 50 limit) (contents w)) w). Qed.

Lemma getTotalSpans_run (w : world) :
  getTotalSpans w = (Return (Z.of_nat (List.length (contents w))), w).
Proof. reflexivity. Qed.

Lemma getStats_run (w : world) : getStats w = (Return (stats_of (contents w)), w).
Proof. reflexivity. Qed.

Lemma contents_with_heap_app (fresh : list (list TelemetrySpan)) (w : world) :
  wf w -> contents (with_heap (heap w ++ fresh) w) = contents w.
Proof.
  intros Hwf. unfold contents, with_heap. cbn [heap storage].
  rewrite lookup_app_l by exact Hwf. reflexivity.
Qed.
End StoreFacts.

(** ** Claims about the store *)

Section StoreClaims.
#[local] Open Scope string_scope.
#[local] Open Scope Z_scope.

Lemma new_world_wf (cap : Z) : wf (new_world cap).
Proof. unfold wf, new_world. cbn. lia. Qed.

(** The store of the source, whose capacity is 10000. *)
Lemma initial_world_keeps_last_10000 (k : nat) (l : list TelemetrySpan) :
  List.length l = (Z.to_nat 10000 + k)%nat ->
  contents (exec (append_all l) initial_world) = drop k l.
Proof.
  intros Hlen.
  rewrite (append_all_contents (Z.to_nat 10000) l).
  - change (contents initial_world) with (@nil TelemetrySpan).
    unfold last_n. cbn [app]. f_equal. lia.
  - lia.
  - apply new_world_wf.
  - unfold initial_world, new_world. cbn [storage maxSpans]. lia.
  - change (contents initial_world) with (@nil TelemetrySpan). cbn [List.length]. lia.
Qed.

(** C1. Appending [maxSpans + k] spans to a store created empty, with a
    positive capacity such as the 10000 of the source, leaves exactly
    [maxSpans] spans: the last [maxSpans] appended, the [k] oldest being
    discarded, in insertion order as [getSpansByService] and
    [getSpansByOperation] list them. *)
Theorem C1_capacity_keeps_last (m k : nat) (l : list TelemetrySpan) :
  (0 < m)%nat ->
  List.length l = (m + k)%nat ->
  let w := exec (append_all l) (new_world (Z.of_nat m)) in
  contents w = drop k l /\
  List.length (contents w) = m /\
  (forall name : string,
      exists r : ref,
        result (getSpansByService name) w = Return r /\
        heap (exec (getSpansByService name) w) !! r =
          Some (List.filter (fun span => strict_eq_str (serviceName span) name) (drop k l))) /\
  (forall name : string,
      exists r : ref,
        result (getSpansByOperation name) w = Return r /\
        heap (exec (getSpansByOperation name) w) !! r =
          Some (List.filter (fun span => strict_eq_str (operationName span) name) (drop k l))).
Proof.
  intros Hm Hlen w.
  assert (Hc : contents w = drop k l).
  { unfold w. rewrite (append_all_contents m l Hm).
    - change (contents (new_world (Z.of_nat m))) with (@nil TelemetrySpan).
      unfold last_n. cbn [app]. f_equal. lia.
    - apply new_world_wf.
    - reflexivity.
    - cbn. lia. }
  split; [exact Hc|]. split; [rewrite Hc, length_drop; lia|].
  split; intros name; exists (List.length (heap w)).
  - unfold result, exec, getSpansByService. rewrite array_filter_run.
    cbn [fst snd with_heap heap]. split; [reflexivity|].
    rewrite lookup_app_r by lia. rewrite Nat.sub_diag, Hc. reflexivity.
  - unfold result, exec, getSpansByOperation. rewrite array_filter_run.
    cbn [fst snd with_heap heap]. split; [reflexivity|].
    rewrite lookup_app_r by lia. rewrite Nat.sub_diag, Hc. reflexivity.
Qed.

(** Three appends to a store of capacity 2. *)
Lemma C1_capacity_keeps_last_witness :
  let s1 := sample_span "01" "a" "x" "OK" in
  let s2 := sample_span "02" "b" "y" "OK" in
  let s3 := sample_span "03" "a" "y" "OK" in
  contents (exec (append_all [s1; s2; s3]) (new_world 2)) = [s2; s3].
Proof.
  intros s1 s2 s3.
  refine (proj1 (C1_capacity_keeps_last 2 1 [s1; s2; s3] _ _)).
  - lia.
  - reflexivity.
Defined.

(** C9. [getAllSpans] returns a new array holding the stored spans in the
    reverse of insertion order; after [S1] then [S2] were appended to a
    new store it holds [[S2; S1]]. *)
Theorem C9_getAllSpans_reverse :
  (forall w : world,
      exists r : ref,
        result getAllSpans w = Return r /\
        heap (exec getAllSpans w) !! r = Some (rev (contents w))) /\
  (forall S1 S2 : TelemetrySpan,
      let w := exec (addSpan S1;; addSpan S2) initial_world in
      exists r : ref,
        result getAllSpans w = Return r /\
        heap (exec getAllSpans w) !! r = Some [S2; S1]).
Proof.
  assert (Hall : forall w : world,
             exists r : ref,
               result getAllSpans w = Return r /\
               heap (exec getAllSpans w) !! r = Some (rev (contents w))).
  { intros w. exists (List.length (heap w)).
    unfold result, exec. rewrite getAllSpans_run. cbn [fst snd with_heap heap].
    split; [reflexivity|].
    rewrite lookup_app_r by lia. rewrite Nat.sub_diag. reflexivity. }
  split; [exact Hall|].
  intros S1 S2 w. destruct (Hall w) as [r [Hr Hh]].
  exists r. split; [exact Hr|]. rewrite Hh. reflexivity.
Qed.

(** C10. No read of the store changes what it holds: on a store whose
    array is allocated, [getAllSpans], [getRecentSpans],
    [getSpansByService], [getSpansByOperation], [getTotalSpans] and
    [getStats] leave the fields of the store, every array that existed
    before the call and hence the stored sequence as they were; the
    arrays they return are new ones.  [addSpan] and [clear] are the
    methods that change the stored sequence. *)
Theorem C10_reads_leave_store_unchanged (w : world) (limit : option Z) (name : string) :
  wf w ->
  let unchanged (w' : world) :=
    storage w' = storage w /\
    (exists fresh, heap w' = (heap w ++ fresh)%list) /\
    contents w' = contents w in
  unchanged (exec getAllSpans w) /\
  unchanged (exec (getRecentSpans limit) w) /\
  unchanged (exec (getSpansByService name) w) /\
  unchanged (exec (getSpansByOperation name) w) /\
  unchanged (exec getTotalSpans w) /\
  unchanged (exec getStats w) /\
  (forall span : TelemetrySpan,
      contents (exec (addSpan span) initial_world) = [span]) /\
  contents (exec clear w) = [].
Proof.
  intros Hwf unchanged.
  assert (Hfresh : forall fresh, unchanged (with_heap (heap w ++ fresh)%list w)).
  { intros fresh. split; [reflexivity|]. split; [exists fresh; reflexivity|].
    apply contents_with_heap_app. exact Hwf. }
  assert (Hsame : unchanged w).
  { split; [reflexivity|]. split; [exists []; rewrite app_nil_r; reflexivity|].
    reflexivity. }
  split; [unfold exec; rewrite getAllSpans_run; apply Hfresh|].
  split; [unfold exec; rewrite getRecentSpans_run; apply Hfresh|].
  split; [unfold exec, getSpansByService; rewrite array_filter_run; apply Hfresh|].
  split; [unfold exec, getSpansByOperation; rewrite array_filter_run; apply Hfresh|].
  split; [unfold exec; rewrite getTotalSpans_run; apply Hsame|].
  split; [unfold exec; rewrite getStats_run; apply Hsame|].
  split; [reflexivity|].
  unfold exec, clear, contents, array_new, set_this_spans.
  unfold mbind, M_bind. cbn [snd heap storage spans].
  rewrite lookup_app_r by lia. rewrite Nat.sub_diag. reflexivity.
Qed.

(** A store holding two spans, read by [getAllSpans]. *)
Lemma C10_reads_leave_store_unchanged_witness :
  contents (exec getAllSpans (store_with_statuses ["OK"; "ERROR"])) =
  contents (store_with_statuses ["OK"; "ERROR"]).
Proof.
  refine (proj2 (proj2 (proj1
    (C10_reads_leave_store_unchanged (store_with_statuses ["OK"; "ERROR"]) None "svc" _)))).
  unfold wf. vm_compute. lia.
Defined.

Lemma is_error_exact (span : TelemetrySpan) :
  is_error span = exactly_ERROR_or_error (status span).
Proof.
  unfold is_error, exactly_ERROR_or_error.
  destruct (String.eqb_spec (status span) "ERROR") as [He|He];
    destruct (String.eqb_spec (status span) "error") as [Hl|Hl]; cbn [orb];
    symmetry; try (apply bool_decide_eq_true; tauto).
  apply bool_decide_eq_false. tauto.
Qed.

Lemma count_span_counts (l : list TelemetrySpan) :
  forall (ops : list (value * nat)) (errs succs : nat),
    let '(_, errs', succs') := fold_left count_span l (ops, errs, succs) in
    errs' = (errs + List.length (List.filter is_error l))%nat /\
    succs' = (succs + List.length (List.filter (fun s => negb (is_error s)) l))%nat.
Proof.
  induction l as [|span rest IH]; intros ops errs succs.
  - cbn. lia.
  - cbn [fold_left List.filter]. unfold count_span at 2.
    destruct (is_error span); cbn [negb].
    + match goal with |- context [fold_left count_span rest (?o, ?e, ?s)] =>
        specialize (IH o e s); destruct (fold_left count_span rest (o, e, s)) as [[? ?] ?]
      end.
      cbn [List.length]. lia.
    + match goal with |- context [fold_left count_span rest (?o, ?e, ?s)] =>
        specialize (IH o e s); destruct (fold_left count_span rest (o, e, s)) as [[? ?] ?]
      end.
      cbn [List.length]. lia.
Qed.

Lemma stats_counts (w : world) :
  exists st : TelemetryStats,
    result getStats w = Return st /\
    errorCount st = List.length (List.filter is_error (contents w)) /\
    successCount st = List.length (List.filter (fun s => negb (is_error s)) (contents w)).
Proof.
  exists (stats_of (contents w)). split; [reflexivity|].
  unfold stats_of.
  destruct (Z.eqb_spec (Z.of_nat (List.length (contents w))) 0) as [Hz|Hnz].
  - destruct (contents w); [cbn; split; reflexivity | cbn in Hz; lia].
  - pose proof (count_span_counts (contents w) [] 0%nat 0%nat) as Hc.
    destruct (fold_left count_span (contents w) ([], 0%nat, 0%nat)) as [[ops errs] succs].
    cbn [errorCount successCount]. exact Hc.
Qed.

(** C7 as stated fails: a stored span whose status is ["Error"] matches
    ["ERROR"] case-insensitively and is not counted as an error. *)
Lemma C7_counterexample_mixed_case :
  exists st : TelemetryStats,
    result getStats (store_with_statuses ["Error"]) = Return st /\
    errorCount st <>
      List.length (List.filter (fun span => matches_ERROR_ci (status span))
                     (contents (store_with_statuses ["Error"]))).
Proof.
  eexists. split; [reflexivity|]. cbn. discriminate.
Qed.

(** C7, amended. [getStats] reports as [errorCount] the number of stored
    spans whose status is exactly ["ERROR"] or exactly ["error"], and as
    [successCount] the number of all the others; for the statuses
    ["OK"], ["ERROR"], ["error"], ["OK"] it reports 2 and 2. *)
Theorem C7_errorCount_two_spellings (w : world) :
  exists st : TelemetryStats,
    result getStats w = Return st /\
    errorCount st =
      List.length (List.filter (fun span => exactly_ERROR_or_error (status span))
                     (contents w)) /\
    successCount st =
      List.length (List.filter (fun span => negb (exactly_ERROR_or_error (status span)))
                     (contents w)) /\
    (List.map status (contents w) = ["OK"; "ERROR"; "error"; "OK"] ->
     errorCount st = 2%nat /\ successCount st = 2%nat).
Proof.
  destruct (stats_counts w) as [st [Hst [He Hs]]].
  exists st. split; [exact Hst|].
  assert (He' : errorCount st =
                List.length (List.filter (fun span => exactly_ERROR_or_error (status span))
                               (contents w))).
  { rewrite He. f_equal. apply List.filter_ext. intros a. apply is_error_exact. }
  assert (Hs' : successCount st =
                List.length (List.filter
                               (fun span => negb (exactly_ERROR_or_error (status span)))
                               (contents w))).
  { rewrite Hs. f_equal. apply List.filter_ext. intros a. rewrite is_error_exact.
    reflexivity. }
  split; [exact He'|]. split; [exact Hs'|].
  intros Hmap. rewrite He, Hs.
  destruct (contents w) as [|a [|b [|c [|d [|e r]]]]]; try discriminate Hmap.
  cbn [List.map] in Hmap. injection Hmap as Ha Hb Hc Hd.
  cbn [List.filter]. unfold is_error. rewrite Ha, Hb, Hc, Hd. cbn. split; reflexivity.
Qed.

(** The four statuses of the design document. *)
Lemma C7_errorCount_two_spellings_witness :
  exists st : TelemetryStats,
    result getStats (store_with_statuses ["OK"; "ERROR"; "error"; "OK"]) = Return st /\
    errorCount st = 2%nat /\ successCount st = 2%nat.
Proof.
  destruct (C7_errorCount_two_spellings (store_with_statuses ["OK"; "ERROR"; "error"; "OK"]))
    as [st [Hst [_ [_ Hex]]]].
  exists st. split; [exact Hst|]. apply Hex. reflexivity.
Defined.
End StoreClaims.

(** ** Binary64 arithmetic: the quotient by one million *)

Section FloatFacts.
#[local] Open Scope Z_scope.

Lemma digits2_pos_size (p : positive) : digits2_pos p = Pos.size p.
Proof. induction p; cbn; congruence. Qed.

Lemma digits2_bounds (p : positive) :
  2 ^ (Zpos (digits2_pos p) - 1) <= Zpos p < 2 ^ Zpos (digits2_pos p).
Proof.
  rewrite digits2_pos_size.
  pose proof (Pos.size_gt p) as Hgt. pose proof (Pos.size_le p) as Hle.
  apply Pos2Z.pos_lt_pos in Hgt. apply Pos2Z.pos_le_pos in Hle.
  rewrite Pos2Z.inj_pow in Hgt, Hle.
  replace (Zpos (Pos.size p)) with (Z.succ (Zpos (Pos.size p) - 1)) in Hle by lia.
  rewrite Z.pow_succ_r in Hle by lia.
  change (Zpos p~0) with (2 * Zpos p) in Hle. lia.
Qed.

Lemma digits2_unique (p : positive) (d : Z) :
  2 ^ (d - 1) <= Zpos p < 2 ^ d -> Zpos (digits2_pos p) = d.
Proof.
  intros [Hlo Hhi]. pose proof (digits2_bounds p) as [Hlo' Hhi'].
  destruct (Z.lt_trichotomy (Zpos (digits2_pos p)) d) as [Hlt|[Heq|Hgt]]; [|exact Heq|].
  - assert (2 ^ Zpos (digits2_pos p) <= 2 ^ (d - 1)) by (apply Z.pow_le_mono_r; lia). lia.
  - assert (0 <= d \/ d < 0) as [Hd|Hd] by lia.
    + assert (2 ^ d <= 2 ^ (Zpos (digits2_pos p) - 1)) by (apply Z.pow_le_mono_r; lia). lia.
    + rewrite (Z.pow_neg_r 2 d) in Hhi by lia. lia.
Qed.

Lemma iter_xO_pow (k p : positive) : Zpos (Pos.iter xO p k) = Zpos p * 2 ^ Zpos k.
Proof.
  revert p. induction k using Pos.peano_ind; intros p.
  - cbn. lia.
  - rewrite Pos.iter_succ. rewrite Pos2Z.inj_succ, Z.pow_succ_r by lia.
    change (Zpos (Pos.iter xO p k)~0) with (2 * Zpos (Pos.iter xO p k)).
    rewrite IHk. lia.
Qed.

(** A positive mantissa of 53 digits with an exponent in range is its own
    rounding. *)
Lemma binary_round_aux_exact (sx : bool) (m : positive) (e : Z) :
  Zpos (digits2_pos m) = 53 -> -1074 <= e <= 971 ->
  binary_round_aux 53 1024 sx (Zpos m) e loc_Exact = S754_finite sx m e.
Proof.
  intros Hd He.
  unfold binary_round_aux, shr_fexp, fexp, emin. cbn [Zdigits2 shr_record_of_loc].
  rewrite Hd.
  replace (Z.max (53 + e - 53) (3 - 1024 - 53) - e) with 0 by lia.
  cbn [shr shr_m loc_of_shr_record round_nearest_even shr_record_of_loc Zdigits2].
  rewrite Hd.
  replace (Z.max (53 + e - 53) (3 - 1024 - 53) - e) with 0 by lia.
  cbn [shr shr_m].
  destruct (Z.leb_spec e (1024 - 53)); [reflexivity|lia].
Qed.

(** The number of an integer of [d] bits, up to 53: the integer itself,
    normalised to 53 digits. *)
Lemma of_Z_normal (sx : bool) (n d : Z) :
  1 <= d <= 53 -> 2 ^ (d - 1) <= n < 2 ^ d ->
  Num.of_Z (cond_Zopp sx n) = S754_finite sx (Z.to_pos (n * 2 ^ (53 - d))) (d - 53).
Proof.
  intros Hd Hn.
  assert (Hpos : 0 < n) by (pose proof (Z.pow_pos_nonneg 2 (d - 1)); lia).
  destruct n as [|p|p]; try lia.
  assert (Hround : binary_round 53 1024 sx p 0 =
                   S754_finite sx (Z.to_pos (Zpos p * 2 ^ (53 - d))) (d - 53)).
  { unfold binary_round.
    rewrite (digits2_unique p d Hn).
    unfold fexp at 1, emin. replace (Z.max (d + 0 - 53) (3 - 1024 - 53)) with (d - 53) by lia.
    unfold shl_align.
    destruct (d - 53 - 0) as [|k|k] eqn:Hk; try lia.
    - replace d with 53 in * by lia. change (2 ^ (53 - 53)) with 1. rewrite Z.mul_1_r.
      cbn [Z.to_pos]. apply binary_round_aux_exact; [apply digits2_unique; exact Hn|lia].
    - assert (Hm : Zpos (Pos.iter xO p k) = Zpos p * 2 ^ (53 - d)).
      { rewrite iter_xO_pow. f_equal. f_equal. lia. }
      rewrite <- Hm. cbn [Z.to_pos].
      apply binary_round_aux_exact; [|lia].
      apply digits2_unique. rewrite Hm.
      replace (2 ^ 53) with (2 ^ d * 2 ^ (53 - d)).
      2:{ rewrite <- Z.pow_add_r by lia. f_equal. lia. }
      replace (53 - 1) with ((d - 1) + (53 - d)) by lia.
      rewrite Z.pow_add_r by lia.
      assert (0 < 2 ^ (53 - d)) by (apply Z.pow_pos_nonneg; lia).
      nia. }
  destruct sx; exact Hround.
Qed.

Lemma loc_of_shr_record_of_loc (m : Z) (l : location) :
  loc_of_shr_record (shr_record_of_loc m l) = l /\ shr_m (shr_record_of_loc m l) = m.
Proof. destruct l as [|[| |]]; split; reflexivity. Qed.

(** The last step of the rounding: a rounded mantissa of 53 digits is kept,
    and [2^53] is renormalised to [2^52] with the next exponent. *)
Lemma round_tail (sx : bool) (q1 e1 : Z) :
  2 ^ 52 <= q1 <= 2 ^ 53 -> -1074 <= e1 <= 970 ->
  exists (m : positive) (e : Z),
    (let '(mrs, e') := shr_fexp 53 1024 q1 e1 loc_Exact in
     match shr_m mrs with
     | Z0 => S754_zero sx
     | Zpos m => if e' <=? 1024 - 53 then S754_finite sx m e' else S754_infinity sx
     | Zneg _ => S754_nan
     end) = S754_finite sx m e /\
    e1 <= e <= e1 + 1 /\ Zpos m * 2 ^ (e - e1) = q1.
Proof.
  intros Hq He.
  destruct (Z.eq_dec q1 (2 ^ 53)) as [->|Hne].
  - exists (Z.to_pos (2 ^ 52)), (e1 + 1).
    unfold shr_fexp, fexp, emin.
    change (Zdigits2 (2 ^ 53)) with 54.
    replace (Z.max (54 + e1 - 53) (3 - 1024 - 53) - e1) with 1 by lia.
    cbn [shr SpecFloat.iter_pos shr_record_of_loc].
    change (2 ^ 53) with (Zpos (xO (Z.to_pos (2 ^ 52)))) at 1.
    cbn [shr_1 shr_m orb].
    destruct (Z.leb_spec (e1 + 1) (1024 - 53)); [|lia].
    split; [reflexivity|]. split; [lia|].
    replace (e1 + 1 - e1) with 1 by lia. reflexivity.
  - destruct q1 as [|p|p]; try lia.
    exists p, e1.
    assert (Hd : Zpos (digits2_pos p) = 53) by (apply digits2_unique; lia).
    unfold shr_fexp, fexp, emin. cbn [Zdigits2]. rewrite Hd.
    replace (Z.max (53 + e1 - 53) (3 - 1024 - 53) - e1) with 0 by lia.
    cbn [shr shr_record_of_loc shr_m].
    destruct (Z.leb_spec e1 (1024 - 53)); [|lia].
    split; [reflexivity|]. split; [lia|].
    rewrite Z.sub_diag. lia.
Qed.

(** Rounding a quotient [q] of 53 or 54 digits to nearest even: the result,
    in units of the exponent [e0] of [q], is within one of [q]; it is below
    [q] only for an odd [q] with nothing beyond it, and it is [q] when [q]
    is even and exact. *)
Lemma binary_round_aux_near (sx : bool) (q e0 : Z) (lz : location) :
  2 ^ 52 <= q < 2 ^ 54 -> -1074 <= e0 <= 960 ->
  exists (m : positive) (e : Z),
    binary_round_aux 53 1024 sx q e0 lz = S754_finite sx m e /\
    e0 <= e <= e0 + 2 /\
    q - 1 <= Zpos m * 2 ^ (e - e0) <= q + 1 /\
    (Zpos m * 2 ^ (e - e0) = q - 1 -> Z.odd q = true /\ lz = loc_Exact) /\
    (lz = loc_Exact -> Z.even q = true -> Zpos m * 2 ^ (e - e0) = q).
Proof.
  intros Hq He.
  destruct (Z.lt_ge_cases q (2 ^ 53)) as [Hlt|Hge].
  - (* 53 digits: no shift before rounding *)
    destruct q as [|p|p]; try lia.
    assert (Hd : Zpos (digits2_pos p) = 53) by (apply digits2_unique; lia).
    unfold binary_round_aux.
    unfold shr_fexp at 1, fexp, emin. cbn [Zdigits2]. rewrite Hd.
    replace (Z.max (53 + e0 - 53) (3 - 1024 - 53) - e0) with 0 by lia.
    cbn [shr].
    destruct (loc_of_shr_record_of_loc (Zpos p) lz) as [-> ->].
    set (q1 := round_nearest_even (Zpos p) lz).
    assert (Hq1 : Zpos p <= q1 <= Zpos p + 1 /\ (lz = loc_Exact -> q1 = Zpos p)).
    { unfold q1. destruct lz as [|[| |]]; cbn [round_nearest_even];
        try (split; [lia|]; intros Hex; try discriminate Hex; reflexivity).
      destruct (Z.even (Zpos p)); (split; [lia|]; intros Hex; discriminate Hex). }
    destruct Hq1 as [Hq1 Hq1x].
    destruct (round_tail sx q1 e0) as [m [e [Htail [He' Hm]]]]; [lia|lia|].
    exists m, e. split; [exact Htail|]. split; [lia|]. rewrite Hm.
    split; [lia|]. split; [lia|]. intros Hex _. apply Hq1x. exact Hex.
  - (* 54 digits: one bit is shifted out *)
    destruct q as [|p|p]; try lia.
    assert (Hd : Zpos (digits2_pos p) = 54) by (apply digits2_unique; lia).
    unfold binary_round_aux.
    unfold shr_fexp at 1, fexp, emin. cbn [Zdigits2]. rewrite Hd.
    replace (Z.max (54 + e0 - 53) (3 - 1024 - 53) - e0) with 1 by lia.
    cbn [shr SpecFloat.iter_pos].
    destruct p as [p'|p'|]; [| |cbn in Hge; lia].
    + (* odd *)
      assert (Hp' : 2 ^ 52 <= Zpos p' < 2 ^ 53) by lia.
      set (mrs := shr_1 (shr_record_of_loc (Zpos p'~1) lz)).
      assert (Hmrs : shr_m mrs = Zpos p' /\
                     ((loc_of_shr_record mrs = loc_Inexact Eq /\ lz = loc_Exact) \/
                      loc_of_shr_record mrs = loc_Inexact Gt)).
      { unfold mrs. destruct lz as [|[| |]]; cbn; auto. }
      destruct Hmrs as [Hm Hloc]. rewrite Hm.
      set (q1 := round_nearest_even (Zpos p') (loc_of_shr_record mrs)).
      assert (Hq1 : (q1 = Zpos p' /\ lz = loc_Exact) \/ q1 = Zpos p' + 1).
      { unfold q1. destruct Hloc as [[-> Hex] | ->]; cbn [round_nearest_even];
          [|right; reflexivity].
        destruct (Z.even (Zpos p')); auto. }
      destruct (round_tail sx q1 (e0 + 1)) as [m [e [Htail [He' Hmq]]]]; [lia|lia|].
      exists m, e. split; [exact Htail|]. split; [lia|].
      assert (Hu : Zpos m * 2 ^ (e - e0) = 2 * q1).
      { replace (e - e0) with (Z.succ (e - (e0 + 1))) by lia.
        rewrite Z.pow_succ_r by lia. lia. }
      rewrite Hu. split; [lia|]. split.
      * intros Hbelow. split; [reflexivity|].
        destruct Hq1 as [[_ Hex]|Hup]; [exact Hex|lia].
      * intros _ Heven. discriminate Heven.
    + (* even *)
      assert (Hp' : 2 ^ 52 <= Zpos p' < 2 ^ 53) by lia.
      set (mrs := shr_1 (shr_record_of_loc (Zpos p'~0) lz)).
      assert (Hmrs : shr_m mrs = Zpos p' /\
                     (loc_of_shr_record mrs = loc_Exact \/
                      loc_of_shr_record mrs = loc_Inexact Lt)).
      { unfold mrs. destruct lz as [|[| |]]; cbn; auto. }
      destruct Hmrs as [Hm Hloc]. rewrite Hm.
      set (q1 := round_nearest_even (Zpos p') (loc_of_shr_record mrs)).
      assert (Hq1 : q1 = Zpos p').
      { unfold q1. destruct Hloc as [-> | ->]; reflexivity. }
      destruct (round_tail sx q1 (e0 + 1)) as [m [e [Htail [He' Hmq]]]]; [lia|lia|].
      exists m, e. split; [exact Htail|]. split; [lia|].
      assert (Hu : Zpos m * 2 ^ (e - e0) = 2 * q1).
      { replace (e - e0) with (Z.succ (e - (e0 + 1))) by lia.
        rewrite Z.pow_succ_r by lia. lia. }
      rewrite Hu. split; [lia|]. split; [intros Hbelow; lia|]. intros _ _. lia.
Qed.

Lemma of_Z_million : Num.of_Z 1000000 = S754_finite false 8589934592000000 (-33).
Proof. reflexivity. Qed.

(** The quotient of an integer below [2^53] in magnitude by one million,
    floored: binary64 division and [Math.floor] give the floor of the exact
    quotient. *)
Lemma floor_div_million_normal (sx : bool) (n d : Z) :
  1 <= d <= 53 -> 2 ^ (d - 1) <= n < 2 ^ d ->
  Num.floor (Num.div (Num.of_Z (cond_Zopp sx n)) (Num.of_Z 1000000))
    = Num.of_Z (cond_Zopp sx n / 1000000).
Proof.
  intros Hd Hn.
  rewrite (of_Z_normal sx n d Hd Hn), of_Z_million.
  assert (H2d : 0 < 2 ^ (53 - d)) by (apply Z.pow_pos_nonneg; lia).
  assert (H2d1 : 0 < 2 ^ (d - 1)) by (apply Z.pow_pos_nonneg; lia).
  assert (Hsplit : 2 ^ (d - 1) * 2 ^ (53 - d) = 2 ^ 52).
  { rewrite <- Z.pow_add_r by lia. f_equal. lia. }
  assert (Hsplit' : 2 ^ d * 2 ^ (53 - d) = 2 ^ 53).
  { rewrite <- Z.pow_add_r by lia. f_equal. lia. }
  set (mx := n * 2 ^ (53 - d)).
  assert (Hmx : 2 ^ 52 <= mx < 2 ^ 53) by (unfold mx; nia).
  assert (Hmxpos : Zpos (Z.to_pos mx) = mx) by (apply Z2Pos.id; lia).
  unfold Num.div, Num.prec, Num.emax, SFdiv. rewrite xorb_false_r.
  unfold SFdiv_core_binary. cbn [Zdigits2].
  rewrite (digits2_unique (Z.to_pos mx) 53) by (rewrite Hmxpos; lia).
  change (Zpos (digits2_pos 8589934592000000)) with 53.
  unfold fexp, emin.
  replace (Z.min (Z.max (53 + (d - 53) - (53 + -33) - 53) (3 - 1024 - 53)) (d - 53 - -33))
    with (d - 73) by lia.
  replace (d - 53 - -33 - (d - 73)) with 53 by lia.
  rewrite Z.shiftl_mul_pow2 by lia. rewrite Hmxpos.
  pose proof (Z_div_mod (mx * 2 ^ 53) 8589934592000000 eq_refl) as Hdm.
  destruct (Z.div_eucl (mx * 2 ^ 53) 8589934592000000) as [q r].
  destruct Hdm as [Hqr Hr].
  assert (Hq : 2 ^ 52 <= q < 2 ^ 54).
  { change (2 ^ 52) with 4503599627370496 in *. change (2 ^ 53) with 9007199254740992 in *.
    change (2 ^ 54) with 18014398509481984. nia. }
  assert (Hloc : new_location 8589934592000000 r = loc_Exact <-> r = 0).
  { unfold new_location. change (Z.even 8589934592000000) with true. cbv iota.
    unfold new_location_even.
    destruct (Z.eqb_spec r 0); split; intros Hx;
      try reflexivity; try assumption; try discriminate Hx; contradiction. }
  destruct (binary_round_aux_near sx q (d - 73) (new_location 8589934592000000 r) Hq)
    as [m [e [Hround [He [Hu [Hbelow Hexact]]]]]]; [lia|].
  rewrite Hround.
  unfold Num.floor.
  destruct (Z.leb_spec 0 e) as [Hpos|Hneg]; [lia|].
  set (P := 2 ^ (73 - d)).
  assert (HP : 1048576 <= P).
  { unfold P. change 1048576 with (2 ^ 20). apply Z.pow_le_mono_r; lia. }
  assert (HP128 : P = 128 * 2 ^ (66 - d)).
  { unfold P. change 128 with (2 ^ 7). rewrite <- Z.pow_add_r by lia. f_equal. lia. }
  assert (HP66 : 0 < 2 ^ (66 - d)) by (apply Z.pow_pos_nonneg; lia).
  assert (HPe : P = 2 ^ (e - (d - 73)) * 2 ^ (- e)).
  { unfold P. rewrite <- Z.pow_add_r by lia. f_equal. lia. }
  assert (Hfloor : forall z : Z, z * 2 ^ (e - (d - 73)) / P = z / 2 ^ (- e)).
  { intros z. rewrite HPe. rewrite (Z.mul_comm z). rewrite Z.div_mul_cancel_l.
    - reflexivity.
    - apply Z.pow_nonzero; lia.
    - apply Z.pow_nonzero; lia. }
  set (u := Zpos m * 2 ^ (e - (d - 73))) in *.
  (* the exact quotient, in units of 1/P *)
  assert (HN : mx * 2 ^ 53 = n * P * 2 ^ 33).
  { unfold mx, P. rewrite <- !Z.mul_assoc. f_equal.
    rewrite <- !Z.pow_add_r by lia. f_equal. lia. }
  pose proof (Z.div_mod n 1000000 ltac:(lia)) as Hn_dm.
  pose proof (Z.mod_pos_bound n 1000000 ltac:(lia)) as Hrho.
  assert (Hn0 : 0 < n) by lia.
  assert (Hk : 0 <= n / 1000000) by (apply Z.div_pos; lia).
  set (k := n / 1000000) in *. set (rho := n mod 1000000) in *.
  set (X := k * 2 ^ (66 - d)).
  set (Y := rho * 2 ^ (66 - d)).
  assert (HY : 0 <= Y <= 999999 * 2 ^ (66 - d)) by (unfold Y; nia).
  assert (HYpos : 0 < rho -> 2 ^ (66 - d) <= Y) by (intros; unfold Y; nia).
  assert (HY0 : rho = 0 -> Y = 0) by (intros ->; reflexivity).
  assert (HkP : k * P = 128 * X) by (unfold X; rewrite HP128; ring).
  assert (Heq : (1000000 * (128 * X) + 128 * Y) * 2 ^ 33 = 8589934592000000 * q + r).
  { rewrite <- Hqr, HN, Hn_dm, HP128. unfold X, Y. ring. }
  change (2 ^ 33) with 8589934592 in Heq.
  assert (Hnot_below : u <> q - 1).
  { intros Hum. destruct (Hbelow Hum) as [Hodd Hex]. apply Hloc in Hex.
    rewrite Z.odd_spec in Hodd. destruct Hodd as [j Hj]. lia. }
  destruct sx; cbn [cond_Zopp].
  - (* a negative count: the floor is below the truncation *)
    assert (Hz : - Zpos m / 2 ^ (- e) = - n / 1000000).
    { rewrite <- Hfloor. rewrite Z.mul_opp_l. fold u.
      destruct (Z.eq_dec rho 0) as [Hrho0|Hrho1].
      - assert (Hr0 : r = 0) by (specialize (HY0 Hrho0); lia).
        assert (Huq : u = q).
        { apply Hexact; [apply Hloc; exact Hr0|].
          rewrite Z.even_spec. exists (64 * X). specialize (HY0 Hrho0). lia. }
        assert (Hnk : n = 1000000 * k) by lia.
        rewrite Hnk. replace (- (1000000 * k)) with ((- k) * 1000000) by ring.
        rewrite Z.div_mul by lia.
        symmetry. apply (Z.div_unique_pos (- u) P (- k) 0); [lia|].
        specialize (HY0 Hrho0). lia.
      - assert (Hrho' : 0 < rho) by lia. specialize (HYpos Hrho').
        transitivity (- (k + 1)).
        + symmetry. apply (Z.div_unique_pos (- u) P (- (k + 1)) (k * P + P - u)); lia.
        + apply (Z.div_unique_pos (- n) 1000000 (- (k + 1)) (1000000 - rho)); lia. }
    rewrite Hz.
    destruct (- n / 1000000); reflexivity.
  - assert (Hz : Zpos m / 2 ^ (- e) = k).
    { rewrite <- Hfloor. fold u. symmetry.
      apply (Z.div_unique_pos u P k (u - k * P)); lia. }
    rewrite Hz. clear - Hk. subst k.
    destruct (n / 1000000); [reflexivity|reflexivity|lia].
Qed.

Lemma digits_exists (n : Z) :
  1 <= n < 2 ^ 53 -> exists d, 1 <= d <= 53 /\ 2 ^ (d - 1) <= n < 2 ^ d.
Proof.
  intros Hn. destruct n as [|p|p]; try lia.
  exists (Zpos (digits2_pos p)). pose proof (digits2_bounds p) as Hb.
  split; [|exact Hb].
  split; [lia|].
  destruct (Z.le_gt_cases (Zpos (digits2_pos p)) 53) as [Hle|Hgt]; [exact Hle|].
  assert (2 ^ 53 <= 2 ^ (Zpos (digits2_pos p) - 1)) by (apply Z.pow_le_mono_r; lia). lia.
Qed.

Lemma floor_div_million (n : Z) :
  - 2 ^ 53 < n < 2 ^ 53 ->
  Num.floor (Num.div (Num.of_Z n) (Num.of_Z 1000000)) = Num.of_Z (n / 1000000).
Proof.
  intros Hn. destruct (Z.lt_trichotomy n 0) as [Hneg|[->|Hpos]]; [| reflexivity |].
  - destruct (digits_exists (- n)) as [d [Hd Hb]]; [lia|].
    pose proof (floor_div_million_normal true (- n) d Hd Hb) as H.
    cbn [cond_Zopp] in H. rewrite Z.opp_involutive in H. exact H.
  - destruct (digits_exists n) as [d [Hd Hb]]; [lia|].
    exact (floor_div_million_normal false n d Hd Hb).
Qed.
End FloatFacts.

(** ** Decimal strings *)

Section DecimalFacts.
#[local] Open Scope string_scope.
#[local] Open Scope Z_scope.

Lemma digit_val_digit (c : ascii) :
  is_digit c = true -> Num.digit_val 10 c = Some (Z.of_nat (nat_of_ascii c) - 48).
Proof.
  unfold is_digit, Num.digit_val. intros Hc.
  apply andb_prop in Hc as [Hlo Hhi].
  apply Nat.leb_le in Hlo. apply Nat.leb_le in Hhi.
  destruct (Z.leb_spec 48 (Z.of_nat (nat_of_ascii c))); [|lia].
  destruct (Z.leb_spec (Z.of_nat (nat_of_ascii c)) 57); [|lia].
  cbn [andb].
  destruct (Z.ltb_spec (Z.of_nat (nat_of_ascii c) - 48) 10); [reflexivity|lia].
Qed.

Lemma parse_digits_decimal (s : string) :
  forall acc : Z,
    forallb is_digit (list_ascii_of_string s) = true ->
    Num.parse_digits 10 s (Some acc) = Some (decimal_value_from acc s).
Proof.
  induction s as [|c r IH]; intros acc Hs; [reflexivity|].
  cbn [list_ascii_of_string forallb] in Hs. apply andb_prop in Hs as [Hc Hr].
  cbn [Num.parse_digits decimal_value_from]. rewrite (digit_val_digit c Hc).
  cbn [default]. apply IH. exact Hr.
Qed.

Lemma decimal_value_from_nonneg (s : string) :
  forall acc : Z,
    0 <= acc -> forallb is_digit (list_ascii_of_string s) = true ->
    0 <= decimal_value_from acc s.
Proof.
  induction s as [|c r IH]; intros acc Hacc Hs; [exact Hacc|].
  cbn [list_ascii_of_string forallb] in Hs. apply andb_prop in Hs as [Hc Hr].
  cbn [decimal_value_from]. apply IH; [|exact Hr].
  unfold is_digit in Hc. apply andb_prop in Hc as [Hlo _]. apply Nat.leb_le in Hlo. lia.
Qed.

Lemma parseInt_string_decimal (s : string) :
  is_decimal_digits s = true -> Num.parseInt_string s = Num.of_Z (decimal_value s).
Proof.
  unfold is_decimal_digits. intros Hs. apply andb_prop in Hs as [Hne Hall].
  destruct s as [|c r]; [discriminate Hne|]. clear Hne.
  assert (Hparse : Num.parse_digits 10 (String c r) None = Some (decimal_value (String c r))).
  { pose proof Hall as Hall'.
    cbn [list_ascii_of_string forallb] in Hall'. apply andb_prop in Hall' as [Hc Hr].
    cbn [Num.parse_digits]. rewrite (digit_val_digit c Hc). cbn [default].
    rewrite (parse_digits_decimal r _ Hr). reflexivity. }
  assert (Hval : 0 <= decimal_value (String c r)).
  { apply decimal_value_from_nonneg; [lia|exact Hall]. }
  assert (Hshape : Num.parseInt_string (String c r) =
                   match Num.parse_digits 10 (String c r) None with
                   | None => Num.NaN
                   | Some 0 => S754_zero false
                   | Some z => Num.of_Z z
                   end).
  { pose proof Hall as Hall'.
    cbn [list_ascii_of_string forallb] in Hall'. apply andb_prop in Hall' as [Hc Hr].
    destruct c as [b0 b1 b2 b3 b4 b5 b6 b7].
    destruct b0, b1, b2, b3, b4, b5, b6, b7; try discriminate Hc;
      try reflexivity.
    all: destruct r as [|c2 r2]; [reflexivity|].
    all: cbn [list_ascii_of_string forallb] in Hr; apply andb_prop in Hr as [Hc2 _].
    all: destruct c2 as [b0 b1 b2 b3 b4 b5 b6 b7].
    all: destruct b0, b1, b2, b3, b4, b5, b6, b7; try discriminate Hc2; reflexivity. }
  rewrite Hshape, Hparse.
  destruct (decimal_value (String c r)); [reflexivity|reflexivity|lia].
Qed.
End DecimalFacts.

(** ** Claims about the decoder *)

Section DecoderClaims.
#[local] Open Scope string_scope.
#[local] Open Scope Z_scope.

(** *** Service name *)

Lemma scan_service_name_find (attrs : list value) :
  Forall (fun a => nullish a = false) attrs ->
  scan_service_name attrs =
    Return (match List.find (has_key "service.name") attrs with
            | Some attr =>
                if truthy (string_value_of attr) then string_value_of attr
                else VStr "unknown-service"
            | None => VStr "unknown-service"
            end).
Proof.
  induction 1 as [|attr rest Hattr _ IH]; [reflexivity|].
  cbn [scan_service_name List.find].
  unfold has_key at 1, string_value_of, get_opt.
  destruct attr; try discriminate Hattr; cbn [get mbind outcome_bind];
    try exact IH.
  destruct (strict_eq_str (lookup_prop "key" props) "service.name"); [reflexivity|].
  exact IH.
Qed.

(** C8 as stated fails: a [service.name] whose string value is empty is
    not taken as it is, the default replaces it; and a [stringValue] that is
    not a string, such as the number 5, is returned and not defaulted. *)
Lemma C8_counterexample_empty_string :
  extractServiceName (resource_with [string_attribute "service.name" ""])
    = Return (VStr "unknown-service") /\
  extractServiceName (resource_with [string_attribute "service.name" ""])
    <> Return (VStr "") /\
  extractServiceName
    (resource_with [attribute "service.name" (VObj [("stringValue", VNum (Num.of_Z 5))])])
    = Return (VNum (Num.of_Z 5)).
Proof. split; [reflexivity|]. split; [discriminate|reflexivity]. Qed.

(** C8, amended. The service name of a resource-span group is resolved
    by scanning the resource attributes in order for the first entry whose
    key is literally ["service.name"]; it is that entry's [stringValue]
    when this is truthy (a non-empty string is taken as it is), and
    ["unknown-service"] otherwise: when the resource or its attribute list
    is missing, when no entry has that key, and when the first such entry
    has no [stringValue] or an empty one. *)
Theorem C8_serviceName_first_entry_or_default (attrs : list value) :
  Forall (fun a => nullish a = false) attrs ->
  extractServiceName (resource_with attrs) =
    Return (match List.find (has_key "service.name") attrs with
            | Some attr =>
                if truthy (string_value_of attr) then string_value_of attr
                else VStr "unknown-service"
            | None => VStr "unknown-service"
            end) /\
  (forall (s : string) (rest : list value),
      extractServiceName (resource_with (string_attribute "service.name" s :: rest)) =
        Return (VStr (if String.eqb s "" then "unknown-service" else s))) /\
  extractServiceName VUndefined = Return (VStr "unknown-service") /\
  extractServiceName (VObj []) = Return (VStr "unknown-service").
Proof.
  intros Hattrs. split; [|split; [|split; reflexivity]].
  - unfold extractServiceName, resource_with.
    cbn [truthy negb get lookup_prop List.find fst snd String.eqb Ascii.eqb Bool.eqb
           mbind outcome_bind iterate].
    apply scan_service_name_find. exact Hattrs.
  - intros s rest. unfold extractServiceName, resource_with, string_attribute.
    cbn. destruct (String.eqb s ""); reflexivity.
Qed.

(** A resource whose second attribute names the service. *)
Lemma C8_serviceName_first_entry_or_default_witness :
  extractServiceName
    (resource_with [string_attribute "host.name" "h1";
                    string_attribute "service.name" "checkout"])
    = Return (VStr "checkout").
Proof.
  refine (proj1 (C8_serviceName_first_entry_or_default
                   [string_attribute "host.name" "h1";
                    string_attribute "service.name" "checkout"] _)).
  repeat constructor.
Defined.

(** *** Timestamps *)

Lemma nanosToMillis_number `{Host} (x : number) :
  nanosToMillis (VNum x) = Return (Num.floor (Num.div x (Num.of_Z 1000000))).
Proof. reflexivity. Qed.

Lemma nanosToMillis_string `{Host} (s : string) :
  nanosToMillis (VStr s)
    = Return (Num.floor (Num.div (Num.parseInt_string s) (Num.of_Z 1000000))).
Proof. reflexivity. Qed.

(** C5 as stated fails.  A nanosecond count of [2^53] or more is rounded
    to the nearest binary64 number before it is divided: the string
    ["1699999999999999999"] is read as [1700000000000000000] and decodes to
    [1700000000000] ms, one more than the integer quotient.  A negative
    numeric value is floored, not truncated toward zero: [-1] decodes to
    [-1] ms. *)
Lemma C5_counterexample_rounding :
  @nanosToMillis any_host (VStr "1699999999999999999") = Return (Num.of_Z 1700000000000) /\
  Z.quot 1699999999999999999 1000000 = 1699999999999 /\
  Num.of_Z 1700000000000 <> Num.of_Z 1699999999999 /\
  @nanosToMillis any_host (VNum (Num.of_Z (-1))) = Return (Num.of_Z (-1)) /\
  Z.quot (-1) 1000000 = 0 /\
  Num.of_Z (-1) <> Num.of_Z 0.
Proof.
  split; [vm_compute; reflexivity|]. split; [reflexivity|].
  split; [vm_compute; discriminate|]. split; [vm_compute; reflexivity|].
  split; [reflexivity|]. vm_compute. discriminate.
Qed.

(** C5, amended. For a wire timestamp ([startTimeUnixNano],
    [endTimeUnixNano], event [timeUnixNano], all decoded by
    [nanosToMillis]) given as a number or as a decimal-digit string whose
    nanosecond count [n] is an integer below [2^53] in magnitude, the
    decoded millisecond value is the floor of [n / 1000000], which for
    [n >= 0] is the quotient truncated toward zero; ["1000000000"] gives
    1000 and the number 2000000 gives 2. *)
Theorem C5_nanosToMillis_floor_below_2_53 `{Host} (n : Z) :
  - 2 ^ 53 < n < 2 ^ 53 ->
  nanosToMillis (VNum (Num.of_Z n)) = Return (Num.of_Z (n / 1000000)) /\
  (forall s : string,
      is_decimal_digits s = true -> decimal_value s = n ->
      nanosToMillis (VStr s) = Return (Num.of_Z (n / 1000000))) /\
  (0 <= n -> n / 1000000 = Z.quot n 1000000) /\
  nanosToMillis (VStr "1000000000") = Return (Num.of_Z 1000) /\
  nanosToMillis (VNum (Num.of_Z 2000000)) = Return (Num.of_Z 2).
Proof.
  intros Hn. split; [|split; [|split; [|split]]].
  - rewrite nanosToMillis_number, floor_div_million by exact Hn. reflexivity.
  - intros s Hs Hv.
    rewrite nanosToMillis_string, (parseInt_string_decimal s Hs), Hv.
    rewrite floor_div_million by exact Hn. reflexivity.
  - intros Hpos. symmetry. apply Z.quot_div_nonneg; lia.
  - vm_compute. reflexivity.
  - vm_compute. reflexivity.
Qed.

(** A numeric count below [2^53]. *)
Lemma C5_nanosToMillis_floor_below_2_53_witness :
  @nanosToMillis any_host (VNum (Num.of_Z 1700000000123456)) = Return (Num.of_Z 1700000000).
Proof.
  refine (proj1 (@C5_nanosToMillis_floor_below_2_53 any_host 1700000000123456 _)).
  vm_compute. split; reflexivity.
Defined.

(** *** Missing structure *)

(** C2. A raw span that lacks [startTimeUnixNano] makes [processTraces]
    throw: the start time is NaN, and [toISOString] of the invalid date
    raises a RangeError, which the [catch] logs and re-throws.  Nothing
    was appended. *)
Theorem C2_missing_start_time_throws `{Host} (w : world) :
  result (processTraces (payload_of_spans [VObj []])) w
    = Throw (RangeError "Invalid time value") /\
  convertSpan (VObj []) (VStr "unknown-service")
    = Throw (RangeError "Invalid time value") /\
  nanosToMillis VUndefined = Return Num.NaN /\
  heap (exec (processTraces (payload_of_spans [VObj []])) w) = heap w /\
  storage (exec (processTraces (payload_of_spans [VObj []])) w) = storage w.
Proof. repeat split; reflexivity. Qed.

(** Structure that is missing is skipped: a payload without
    [resourceSpans], a group without [scopeSpans], a scope without [spans]. *)
Lemma processTraces_without_resourceSpans `{Host} (data : value) (w : world) :
  truthy data = false \/ truthy (get_opt data "resourceSpans") = false ->
  result (processTraces data) w = Return tt /\
  heap (exec (processTraces data) w) = heap w /\
  storage (exec (processTraces data) w) = storage w.
Proof.
  intros Hmissing.
  assert (Hrs : truthy data = true -> truthy (get_opt data "resourceSpans") = false).
  { intros Hd. destruct Hmissing as [Hd'|Hrs]; [congruence|exact Hrs]. }
  unfold result, exec, processTraces, try_catch, Storage.log, Storage.lift.
  unfold mbind, M_bind.
  destruct data as [| |b|x|s|l|props]; cbn [truthy negb JS.get fst snd heap storage] in *;
    try (repeat split; reflexivity).
  - destruct b; [|repeat split; reflexivity].
    repeat split; reflexivity.
  - destruct (negb (Num.is_zero x || Num.is_nan x)); repeat split; reflexivity.
  - destruct (negb (String.eqb s "")); [|repeat split; reflexivity].
    unfold get_opt in Hrs. cbn in Hrs. repeat split; reflexivity.
  - unfold get_opt in Hrs. cbn [JS.get] in Hrs. rewrite (Hrs eq_refl).
    repeat split; reflexivity.
Qed.

Lemma process_resourceSpan_without_scopeSpans `{Host}
    (props : list (string * value)) (w : world) :
  returns (extractServiceName (lookup_prop "resource" props)) = true ->
  truthy (lookup_prop "scopeSpans" props) = false ->
  process_resourceSpan (VObj props) w =
    (Return tt,
     {| heap := heap w; storage := storage w;
        logged := (logged w ++ [(Warn, "No scopeSpans found in resourceSpan")])%list |}).
Proof.
  intros Hname Hscopes.
  unfold process_resourceSpan, Storage.lift, Storage.log. cbn [JS.get].
  unfold mbind, M_bind.
  destruct (extractServiceName (lookup_prop "resource" props)); [|discriminate Hname].
  rewrite Hscopes. reflexivity.
Qed.

Lemma process_scopeSpan_without_spans `{Host}
    (service : value) (props : list (string * value)) (w : world) :
  truthy (lookup_prop "spans" props) = false ->
  process_scopeSpan service (VObj props) w =
    (Return tt,
     {| heap := heap w; storage := storage w;
        logged := (logged w ++ [(Warn, "No spans found in scopeSpan")])%list |}).
Proof.
  intros Hspans.
  unfold process_scopeSpan, Storage.lift, Storage.log. cbn [JS.get].
  unfold mbind, M_bind. rewrite Hspans. reflexivity.
Qed.

(** A group without [scopeSpans] and a scope without [spans] are skipped,
    and their siblings are decoded: here one span is stored. *)
Lemma processTraces_skips_missing_siblings `{Host} :
  let span := VObj [("startTimeUnixNano", VStr "1000000000")] in
  let payload :=
    VObj [("resourceSpans",
           VArr [VObj [];
                 VObj [("scopeSpans", VArr [VObj []; VObj [("spans", VArr [span])]])]])] in
  result (processTraces payload) initial_world = Return tt /\
  List.map startTime (contents (exec (processTraces payload) initial_world))
    = [Num.of_Z 1000] /\
  List.map fst (logged (exec (processTraces payload) initial_world))
    = [Info; Warn; Warn; Info].
Proof. repeat split; reflexivity. Qed.

(** Of the fields of a raw span only the start time is needed. *)
Lemma convertSpan_start_time_only `{Host} :
  convertSpan (VObj [("startTimeUnixNano", VStr "0")]) (VStr "unknown-service") =
    Return {| traceId := ""; spanId := ""; parentSpanId := None;
              operationName := VStr "unknown-operation";
              startTime := S754_zero false; endTime := Num.NaN; duration := Num.NaN;
              status := "OK"; attributes := ∅; events := [];
              serviceName := VStr "unknown-service";
              timestamp := host_ISO_format 0 |}.
Proof. reflexivity. Qed.


(** *** Identifiers *)

Lemma of_Z_pos_nonzero (n : Z) :
  0 < n < 2 ^ 53 -> Num.eqb (Num.of_Z n) (Num.of_Z 0) = false.
Proof.
  intros Hn. destruct (digits_exists n) as [d [Hd Hb]]; [lia|].
  pose proof (of_Z_normal false n d Hd Hb) as Hof. cbn [cond_Zopp] in Hof.
  rewrite Hof. reflexivity.
Qed.

Lemma byte_toString16 `{Host} (b : byte) :
  (s ← toString_method 16 (byte_value b); Return (padStart0 2 s)) = Return (hex_byte b).
Proof. destruct b; reflexivity. Qed.

Lemma mapM_map_return {A B C} (f : B -> outcome C) (g : A -> B) (h : A -> C)
    (l : list A) :
  (forall a, f (g a) = Return (h a)) ->
  map_outcome f (List.map g l) = Return (List.map h l).
Proof.
  intros Hf. induction l as [|a r IH]; [reflexivity|].
  cbn [List.map map_outcome]. rewrite Hf, IH. reflexivity.
Qed.

Lemma bytesToHex_bytes `{Host} (l : list byte) :
  Z.of_nat (List.length l) < 2 ^ 32 ->
  bytesToHex (bytes_value l) = Return (hex_bytes l).
Proof.
  intros Hlen. destruct l as [|b r]; [reflexivity|].
  unfold bytesToHex, bytes_value. cbn [truthy negb].
  change (JS.get (VArr ?l) "length")
    with (Return (VNum (Num.of_Z (Z.of_nat (List.length l))))).
  unfold mbind at 1, outcome_bind at 1. cbn [strict_eq_num].
  rewrite of_Z_pos_nonzero.
  2:{ rewrite length_map. cbn [List.length] in *.
      assert (2 ^ 32 < 2 ^ 53) by reflexivity. lia. }
  unfold Array_from. unfold mbind at 1, outcome_bind at 1.
  rewrite (mapM_map_return _ byte_value hex_byte (b :: r) byte_toString16). reflexivity.
Qed.

(** A string passes through; an absent or empty value gives the empty
    string. *)
Lemma bytesToHex_string_or_empty `{Host} (s : string) :
  bytesToHex (VStr s) = Return s /\
  bytesToHex VUndefined = Return "" /\
  bytesToHex VNull = Return "" /\
  bytesToHex (VArr []) = Return "".
Proof. repeat split; reflexivity. Qed.

Example bytesToHex_1f0a `{Host} : bytesToHex (bytes_value [x1f; x0a]%byte) = Return "1f0a".
Proof. reflexivity. Qed.


(** C4. An empty byte sequence as [parentSpanId] does not yield
    [undefined]: an empty array is truthy, so the guard lets it through and
    [bytesToHex] returns the empty string. *)
Theorem C4_empty_bytes_parent_is_empty_string `{Host} :
  exists t : TelemetrySpan,
    convertSpan (VObj [("startTimeUnixNano", VStr "0"); ("parentSpanId", VArr [])])
      (VStr "unknown-service") = Return t /\
    parentSpanId t = Some "" /\
    parentSpanId t <> None.
Proof. eexists. split; [reflexivity|]. split; [reflexivity|discriminate]. Qed.

(** *** Attributes *)

Lemma set_prop_string `{Host} (result : object) (k : string) (v : value) :
  k <> "__proto__" ->
  set_prop result (VStr k) v
    = Return {| proto := proto result; own := <[k := v]> (own result) |}.
Proof.
  intros Hk. unfold set_prop, ToString. cbn [ToString_radix mbind outcome_bind].
  destruct (String.eqb_spec k "__proto__") as [Heq|_]; [contradiction|reflexivity].
Qed.

(** On the entries of the wire format, one iteration writes the own
    properties as the reference definition does and leaves the prototype. *)
Lemma extract_attribute_reference `{Host} (result : object) (entry : value) :
  wire_entry entry -> own_key entry ->
  extract_attribute result entry =
    (m ← reference_entry (own result) entry;
     Return {| proto := proto result; own := m |}).
Proof.
  intros [props [-> [Hkey Hval]]] Hown. destruct result as [p o].
  unfold own_key, get_opt in Hown. cbn [JS.get] in Hown.
  unfold extract_attribute, reference_entry, get_opt.
  cbn [JS.get mbind outcome_bind proto own].
  destruct Hkey as [-> | [k Hk]]; [reflexivity|].
  rewrite Hk in *. cbn [truthy].
  destruct (String.eqb_spec k "") as [->|Hne].
  { cbn [negb]. destruct (lookup_prop "value" props); reflexivity. }
  cbn [negb].
  destruct Hval as [-> | [q Hq]]; [reflexivity|].
  rewrite Hq. cbn [truthy negb JS.get mbind outcome_bind].
  assert (Hk' : k <> "__proto__") by congruence.
  unfold reference_value, present, get_opt. cbn [JS.get].
  destruct (lookup_prop "stringValue" q) eqn:Hs; cbn [is_undefined negb mbind outcome_bind];
    try (rewrite set_prop_string by exact Hk'; reflexivity).
  destruct (lookup_prop "intValue" q) eqn:Hi; cbn [is_undefined negb mbind outcome_bind];
    try (destruct (parseInt _); cbn [mbind outcome_bind];
         [rewrite set_prop_string by exact Hk'; reflexivity|reflexivity]).
  destruct (lookup_prop "doubleValue" q) eqn:Hdv; cbn [is_undefined negb mbind outcome_bind];
    try (rewrite set_prop_string by exact Hk'; reflexivity).
  destruct (lookup_prop "boolValue" q) eqn:Hb; cbn [is_undefined negb mbind outcome_bind];
    rewrite set_prop_string by exact Hk'; reflexivity.
Qed.

Lemma extractAttributes_reference `{Host} (entries : list value) :
  Forall wire_entry entries -> Forall own_key entries ->
  extractAttributes (VArr entries) = reference_attributes entries.
Proof.
  intros Hwire Hown.
  unfold extractAttributes, reference_attributes.
  cbn [truthy negb iterate mbind outcome_bind].
  assert (Hfold : forall acc : object,
             (result ← fold_outcome extract_attribute acc entries; Return (own result))
             = fold_outcome reference_entry (own acc) entries).
  { induction entries as [|entry rest IH]; intros acc; [reflexivity|].
    inversion Hwire as [|? ? Hw Hws]; subst. inversion Hown as [|? ? Ho Hos]; subst.
    cbn [fold_outcome]. rewrite (extract_attribute_reference acc entry Hw Ho).
    destruct (reference_entry (own acc) entry) as [m|e]; cbn [mbind outcome_bind];
      [|reflexivity].
    rewrite (IH Hws Hos). reflexivity. }
  apply (Hfold object_literal).
Qed.


(** The decoding of single entries: the example of the design document, a
    repeated key, a parse failure, the order of the four fields, the JSON
    text, and the entries that are skipped. *)
Lemma extractAttributes_examples `{Host} :
  extractAttributes
    (VArr [attribute "a" (VObj [("intValue", VStr "5")]);
           attribute "b" (VObj [("boolValue", VBool true)])])
    = Return (<["b" := VBool true]> (<["a" := VNum (Num.of_Z 5)]> ∅)) /\
  extractAttributes
    (VArr [attribute "a" (VObj [("stringValue", VStr "x")]);
           attribute "a" (VObj [("stringValue", VStr "y")])])
    = Return (<["a" := VStr "y"]> ∅) /\
  extractAttributes
    (VArr [attribute "a" (VObj [("intValue", VStr "abc")])])
    = Return (<["a" := VNum Num.NaN]> ∅) /\
  extractAttributes
    (VArr [attribute "a" (VObj [("intValue", VStr "7"); ("stringValue", VStr "s")])])
    = Return (<["a" := VStr "s"]> ∅) /\
  extractAttributes
    (VArr [attribute "a" (VObj [("arrayValue", VArr [])])])
    = Return (<["a" := VStr (host_JSON_stringify (VObj [("arrayValue", VArr [])]))]> ∅) /\
  extractAttributes
    (VArr [VObj [("value", VObj [("stringValue", VStr "x")])];
           VObj [("key", VStr "k")];
           attribute "" (VObj [("stringValue", VStr "x")])])
    = Return ∅.
Proof.
  repeat split; reflexivity.
Qed.

(** C6. An entry whose key is ["__proto__"] is kept by the loop and
    stored nowhere: the assignment reaches the setter inherited from
    [Object.prototype], so the decoded mapping has no such key. *)
Theorem C6_proto_key_is_dropped `{Host} :
  extractAttributes (VArr [string_attribute "__proto__" "x"]) = Return ∅ /\
  extractAttributes (VArr [string_attribute "a" "x"]) = Return {[ "a" := VStr "x" ]}.
Proof. split; reflexivity. Qed.
End DecoderClaims.

(** ** Beyond the claims: callers, routes and the client *)

Section StoreExtras.
#[local] Open Scope string_scope.
#[local] Open Scope Z_scope.

Lemma read_result_lookup (l : list TelemetrySpan) (w : world) :
  heap (with_heap (heap w ++ [l]) w) !! List.length (heap w) = Some l.
Proof.
  cbn [with_heap heap]. rewrite lookup_app_r by lia. rewrite Nat.sub_diag. reflexivity.
Qed.

(** X1. [getRecentSpans(limit)] with a positive limit returns a new array
    holding the [limit] most recently appended spans, most recent first (all
    of them when fewer are held): the first [limit] elements of what
    [getAllSpans] returns.  Without an argument the limit is 50. *)
Theorem X1_getRecentSpans_positive_limit (w : world) (limit : Z) :
  0 < limit ->
  (exists r : ref,
      result (getRecentSpans (Some limit)) w = Return r /\
      heap (exec (getRecentSpans (Some limit)) w) !! r
        = Some (take (Z.to_nat limit) (rev (contents w)))) /\
  (exists r : ref,
      result (getRecentSpans None) w = Return r /\
      heap (exec (getRecentSpans None) w) !! r = Some (take 50 (rev (contents w)))).
Proof.
  intros Hlimit.
  assert (Hgen : forall n : Z, 0 < n ->
            rev (slice_list (- n) (contents w)) = take (Z.to_nat n) (rev (contents w))).
  { intros n Hn. rewrite firstn_rev. f_equal.
    replace n with (Z.of_nat (Z.to_nat n)) at 1 by lia.
    rewrite slice_list_neg by lia. reflexivity. }
  split.
  - exists (List.length (heap w)). unfold result, exec. rewrite getRecentSpans_run.
    cbn [fst snd]. split; [reflexivity|].
    rewrite read_result_lookup. change (default 50 (Some limit)) with limit.
    rewrite (Hgen limit Hlimit). reflexivity.
  - exists (List.length (heap w)). unfold result, exec. rewrite getRecentSpans_run.
    cbn [fst snd]. split; [reflexivity|].
    rewrite read_result_lookup. change (default 50 None) with 50.
    rewrite (Hgen 50 ltac:(lia)). reflexivity.
Qed.

(** A store of three spans, asked for the two most recent. *)
Lemma X1_getRecentSpans_positive_limit_witness :
  exists r : ref,
    result (getRecentSpans (Some 2)) (store_with_statuses ["a"; "b"; "c"]) = Return r /\
    heap (exec (getRecentSpans (Some 2)) (store_with_statuses ["a"; "b"; "c"])) !! r
      = Some (take 2 (rev (contents (store_with_statuses ["a"; "b"; "c"])))).
Proof.
  refine (proj1 (X1_getRecentSpans_positive_limit
                   (store_with_statuses ["a"; "b"; "c"]) 2 _)).
  lia.
Defined.

(** X2. A limit of 0 does not give an empty result: [slice(-0)] copies the
    whole array, so [getRecentSpans(0)] returns every held span, most recent
    first; a negative limit [-k] drops the [k] oldest spans and returns the
    rest, most recent first. *)
Theorem X2_getRecentSpans_zero_or_negative_limit (w : world) (limit : Z) :
  limit <= 0 ->
  exists r : ref,
    result (getRecentSpans (Some limit)) w = Return r /\
    heap (exec (getRecentSpans (Some limit)) w) !! r
      = Some (rev (drop (Z.to_nat (- limit)) (contents w))) /\
    (limit = 0 -> heap (exec (getRecentSpans (Some limit)) w) !! r = Some (rev (contents w))).
Proof.
  intros Hlimit.
  assert (Hslice : slice_list (- limit) (contents w) = drop (Z.to_nat (- limit)) (contents w)).
  { unfold slice_list. destruct (Z.ltb_spec (- limit) 0) as [Hneg|_]; [lia|].
    destruct (Z.le_gt_cases (- limit) (Z.of_nat (List.length (contents w)))) as [Hle|Hgt].
    - rewrite Z.min_l by lia. reflexivity.
    - rewrite Z.min_r by lia. rewrite Nat2Z.id.
      rewrite !drop_ge by lia. reflexivity. }
  exists (List.length (heap w)). unfold result, exec. rewrite getRecentSpans_run.
  cbn [fst snd]. split; [reflexivity|].
  rewrite read_result_lookup. change (default 50 (Some limit)) with limit.
  rewrite Hslice. split; [reflexivity|].
  intros ->. reflexivity.
Qed.

(** A store of three spans, asked for none. *)
Lemma X2_getRecentSpans_zero_or_negative_limit_witness :
  exists r : ref,
    result (getRecentSpans (Some 0)) (store_with_statuses ["a"; "b"; "c"]) = Return r /\
    heap (exec (getRecentSpans (Some 0)) (store_with_statuses ["a"; "b"; "c"])) !! r
      = Some (rev (contents (store_with_statuses ["a"; "b"; "c"]))).
Proof.
  destruct (X2_getRecentSpans_zero_or_negative_limit
              (store_with_statuses ["a"; "b"; "c"]) 0 ltac:(lia)) as [r [Hr [_ Hall]]].
  exists r. split; [exact Hr|]. apply Hall. reflexivity.
Defined.

Lemma bind_return {A B} (m : M A) (f : A -> M B) (w w' : world) (a : A) :
  m w = (Return a, w') -> (m ≫= f) w = f a w'.
Proof. intros Hm. unfold mbind, M_bind. rewrite Hm. reflexivity. Qed.

Lemma bind_throw {A B} (m : M A) (f : A -> M B) (w w' : world) (e : exn) :
  m w = (Throw e, w') -> (m ≫= f) w = (Throw e, w').
Proof. intros Hm. unfold mbind, M_bind. rewrite Hm. reflexivity. Qed.

Lemma clear_run (w : world) :
  clear w =
    (Return tt,
     {| heap := heap w ++ [[]];
        storage := {| spans := List.length (heap w); maxSpans := maxSpans (storage w) |};
        logged := logged w |}).
Proof. reflexivity. Qed.

(** What one call does to the stored sequence. *)
Lemma run_call_step (cap : nat) (c : call) (w : world) :
  (0 < cap)%nat -> wf w -> maxSpans (storage w) = Z.of_nat cap ->
  exists w' : world,
    run_call c w = (Return tt, w') /\
    wf w' /\ maxSpans (storage w') = Z.of_nat cap /\
    contents w' =
      match c with
      | CallAddSpan span => last_n cap (contents w ++ [span])
      | CallClear => []
      | _ => contents w
      end.
Proof.
  intros Hcap Hwf Hmax.
  assert (Hread : forall fresh,
             wf (with_heap (heap w ++ fresh) w) /\
             maxSpans (storage (with_heap (heap w ++ fresh) w)) = Z.of_nat cap /\
             contents (with_heap (heap w ++ fresh) w) = contents w).
  { intros fresh. split; [|split].
    - unfold wf, with_heap in *. cbn [heap storage]. rewrite length_app. lia.
    - exact Hmax.
    - apply contents_with_heap_app. exact Hwf. }
  destruct c as [span| | |limit|name|name| |]; cbn [run_call].
  - exists (exec (addSpan span) w). split; [|split; [|split]].
    + unfold exec. rewrite (addSpan_run span w Hwf). reflexivity.
    + apply addSpan_wf. exact Hwf.
    + rewrite addSpan_maxSpans by exact Hwf. exact Hmax.
    + rewrite addSpan_contents by exact Hwf. cbv zeta. rewrite Hmax.
      destruct (Z.ltb_spec (Z.of_nat cap) (Z.of_nat (List.length (contents w ++ [span]))))
        as [Hlt|Hge].
      * apply slice_list_neg. exact Hcap.
      * symmetry. apply last_n_all. lia.
  - eexists. split; [apply clear_run|]. split; [|split].
    + unfold wf. cbn [heap storage spans]. rewrite length_app. cbn. lia.
    + exact Hmax.
    + unfold contents. cbn [heap storage spans].
      rewrite lookup_app_r by lia. rewrite Nat.sub_diag. reflexivity.
  - eexists. split; [|apply Hread].
    unfold mbind, M_bind. rewrite getAllSpans_run. reflexivity.
  - eexists. split; [|apply Hread].
    unfold mbind, M_bind. rewrite getRecentSpans_run. reflexivity.
  - eexists. split; [|apply Hread].
    unfold getSpansByService. unfold mbind at 1, M_bind at 1.
    rewrite array_filter_run. reflexivity.
  - eexists. split; [|apply Hread].
    unfold getSpansByOperation. unfold mbind at 1, M_bind at 1.
    rewrite array_filter_run. reflexivity.
  - exists w. split; [reflexivity|]. split; [exact Hwf|]. split; [exact Hmax|reflexivity].
  - exists w. split; [reflexivity|]. split; [exact Hwf|]. split; [exact Hmax|reflexivity].
Qed.

Lemma run_calls_contents (cap : nat) (calls : list call) :
  (0 < cap)%nat ->
  forall (w : world) (acc : list TelemetrySpan),
    wf w -> maxSpans (storage w) = Z.of_nat cap ->
    contents w = last_n cap acc ->
    result (run_calls calls) w = Return tt /\
    contents (exec (run_calls calls) w) = last_n cap (added_since_clear acc calls).
Proof.
  intros Hcap. induction calls as [|c rest IH]; intros w acc Hwf Hmax Hacc.
  - split; [reflexivity|exact Hacc].
  - destruct (run_call_step cap c w Hcap Hwf Hmax) as [w' [Hrun [Hwf' [Hmax' Hc]]]].
    assert (Hnext : result (run_calls (c :: rest)) w = result (run_calls rest) w' /\
                    exec (run_calls (c :: rest)) w = exec (run_calls rest) w').
    { unfold result, exec. cbn [run_calls].
      rewrite (bind_return _ _ w w' tt Hrun). split; reflexivity. }
    destruct Hnext as [-> ->].
    destruct c as [span| | |limit|name|name| |]; cbn [added_since_clear];
      apply IH; try assumption; rewrite Hc; try exact Hacc; try reflexivity.
    rewrite Hacc. apply last_n_app.
Qed.

(** X3. Under any interleaving of the public methods on a new store of
    positive capacity, no call faults and the store holds the last
    [maxSpans] of the spans passed to [addSpan] since the last [clear], in
    insertion order; it never holds more than [maxSpans] spans, and reads in
    between change nothing. *)
Theorem X3_contents_under_any_calls (cap : nat) (calls : list call) :
  (0 < cap)%nat ->
  let w := exec (run_calls calls) (new_world (Z.of_nat cap)) in
  result (run_calls calls) (new_world (Z.of_nat cap)) = Return tt /\
  contents w = last_n cap (added_since_clear [] calls) /\
  (List.length (contents w) <= cap)%nat.
Proof.
  intros Hcap w.
  destruct (run_calls_contents cap calls Hcap (new_world (Z.of_nat cap)) [])
    as [Hres Hc].
  - apply new_world_wf.
  - reflexivity.
  - reflexivity.
  - split; [exact Hres|]. split; [exact Hc|].
    unfold w. rewrite Hc, length_last_n. lia.
Qed.

(** Appends, a read, a clear and more appends on a store of capacity 2. *)
Lemma X3_contents_under_any_calls_witness :
  let s := sample_span "01" "a" "x" in
  contents (exec (run_calls [CallAddSpan (s "1"); CallGetAllSpans; CallClear;
                             CallAddSpan (s "2"); CallAddSpan (s "3"); CallGetStats;
                             CallAddSpan (s "4")])
              (new_world 2))
    = [s "3"; s "4"].
Proof.
  intros s.
  refine (proj1 (proj2 (X3_contents_under_any_calls 2
            [CallAddSpan (s "1"); CallGetAllSpans; CallClear;
             CallAddSpan (s "2"); CallAddSpan (s "3"); CallGetStats;
             CallAddSpan (s "4")] _))).
  lia.
Defined.

(** *** Sorting *)

Lemma sort_insert_length {A} (cmp : A -> A -> Z) (x : A) (l : list A) :
  List.length (sort_insert cmp x l) = S (List.length l).
Proof.
  induction l as [|y r IH]; [reflexivity|].
  cbn [sort_insert]. destruct (cmp x y <=? 0); cbn [List.length]; [reflexivity|].
  rewrite IH. reflexivity.
Qed.

Lemma Array_sort_length {A} (cmp : A -> A -> Z) (l : list A) :
  List.length (Array_sort cmp l) = List.length l.
Proof.
  induction l as [|x r IH]; [reflexivity|].
  unfold Array_sort in *. cbn [fold_right]. rewrite sort_insert_length, IH. reflexivity.
Qed.

Lemma sort_insert_perm {A} (cmp : A -> A -> Z) (x : A) (l : list A) :
  Permutation (sort_insert cmp x l) (x :: l).
Proof.
  induction l as [|y r IH]; [reflexivity|].
  cbn [sort_insert]. destruct (cmp x y <=? 0); [reflexivity|].
  rewrite IH. apply perm_swap.
Qed.

Lemma Array_sort_perm {A} (cmp : A -> A -> Z) (l : list A) :
  Permutation (Array_sort cmp l) l.
Proof.
  induction l as [|x r IH]; [reflexivity|].
  unfold Array_sort in *. cbn [fold_right]. rewrite sort_insert_perm, IH. reflexivity.
Qed.

Lemma sort_insert_sorted {A} (cmp : A -> A -> Z) (le : A -> A -> Prop) (x : A) (l : list A) :
  (forall a b, cmp a b <= 0 <-> le a b) ->
  (forall a b, le a b \/ le b a) ->
  (forall a b c, le a b -> le b c -> le a c) ->
  StronglySorted le l -> StronglySorted le (sort_insert cmp x l).
Proof.
  intros Hcmp Htotal Htrans Hsorted.
  induction Hsorted as [|y r Hr IH Hy]; [repeat constructor|].
  cbn [sort_insert]. destruct (Z.leb_spec (cmp x y) 0) as [Hle|Hgt].
  - apply Hcmp in Hle. constructor; [constructor; assumption|].
    constructor; [exact Hle|].
    eapply Forall_impl; [exact Hy|]. intros z Hz. cbn. eapply Htrans; eassumption.
  - assert (Hyx : le y x).
    { destruct (Htotal x y) as [Hxy|Hyx]; [|exact Hyx]. apply Hcmp in Hxy. lia. }
    constructor; [exact IH|].
    rewrite (sort_insert_perm cmp x r). constructor; assumption.
Qed.

Lemma Array_sort_sorted {A} (cmp : A -> A -> Z) (le : A -> A -> Prop) (l : list A) :
  (forall a b, cmp a b <= 0 <-> le a b) ->
  (forall a b, le a b \/ le b a) ->
  (forall a b c, le a b -> le b c -> le a c) ->
  StronglySorted le (Array_sort cmp l).
Proof.
  intros Hcmp Htotal Htrans. induction l as [|x r IH]; [constructor|].
  unfold Array_sort in *. cbn [fold_right].
  apply (sort_insert_sorted cmp le); assumption.
Qed.

(** *** The counters of [getStats] *)

Lemma Set_of_length_from (l : list value) :
  forall acc : list value,
    (List.length (fold_left (fun s x => Set_add x s) l acc) <= List.length acc + List.length l)%nat.
Proof.
  induction l as [|x r IH]; intros acc; cbn [fold_left List.length]; [lia|].
  specialize (IH (Set_add x acc)).
  assert (List.length (Set_add x acc) <= S (List.length acc))%nat.
  { unfold Set_add. destruct (existsb _ _); [lia|]. rewrite length_app. cbn. lia. }
  lia.
Qed.

Lemma Map_set_length {V} (k : value) (v : V) (m : list (value * V)) :
  (List.length (Map_set k v m) <= S (List.length m))%nat.
Proof.
  induction m as [|[k' v'] r IH]; cbn [Map_set List.length]; [lia|].
  destruct (same_value_zero k' k); cbn [List.length]; lia.
Qed.

Lemma count_span_length (l : list TelemetrySpan) :
  forall (ops : list (value * nat)) (errs succs : nat),
    (List.length (fold_left count_span l (ops, errs, succs)).1.1
       <= List.length ops + List.length l)%nat.
Proof.
  induction l as [|span rest IH]; intros ops errs succs; cbn [fold_left List.length fst];
    [lia|].
  unfold count_span at 2.
  pose proof (Map_set_length (operationName span)
                (default 0%nat (Map_get (operationName span) ops) + 1)%nat ops) as Hset.
  destruct (is_error span);
    match goal with |- context [fold_left count_span rest (?o, ?e, ?s)] =>
      specialize (IH o e s) end; lia.
Qed.

(** X5. The counters of [getStats] are consistent with the store:
    [totalSpans] is the number of held spans (what [getTotalSpans] returns),
    [errorCount + successCount] equals it, the numbers of distinct services
    and operations do not exceed it, and [topOperations] has at most 10
    entries and no more than there are distinct operations. *)
Theorem X5_stats_counters_consistent (w : world) :
  exists (st : TelemetryStats) (n : Z),
    result getStats w = Return st /\
    result getTotalSpans w = Return n /\
    Z.of_nat (totalSpans st) = n /\
    totalSpans st = List.length (contents w) /\
    (errorCount st + successCount st = totalSpans st)%nat /\
    (uniqueServices st <= totalSpans st)%nat /\
    (uniqueOperations st <= totalSpans st)%nat /\
    (List.length (topOperations st) <= 10)%nat /\
    (List.length (topOperations st) <= uniqueOperations st)%nat.
Proof.
  exists (stats_of (contents w)), (Z.of_nat (List.length (contents w))).
  split; [reflexivity|]. split; [reflexivity|].
  unfold stats_of.
  destruct (Z.eqb_spec (Z.of_nat (List.length (contents w))) 0) as [Hz|Hnz].
  - destruct (contents w); [cbn; repeat split; lia | cbn in Hz; lia].
  - pose proof (count_span_counts (contents w) [] 0%nat 0%nat) as Hc.
    pose proof (count_span_length (contents w) [] 0%nat 0%nat) as Hl.
    destruct (fold_left count_span (contents w) ([], 0%nat, 0%nat)) as [[ops errs] succs].
    cbn [fst List.length] in Hl. destruct Hc as [He Hs].
    cbn [totalSpans errorCount successCount uniqueServices uniqueOperations topOperations].
    split; [reflexivity|]. split; [reflexivity|].
    split.
    { rewrite He, Hs. cbn [Nat.add].
      rewrite <- (filter_length is_error (contents w)). 
      f_equal. }
    split.
    { pose proof (Set_of_length_from (List.map serviceName (contents w)) []) as H.
      unfold Set_of. rewrite length_map in H. cbn [List.length] in H. lia. }
    split; [lia|].
    rewrite length_take, Array_sort_length. split; lia.
Qed.

(** *** The map of operation counts *)

Lemma same_value_zero_str (k : value) (n : string) :
  same_value_zero k (VStr n) = true <-> k = VStr n.
Proof.
  destruct k; cbn [same_value_zero]; try (split; [discriminate|discriminate]).
  rewrite String.eqb_eq. split; congruence.
Qed.

Lemma Map_get_Map_set_eq {V} (n : string) (v : V) (m : list (value * V)) :
  Map_get (VStr n) (Map_set (VStr n) v m) = Some v.
Proof.
  induction m as [|[k' v'] r IH]; cbn [Map_set].
  - unfold Map_get. cbn. rewrite String.eqb_refl. reflexivity.
  - destruct (same_value_zero k' (VStr n)) eqn:Hk.
    + unfold Map_get. cbn [List.find fst]. rewrite Hk. reflexivity.
    + unfold Map_get in *. cbn [List.find fst]. rewrite Hk. exact IH.
Qed.

Lemma Map_get_Map_set_ne {V} (n n' : string) (v : V) (m : list (value * V)) :
  n <> n' -> Map_get (VStr n') (Map_set (VStr n) v m) = Map_get (VStr n') m.
Proof.
  intros Hne. induction m as [|[k' v'] r IH]; cbn [Map_set].
  - unfold Map_get. cbn. destruct (String.eqb_spec n n'); [contradiction|reflexivity].
  - destruct (same_value_zero k' (VStr n)) eqn:Hk.
    + apply same_value_zero_str in Hk. subst k'.
      unfold Map_get. cbn. destruct (String.eqb_spec n n'); [contradiction|reflexivity].
    + unfold Map_get in *. cbn [List.find fst].
      destruct (same_value_zero k' (VStr n')); [reflexivity|exact IH].
Qed.

(** The maps [getStats] builds: string keys, each once. *)
Lemma Map_set_elem {V} (n : string) (v : V) (m : list (value * V)) (k : value) (c : V) :
  (k, c) ∈ Map_set (VStr n) v m -> (k = VStr n /\ c = v) \/ (k, c) ∈ m.
Proof.
  induction m as [|[k' v'] r IH]; cbn [Map_set]; intros Hin.
  - apply list_elem_of_singleton in Hin. left. split; congruence.
  - destruct (same_value_zero k' (VStr n)) eqn:Hk.
    + apply same_value_zero_str in Hk. subst k'.
      apply elem_of_cons in Hin as [Heq|Hin].
      * left. split; congruence.
      * right. apply elem_of_cons. right. exact Hin.
    + apply elem_of_cons in Hin as [Heq|Hin].
      * right. apply elem_of_cons. left. exact Heq.
      * destruct (IH Hin) as [Hnew|Hold]; [left; exact Hnew|].
        right. apply elem_of_cons. right. exact Hold.
Qed.

Lemma Map_set_keys {V} (n : string) (v : V) (m : list (value * V)) (k : value) :
  k ∈ (Map_set (VStr n) v m).*1 -> k = VStr n \/ k ∈ m.*1.
Proof.
  intros Hin. apply list_elem_of_fmap in Hin as [[k' c] [-> Hin]].
  destruct (Map_set_elem n v m k' c Hin) as [[-> _]|Hold]; [left; reflexivity|].
  right. apply list_elem_of_fmap. exists (k', c). split; [reflexivity|exact Hold].
Qed.

Lemma Map_set_NoDup {V} (n : string) (v : V) (m : list (value * V)) :
  NoDup m.*1 -> NoDup (Map_set (VStr n) v m).*1.
Proof.
  induction m as [|[k' v'] r IH]; cbn [Map_set]; intros Hnd.
  - cbn. apply NoDup_singleton.
  - cbn [fmap list_fmap fst] in Hnd. apply NoDup_cons in Hnd as [Hk' Hr].
    destruct (same_value_zero k' (VStr n)) eqn:Hk.
    + cbn [fmap list_fmap fst]. apply NoDup_cons. split; assumption.
    + cbn [fmap list_fmap fst]. apply NoDup_cons. split; [|apply IH; exact Hr].
      intros Hin. apply Map_set_keys in Hin as [Heq|Hin]; [|contradiction].
      subst k'. cbn in Hk. rewrite String.eqb_refl in Hk. discriminate Hk.
Qed.

Lemma Map_get_elem {V} (n : string) (c : V) (m : list (value * V)) :
  NoDup m.*1 -> (VStr n, c) ∈ m -> Map_get (VStr n) m = Some c.
Proof.
  induction m as [|[k' v'] r IH]; intros Hnd Hin; [inversion Hin|].
  cbn [fmap list_fmap fst] in Hnd. apply NoDup_cons in Hnd as [Hk' Hr].
  unfold Map_get in *. cbn [List.find fst].
  apply elem_of_cons in Hin as [Heq|Hin].
  - injection Heq as <- <-. cbn. rewrite String.eqb_refl. reflexivity.
  - destruct (same_value_zero k' (VStr n)) eqn:Hk.
    + apply same_value_zero_str in Hk. subst k'. exfalso. apply Hk'.
      apply list_elem_of_fmap. exists (VStr n, c). split; [reflexivity|exact Hin].
    + apply IH; assumption.
Qed.

Lemma count_span_operations (l : list TelemetrySpan) :
  forall (ops : list (value * nat)) (errs succs : nat),
    (fold_left count_span l (ops, errs, succs)).1.1 =
      fold_left
        (fun m span =>
           Map_set (operationName span)
             (default 0%nat (Map_get (operationName span) m) + 1)%nat m)
        l ops.
Proof.
  induction l as [|span rest IH]; intros ops errs succs; [reflexivity|].
  cbn [fold_left]. unfold count_span at 2.
  destruct (is_error span); apply IH.
Qed.

Lemma operation_count_snoc (n : string) (l : list TelemetrySpan) (span : TelemetrySpan) :
  operation_count n (l ++ [span]) =
    (operation_count n l + if strict_eq_str (operationName span) n then 1 else 0)%nat.
Proof.
  unfold operation_count. rewrite List.filter_app, length_app. cbn [List.filter].
  destruct (strict_eq_str (operationName span) n); reflexivity.
Qed.

(** The operations map after the counting pass: string keys without
    repetition, each with the number of spans of that name. *)
Lemma operations_map_counts (l : list TelemetrySpan) :
  operations_are_strings l ->
  let ops := (fold_left count_span l ([], 0%nat, 0%nat)).1.1 in
  NoDup ops.*1 /\
  (forall n, default 0%nat (Map_get (VStr n) ops) = operation_count n l) /\
  (forall k c, (k, c) ∈ ops -> exists n, k = VStr n /\ c = operation_count n l /\ (1 <= c)%nat).
Proof.
  intros Hl ops. unfold ops. clear ops. rewrite count_span_operations.
  induction l as [|span l IH] using rev_ind.
  - cbn. split; [apply NoDup_nil_2|]. split; [reflexivity|]. intros k c Hin. inversion Hin.
  - unfold operations_are_strings in Hl. apply Forall_app in Hl as [Hl Hspan].
    apply Forall_singleton in Hspan as [name Hname].
    destruct (IH Hl) as [Hnd [Hget Hall]]. clear IH.
    rewrite fold_left_app. cbn [fold_left].
    set (m := fold_left _ l []) in *. rewrite Hname.
    split; [apply Map_set_NoDup; exact Hnd|].
    assert (Hget' : forall n,
               default 0%nat (Map_get (VStr n)
                 (Map_set (VStr name) (default 0%nat (Map_get (VStr name) m) + 1)%nat m))
               = operation_count n (l ++ [span])).
    { intros n. rewrite operation_count_snoc, Hname. cbn [strict_eq_str].
      destruct (String.eqb_spec name n) as [->|Hne].
      - rewrite Map_get_Map_set_eq. cbn. rewrite Hget. reflexivity.
      - rewrite Map_get_Map_set_ne by exact Hne. rewrite Hget. lia. }
    split; [exact Hget'|].
    intros k c Hin.
    assert (Hstr : exists n, k = VStr n).
    { apply Map_set_elem in Hin as [[-> _]|Hold]; [eauto|].
      destruct (Hall k c Hold) as [n [-> _]]. eauto. }
    destruct Hstr as [n ->]. exists n. split; [reflexivity|].
    pose proof (Map_get_elem n c _ (Map_set_NoDup name _ m Hnd) Hin) as Hfound.
    specialize (Hget' n). rewrite Hfound in Hget'. cbn in Hget'.
    split; [exact Hget'|].
    apply Map_set_elem in Hin as [[_ ->]|Hold]; [lia|].
    destruct (Hall _ _ Hold) as [n' [_ [_ Hc]]]. exact Hc.
Qed.

(** *** The time range *)

Lemma string_cmp_le (a b : string) :
  string_cmp a b <= 0 <-> String.compare a b <> Gt.
Proof. unfold string_cmp. destruct (String.compare a b); split; (lia || congruence). Qed.

Lemma string_compare_total (a b : string) :
  String.compare a b <> Gt \/ String.compare b a <> Gt.
Proof.
  rewrite (String.compare_antisym a b).
  destruct (String.compare b a); cbn; [left|right|left]; congruence.
Qed.

Lemma string_compare_trans (a b c : string) :
  String.compare a b <> Gt -> String.compare b c <> Gt -> String.compare a c <> Gt.
Proof.
  intros Hab Hbc.
  destruct (String.compare a b) eqn:Eab; [|clear Hab|congruence].
  { apply String.compare_eq_iff in Eab. subst b. exact Hbc. }
  destruct (String.compare b c) eqn:Ebc; [| |congruence].
  { apply String.compare_eq_iff in Ebc. subst c. rewrite Eab. congruence. }
  apply OrderedTypeEx.String_as_OT.cmp_lt in Eab, Ebc.
  pose proof (OrderedTypeEx.String_as_OT.lt_trans _ _ _ Eab Ebc) as Hac.
  apply OrderedTypeEx.String_as_OT.cmp_lt in Hac.
  unfold OrderedTypeEx.String_as_OT.cmp in Hac. rewrite Hac. congruence.
Qed.

Lemma string_compare_refl (a : string) : String.compare a a <> Gt.
Proof.
  pose proof (proj2 (OrderedTypeEx.String_as_OT.cmp_eq a a) eq_refl) as E.
  unfold OrderedTypeEx.String_as_OT.cmp in E. rewrite E. discriminate.
Qed.

Lemma sorted_head_last {A} (le : A -> A -> Prop) (l : list A) :
  (forall a, le a a) ->
  StronglySorted le l -> l <> [] ->
  exists lo hi, head l = Some lo /\ last l = Some hi /\
    forall x, x ∈ l -> le lo x /\ le x hi.
Proof.
  intros Hrefl Hsorted. induction Hsorted as [|y r Hr IH Hy]; intros Hne; [congruence|].
  destruct r as [|z r'].
  - exists y, y. split; [reflexivity|]. split; [reflexivity|].
    intros x Hx. apply list_elem_of_singleton in Hx. subst x. split; apply Hrefl.
  - destruct IH as [lo [hi [Hlo [Hhi Hall]]]]; [discriminate|].
    exists y, hi. split; [reflexivity|]. split; [rewrite last_cons, Hhi; reflexivity|].
    intros x Hx. apply elem_of_cons in Hx as [->|Hx].
    + split; [apply Hrefl|].
      rewrite Forall_forall in Hy. apply Hy.
      apply last_Some_elem_of. exact Hhi.
    + split; [rewrite Forall_forall in Hy; apply Hy; exact Hx|].
      apply Hall. exact Hx.
Qed.

(** X7. With at least one held span and no empty timestamp, [timeRange]
    holds the least and the greatest timestamp of the held spans in the
    order of the strings (the one the default [sort] uses). *)
Theorem X7_timeRange_least_and_greatest (w : world) :
  contents w <> [] ->
  Forall (fun span => timestamp span <> "") (contents w) ->
  exists (st : TelemetryStats) (lo hi : TelemetrySpan),
    result getStats w = Return st /\
    lo ∈ contents w /\ hi ∈ contents w /\
    timeRange st = (Some (timestamp lo), Some (timestamp hi)) /\
    forall span, span ∈ contents w ->
      String.compare (timestamp lo) (timestamp span) <> Gt /\
      String.compare (timestamp span) (timestamp hi) <> Gt.
Proof.
  intros Hne Hstamps.
  assert (Hsorted : StronglySorted (fun a b => String.compare a b <> Gt)
                      (Array_sort string_cmp (List.map timestamp (contents w)))).
  { apply (Array_sort_sorted string_cmp).
    - apply string_cmp_le.
    - apply string_compare_total.
    - apply string_compare_trans. }
  pose proof (Array_sort_perm string_cmp (List.map timestamp (contents w))) as Hperm.
  destruct (sorted_head_last _ _ string_compare_refl Hsorted) as [lo [hi [Hlo [Hhi Hall]]]].
  { intros Hnil. rewrite Hnil in Hperm. apply Permutation_nil in Hperm.
    apply map_eq_nil in Hperm. contradiction. }
  assert (Hin : forall t, t ∈ Array_sort string_cmp (List.map timestamp (contents w)) ->
                  exists span, span ∈ contents w /\ timestamp span = t).
  { intros t Ht. rewrite Hperm in Ht. apply list_elem_of_In, in_map_iff in Ht.
    destruct Ht as [span [E Hspan]]. exists span. split; [apply list_elem_of_In, Hspan|exact E]. }
  destruct (Hin lo) as [slo [Hslo Elo]]; [apply head_Some_elem_of; exact Hlo|].
  destruct (Hin hi) as [shi [Hshi Ehi]]; [apply last_Some_elem_of; exact Hhi|].
  exists (stats_of (contents w)), slo, shi.
  split; [reflexivity|]. split; [exact Hslo|]. split; [exact Hshi|].
  split.
  - unfold stats_of.
    destruct (Z.eqb_spec (Z.of_nat (List.length (contents w))) 0) as [Hz|Hnz].
    { destruct (contents w); [congruence|cbn in Hz; lia]. }
    destruct (fold_left count_span (contents w) ([], 0%nat, 0%nat)) as [[ops errs] succs].
    cbn [timeRange]. rewrite Hlo, Hhi. cbn [or_null].
    rewrite Forall_forall in Hstamps.
    pose proof (Hstamps slo Hslo) as H1. pose proof (Hstamps shi Hshi) as H2.
    rewrite Elo in H1. rewrite Ehi in H2.
    apply String.eqb_neq in H1, H2. rewrite H1, H2, Elo, Ehi. reflexivity.
  - intros span Hspan. rewrite Elo, Ehi. apply Hall.
    rewrite Hperm. apply list_elem_of_In, in_map, list_elem_of_In. exact Hspan.
Qed.

(** *** Distinct services and operations *)

Lemma Set_of_snoc (l : list value) (x : value) :
  Set_of (l ++ [x]) = Set_add x (Set_of l).
Proof. unfold Set_of. rewrite fold_left_app. reflexivity. Qed.

Lemma existsb_same_value_zero (n : string) (names : list string) :
  existsb (same_value_zero (VStr n)) (List.map VStr names) = true <-> n ∈ names.
Proof.
  rewrite existsb_exists. split.
  - intros [x [Hx Hn]]. apply in_map_iff in Hx as [m [<- Hm]]. cbn in Hn.
    apply String.eqb_eq in Hn. subst m. apply list_elem_of_In. exact Hm.
  - intros Hn. exists (VStr n). split; [apply in_map, list_elem_of_In; exact Hn|].
    cbn. apply String.eqb_refl.
Qed.

Lemma Set_of_strings (l : list string) :
  exists names : list string,
    Set_of (List.map VStr l) = List.map VStr names /\ NoDup names /\
    forall n, n ∈ names <-> n ∈ l.
Proof.
  induction l as [|x l IH] using rev_ind.
  - exists []. split; [reflexivity|]. split; [apply NoDup_nil_2|]. intros n. reflexivity.
  - destruct IH as [names [Hset [Hnd Hiff]]].
    rewrite map_app. cbn [List.map]. rewrite Set_of_snoc, Hset. unfold Set_add.
    destruct (existsb (same_value_zero (VStr x)) (List.map VStr names)) eqn:Hex.
    + apply existsb_same_value_zero in Hex. exists names. split; [reflexivity|].
      split; [exact Hnd|]. intros n. rewrite elem_of_app, list_elem_of_singleton, Hiff.
      split; [tauto|]. intros [Hn| ->]; [exact Hn|]. apply Hiff. exact Hex.
    + exists (names ++ [x])%list. split; [rewrite map_app; reflexivity|].
      split.
      * apply NoDup_app. split; [exact Hnd|]. split; [|apply NoDup_singleton].
        intros n Hn Hx. apply list_elem_of_singleton in Hx. subst n.
        apply existsb_same_value_zero in Hn. congruence.
      * intros n. rewrite !elem_of_app, !list_elem_of_singleton, Hiff. reflexivity.
Qed.

Lemma strings_of_values (l : list value) :
  Forall (fun v => exists n, v = VStr n) l -> exists names, l = List.map VStr names.
Proof.
  induction 1 as [|v l [n ->] _ [names ->]]; [exists []; reflexivity|].
  exists (n :: names). reflexivity.
Qed.

Lemma operation_count_pos (n : string) (l : list TelemetrySpan) :
  (1 <= operation_count n l)%nat <->
  exists span, span ∈ l /\ operationName span = VStr n.
Proof.
  unfold operation_count. split.
  - intros Hpos. destruct (List.filter _ l) as [|span r] eqn:Hf; [cbn in Hpos; lia|].
    assert (Hin : List.In span (List.filter
              (fun span => strict_eq_str (operationName span) n) l))
      by (rewrite Hf; left; reflexivity).
    apply filter_In in Hin as [Hin Hname]. exists span. split; [apply list_elem_of_In, Hin|].
    destruct (operationName span); try discriminate Hname.
    cbn in Hname. apply String.eqb_eq in Hname. congruence.
  - intros [span [Hin Hname]].
    assert (Hin' : List.In span (List.filter
              (fun span => strict_eq_str (operationName span) n) l)).
    { apply filter_In. split; [apply list_elem_of_In, Hin|].
      rewrite Hname. cbn. apply String.eqb_refl. }
    destruct (List.filter _ l); [destruct Hin'|cbn; lia].
Qed.

(** X8. When services and operations of the held spans are named by
    strings, [uniqueServices] and [uniqueOperations] are the numbers of
    distinct service names and of distinct operation names among them. *)
Theorem X8_unique_counts_are_distinct_names (w : world) :
  services_are_strings (contents w) ->
  operations_are_strings (contents w) ->
  exists (st : TelemetryStats) (services operations : list string),
    result getStats w = Return st /\
    NoDup services /\ uniqueServices st = List.length services /\
    (forall n, n ∈ services <->
       exists span, span ∈ contents w /\ serviceName span = VStr n) /\
    NoDup operations /\ uniqueOperations st = List.length operations /\
    (forall n, n ∈ operations <->
       exists span, span ∈ contents w /\ operationName span = VStr n).
Proof.
  intros Hserv Hops.
  destruct (strings_of_values (List.map serviceName (contents w))) as [snames Hsnames].
  { apply Forall_fmap. exact Hserv. }
  destruct (Set_of_strings snames) as [services [Hset [Hnd Hiff]]].
  pose proof (operations_map_counts (contents w) Hops) as Hmap. cbv zeta in Hmap.
  destruct Hmap as [Hnd' [Hget Hall]].
  destruct (strings_of_values (fold_left count_span (contents w) ([], 0%nat, 0%nat)).1.1.*1)
    as [operations Hkeys].
  { apply Forall_fmap, Forall_forall. intros [k c] Hin.
    destruct (Hall k c Hin) as [n [-> _]]. exists n. reflexivity. }
  exists (stats_of (contents w)), services, operations.
  split; [reflexivity|].
  assert (Hservices : forall n, n ∈ services <->
            exists span, span ∈ contents w /\ serviceName span = VStr n).
  { intros n. rewrite Hiff. split.
    - intros Hn. assert (Hv : List.In (VStr n) (List.map VStr snames))
        by (apply in_map, list_elem_of_In; exact Hn).
      rewrite <- Hsnames in Hv. apply in_map_iff in Hv as [span [E Hin]].
      exists span. split; [apply list_elem_of_In, Hin|exact E].
    - intros [span [Hin E]].
      assert (Hv : List.In (VStr n) (List.map serviceName (contents w))).
      { rewrite <- E. apply in_map, list_elem_of_In. exact Hin. }
      rewrite Hsnames in Hv. apply in_map_iff in Hv as [m [Hm Hin']].
      injection Hm as ->. apply list_elem_of_In. exact Hin'. }
  assert (Hoperations : forall n, n ∈ operations <->
            exists span, span ∈ contents w /\ operationName span = VStr n).
  { intros n. rewrite <- operation_count_pos. split.
    - intros Hn.
      assert (Hv : VStr n ∈ (fold_left count_span (contents w) ([], 0%nat, 0%nat)).1.1.*1).
      { rewrite Hkeys. apply list_elem_of_In, in_map, list_elem_of_In. exact Hn. }
      apply list_elem_of_fmap in Hv as [[k c] [Hk Hin]]. cbn in Hk. subst k.
      destruct (Hall _ _ Hin) as [n' [Hn' [Hc Hpos]]]. injection Hn' as <-. lia.
    - intros Hpos. specialize (Hget n).
      destruct (Map_get (VStr n) _) as [c|] eqn:Hfound; [|cbn in Hget; lia].
      unfold Map_get in Hfound.
      destruct (List.find _ _) as [[k c']|] eqn:Hfind; [|discriminate Hfound].
      apply List.find_some in Hfind as [Hin Hk]. cbn in Hk.
      apply same_value_zero_str in Hk. subst k.
      assert (Hv : List.In (VStr n) (List.map VStr operations)).
      { rewrite <- Hkeys. apply list_elem_of_In, list_elem_of_fmap.
        exists (VStr n, c'). split; [reflexivity|apply list_elem_of_In, Hin]. }
      apply in_map_iff in Hv as [m [Hm Hin']]. injection Hm as ->.
      apply list_elem_of_In. exact Hin'. }
  assert (Hnd_ops : NoDup operations).
  { rewrite Hkeys in Hnd'. apply (NoDup_fmap_1 VStr). exact Hnd'. }
  unfold stats_of.
  destruct (Z.eqb_spec (Z.of_nat (List.length (contents w))) 0) as [Hz|Hnz].
  { assert (Hnil : contents w = []) by (destruct (contents w); [reflexivity|cbn in Hz; lia]).
    rewrite Hnil in *. cbn [uniqueServices uniqueOperations empty_stats].
    assert (services = []) as ->.
    { destruct services as [|n r]; [reflexivity|].
      destruct (proj1 (Hservices n)) as [span [Hin _]]; [left|inversion Hin]. }
    assert (operations = []) as ->.
    { destruct operations as [|n r]; [reflexivity|].
      destruct (proj1 (Hoperations n)) as [span [Hin _]]; [left|inversion Hin]. }
    repeat split; try assumption; try apply Hservices; try apply Hoperations. }
  destruct (fold_left count_span (contents w) ([], 0%nat, 0%nat)) as [[ops errs] succs].
  cbn [fst] in Hkeys. cbn [uniqueServices uniqueOperations].
  split; [exact Hnd|]. split.
  { rewrite Hsnames, Hset, length_map. reflexivity. }
  split; [exact Hservices|]. split; [exact Hnd_ops|]. split.
  { rewrite <- (length_map VStr operations), <- Hkeys, length_fmap. reflexivity. }
  exact Hoperations.
Qed.
(** *** The most frequent operations *)

Lemma operations_map_names (l : list TelemetrySpan) :
  operations_are_strings l ->
  exists operations : list string,
    (fold_left count_span l ([], 0%nat, 0%nat)).1.1.*1 = List.map VStr operations /\
    NoDup operations /\
    (forall n, n ∈ operations <->
       exists span, span ∈ l /\ operationName span = VStr n).
Proof.
  intros Hops.
  pose proof (operations_map_counts l Hops) as Hmap. cbv zeta in Hmap.
  destruct Hmap as [Hnd [Hget Hall]].
  destruct (strings_of_values (fold_left count_span l ([], 0%nat, 0%nat)).1.1.*1)
    as [operations Hkeys].
  { apply Forall_fmap, Forall_forall. intros [k c] Hin.
    destruct (Hall k c Hin) as [n [-> _]]. exists n. reflexivity. }
  exists operations. split; [exact Hkeys|]. split.
  { rewrite Hkeys in Hnd. apply (NoDup_fmap_1 VStr). exact Hnd. }
  intros n. rewrite <- operation_count_pos. split.
  - intros Hn.
    assert (Hv : VStr n ∈ (fold_left count_span l ([], 0%nat, 0%nat)).1.1.*1).
    { rewrite Hkeys. apply list_elem_of_In, in_map, list_elem_of_In. exact Hn. }
    apply list_elem_of_fmap in Hv as [[k c] [Hk Hin]]. cbn in Hk. subst k.
    destruct (Hall _ _ Hin) as [n' [Hn' [Hc Hpos]]]. injection Hn' as <-. lia.
  - intros Hpos. specialize (Hget n).
    destruct (Map_get (VStr n) _) as [c|] eqn:Hfound; [|cbn in Hget; lia].
    unfold Map_get in Hfound.
    destruct (List.find _ _) as [[k c']|] eqn:Hfind; [|discriminate Hfound].
    apply List.find_some in Hfind as [Hin Hk]. cbn in Hk.
    apply same_value_zero_str in Hk. subst k.
    assert (Hv : List.In (VStr n) (List.map VStr operations)).
    { rewrite <- Hkeys. apply list_elem_of_In, list_elem_of_fmap.
      exists (VStr n, c'). split; [reflexivity|apply list_elem_of_In, Hin]. }
    apply in_map_iff in Hv as [m [Hm Hin']]. injection Hm as ->.
    apply list_elem_of_In. exact Hin'.
Qed.

(** X6. When the held spans have string operation names, [topOperations]
    lists 10 of the distinct operation names, or all of them when there are
    fewer: each once, with the number of held spans of that name (at least
    1), in order of non-increasing count; and no operation left out has
    more spans than one that is listed. *)
Theorem X6_topOperations_are_the_most_frequent (w : world) :
  operations_are_strings (contents w) ->
  exists (st : TelemetryStats) (operations : list string),
    result getStats w = Return st /\
    NoDup operations /\
    (forall n, n ∈ operations <->
       exists span, span ∈ contents w /\ operationName span = VStr n) /\
    List.length (topOperations st) = Nat.min 10 (List.length operations) /\
    NoDup (topOperations st).*1 /\
    (forall k c, (k, c) ∈ topOperations st ->
       exists n, k = VStr n /\ c = operation_count n (contents w) /\ (1 <= c)%nat) /\
    StronglySorted (fun a b => (snd b <= snd a)%nat) (topOperations st) /\
    (forall n, VStr n ∉ (topOperations st).*1 ->
       forall k c, (k, c) ∈ topOperations st -> (operation_count n (contents w) <= c)%nat).
Proof.
  intros Hstr.
  destruct (operations_map_names (contents w) Hstr) as [operations [Hkeys [Hdistinct Hnames]]].
  exists (stats_of (contents w)), operations. split; [reflexivity|].
  split; [exact Hdistinct|]. split; [exact Hnames|].
  unfold stats_of.
  destruct (Z.eqb_spec (Z.of_nat (List.length (contents w))) 0) as [Hz|Hnz].
  { assert (Hnil : contents w = []) by (destruct (contents w); [reflexivity|cbn in Hz; lia]).
    rewrite Hnil in Hkeys. cbn in Hkeys. symmetry in Hkeys. apply map_eq_nil in Hkeys.
    subst operations.
    cbn [topOperations empty_stats]. split; [reflexivity|]. split; [apply NoDup_nil_2|].
    split; [intros k c Hin; inversion Hin|]. split; [constructor|].
    intros n _ k c Hin. inversion Hin. }
  pose proof (operations_map_counts (contents w) Hstr) as Hops. cbv zeta in Hops.
  destruct (fold_left count_span (contents w) ([], 0%nat, 0%nat)) as [[ops errs] succs].
  cbn [fst] in Hops, Hkeys. destruct Hops as [Hnd [Hget Hall]].
  cbn [topOperations].
  set (cmp := fun x y : value * nat => Z.of_nat (snd y) - Z.of_nat (snd x)).
  set (sorted := Array_sort cmp ops).
  assert (Hperm : Permutation sorted ops) by apply Array_sort_perm.
  assert (Hsorted : StronglySorted (fun a b => (snd b <= snd a)%nat) sorted).
  { apply (Array_sort_sorted cmp).
    - intros a b. unfold cmp. lia.
    - intros a b. lia.
    - intros a b c. lia. }
  assert (Hnd' : NoDup sorted.*1).
  { rewrite Hperm. exact Hnd. }
  assert (Hsplit : sorted = (take 10 sorted ++ drop 10 sorted)%list) by (symmetry; apply take_drop).
  split.
  { rewrite length_take. unfold sorted. rewrite Array_sort_length.
    rewrite <- (length_map VStr operations), <- Hkeys, length_fmap. reflexivity. }
  split.
  { rewrite Hsplit, fmap_app in Hnd'. apply NoDup_app in Hnd' as [Hnd' _]. exact Hnd'. }
  split.
  { intros k c Hin. apply Hall.
    apply (elem_of_Permutation_proper _ _ _ Hperm).
    rewrite Hsplit. apply elem_of_app. left. exact Hin. }
  split.
  { rewrite Hsplit in Hsorted. apply StronglySorted_app_1_l in Hsorted. exact Hsorted. }
  intros n Hout k c Hin.
  destruct (Nat.eq_dec (operation_count n (contents w)) 0%nat) as [->|Hpos]; [lia|].
  (* the operation has an entry, which the cut left out *)
  assert (Hentry : (VStr n, operation_count n (contents w)) ∈ ops).
  { specialize (Hget n). destruct (Map_get (VStr n) ops) as [c'|] eqn:Hfound;
      [|cbn in Hget; lia].
    cbn in Hget. subst c'. unfold Map_get in Hfound.
    destruct (List.find _ ops) as [[k' c']|] eqn:Hfind; [|discriminate Hfound].
    cbn in Hfound. injection Hfound as ->.
    apply List.find_some in Hfind as [Hin' Hk]. cbn in Hk.
    apply same_value_zero_str in Hk. subst k'. apply list_elem_of_In. exact Hin'. }
  apply (elem_of_Permutation_proper _ _ _ Hperm) in Hentry.
  rewrite Hsplit in Hentry. apply elem_of_app in Hentry as [Htop|Hrest].
  { exfalso. apply Hout. apply list_elem_of_fmap.
    exists (VStr n, operation_count n (contents w)). split; [reflexivity|exact Htop]. }
  rewrite Hsplit in Hsorted.
  apply (StronglySorted_app_1_elem_of _ _ _ (k, c) _ Hsorted Hin Hrest).
Qed.

(** *** The filters *)

Lemma filter_spans_named (field : TelemetrySpan -> value) (name : string)
    (l : list TelemetrySpan) :
  List.filter (fun span => strict_eq_str (field span) name) l = spans_named field name l.
Proof.
  unfold spans_named. induction l as [|x l IH]; [reflexivity|].
  cbn [List.filter]. rewrite filter_cons, IH.
  destruct (decide (field x = VStr name)) as [Heq|Hne].
  - rewrite Heq. cbn [strict_eq_str]. rewrite String.eqb_refl. reflexivity.
  - destruct (field x) as [| | | |s| |]; cbn [strict_eq_str]; try reflexivity.
    destruct (String.eqb_spec s name) as [->|_]; [contradiction Hne; reflexivity|reflexivity].
Qed.

(** X4. [getSpansByService] and [getSpansByOperation] return a new array
    that holds, in insertion order and as often as the store holds them,
    exactly the held spans whose name is the given string; the array is not
    the store's own, so writing to it leaves the store as it was. *)
Theorem X4_filters_return_new_arrays (w : world) (name : string) :
  wf w ->
  let by_service := exec (getSpansByService name) w in
  let by_operation := exec (getSpansByOperation name) w in
  exists r1 r2 : ref,
    result (getSpansByService name) w = Return r1 /\
    result (getSpansByOperation name) w = Return r2 /\
    heap by_service !! r1 = Some (spans_named serviceName name (contents w)) /\
    heap by_operation !! r2 = Some (spans_named operationName name (contents w)) /\
    heap w !! r1 = None /\ heap w !! r2 = None /\
    (forall l, contents (exec (array_write r1 l) by_service) = contents w) /\
    (forall l, contents (exec (array_write r2 l) by_operation) = contents w).
Proof.
  intros Hwf. cbv zeta.
  assert (Hiso : forall (p : TelemetrySpan -> bool) (l : list TelemetrySpan),
             contents (exec (array_write (List.length (heap w)) l)
                         (with_heap (heap w ++ [List.filter p (contents w)]) w))
             = contents w).
  { intros p l. unfold exec, array_write, contents, with_heap. cbn [snd heap storage].
    unfold wf in Hwf.
    rewrite list_lookup_insert_ne by lia.
    rewrite lookup_app_l by exact Hwf. reflexivity. }
  exists (List.length (heap w)), (List.length (heap w)).
  unfold result, exec, getSpansByService, getSpansByOperation.
  rewrite !array_filter_run. cbn [fst snd].
  split; [reflexivity|]. split; [reflexivity|].
  split; [rewrite read_result_lookup, filter_spans_named; reflexivity|].
  split; [rewrite read_result_lookup, filter_spans_named; reflexivity|].
  split; [apply lookup_ge_None_2; lia|]. split; [apply lookup_ge_None_2; lia|].
  split; intros l; apply Hiso.
Qed.

(** The two spans of service ["web"] among the three of the sample. *)
Lemma X4_filters_return_new_arrays_witness :
  exists r : ref,
    result (getSpansByService "web") sample_store = Return r /\
    List.map traceId <$> heap (exec (getSpansByService "web") sample_store) !! r
      = Some ["01"; "02"].
Proof.
  destruct (X4_filters_return_new_arrays sample_store "web")
    as [r1 [r2 [Hr1 [_ [Hl1 _]]]]].
  { unfold wf. vm_compute. lia. }
  exists r1. split; [exact Hr1|]. rewrite Hl1. vm_compute. reflexivity.
Defined.

(** *** Witnesses on the sample store *)

(** On the sample store ["load"], with two spans, comes before ["save"]. *)
Lemma X6_topOperations_are_the_most_frequent_witness :
  exists st : TelemetryStats,
    result getStats sample_store = Return st /\
    topOperations st = [(VStr "load", 2%nat); (VStr "save", 1%nat)].
Proof.
  destruct (X6_topOperations_are_the_most_frequent sample_store)
    as [st [operations [Hst _]]].
  { repeat econstructor. }
  exists st. split; [exact Hst|].
  vm_compute in Hst. injection Hst as <-. reflexivity.
Defined.

(** On the sample store every timestamp is the epoch. *)
Lemma X7_timeRange_least_and_greatest_witness :
  exists st : TelemetryStats,
    result getStats sample_store = Return st /\
    timeRange st = (Some "1970-01-01T00:00:00.000Z", Some "1970-01-01T00:00:00.000Z").
Proof.
  destruct (X7_timeRange_least_and_greatest sample_store) as [st [lo [hi [Hst _]]]].
  - discriminate.
  - repeat constructor; discriminate.
  - exists st. split; [exact Hst|].
    vm_compute in Hst. injection Hst as <-. reflexivity.
Defined.

(** The sample store has two services and two operations. *)
Lemma X8_unique_counts_are_distinct_names_witness :
  exists st : TelemetryStats,
    result getStats sample_store = Return st /\
    uniqueServices st = 2%nat /\ uniqueOperations st = 2%nat.
Proof.
  destruct (X8_unique_counts_are_distinct_names sample_store)
    as [st [services [operations [Hst _]]]].
  { repeat econstructor. }
  { repeat econstructor. }
  exists st. split; [exact Hst|].
  vm_compute in Hst. injection Hst as <-. split; reflexivity.
Defined.
End StoreExtras.

(** ** The capacity of the store *)

Section StoreCapacity.
#[local] Open Scope string_scope.
#[local] Open Scope Z_scope.




End StoreCapacity.

Section DecoderEffects.
Context `{Host}.
#[local] Open Scope string_scope.
#[local] Open Scope Z_scope.

Lemma effect_ret (cap : nat) (w : world) :
  store_ok cap w -> effect cap w (mret tt) (Return tt) [] [].
Proof.
  intros Hok. exists w. split; [reflexivity|]. split; [exact Hok|].
  rewrite !app_nil_r. split; [|reflexivity].
  symmetry. apply last_n_all. apply Hok.
Qed.

Lemma effect_log (cap : nat) (w : world) (lv : level) (msg : string) :
  store_ok cap w -> effect cap w (log lv msg) (Return tt) [] [(lv, msg)].
Proof.
  intros Hok. eexists. split; [reflexivity|]. split; [exact Hok|].
  split; [|reflexivity]. rewrite app_nil_r.
  symmetry. apply last_n_all. apply Hok.
Qed.

Lemma effect_lift_throw {A} (cap : nat) (w : world) (e : exn) (k : A -> M unit) :
  store_ok cap w -> effect cap w (lift (Throw e) ≫= k) (Throw e) [] [].
Proof.
  intros Hok. exists w. split; [reflexivity|]. split; [exact Hok|].
  rewrite !app_nil_r. split; [|reflexivity].
  symmetry. apply last_n_all. apply Hok.
Qed.

Lemma effect_addSpan (cap : nat) (w : world) (span : TelemetrySpan) :
  (0 < cap)%nat -> store_ok cap w ->
  effect cap w (addSpan span) (Return tt) [span] [].
Proof.
  intros Hcap [Hwf [Hmax Hlen]].
  assert (Hstep : contents (exec (addSpan span) w) = last_n cap (contents w ++ [span])).
  { rewrite addSpan_contents by exact Hwf. cbv zeta. rewrite Hmax.
    destruct (Z.ltb_spec (Z.of_nat cap) (Z.of_nat (List.length (contents w ++ [span]))))
      as [Hlt|Hge].
    - apply slice_list_neg. exact Hcap.
    - symmetry. apply last_n_all. lia. }
  exists (exec (addSpan span) w). split; [|split; [|split]].
  - unfold exec. rewrite (addSpan_run span w Hwf). reflexivity.
  - split; [apply addSpan_wf; exact Hwf|].
    split; [rewrite addSpan_maxSpans by exact Hwf; exact Hmax|].
    rewrite Hstep, length_last_n. lia.
  - exact Hstep.
  - unfold exec. rewrite (addSpan_run span w Hwf). cbn [snd]. cbv zeta.
    rewrite app_nil_r. destruct (_ <? _); reflexivity.
Qed.

Lemma effect_seq (cap : nat) (w : world) (m k : M unit) (o : outcome unit)
    (a1 a2 : list TelemetrySpan) (l1 l2 : list (level * string)) :
  effect cap w m (Return tt) a1 l1 ->
  (forall w', m w = (Return tt, w') -> effect cap w' k o a2 l2) ->
  effect cap w (m;; k) o (a1 ++ a2) (l1 ++ l2).
Proof.
  intros [w1 [Hm [Hok1 [Hc1 Hl1]]]] Hk.
  destruct (Hk w1 Hm) as [w2 [Hk2 [Hok2 [Hc2 Hl2]]]].
  exists w2. split; [|split; [exact Hok2|split]].
  - rewrite (bind_return _ _ w w1 tt Hm). exact Hk2.
  - rewrite Hc2, Hc1, last_n_app, app_assoc. reflexivity.
  - rewrite Hl2, Hl1, app_assoc. reflexivity.
Qed.

Lemma effect_stop (cap : nat) (w : world) (m k : M unit) (e : exn)
    (a : list TelemetrySpan) (l : list (level * string)) :
  effect cap w m (Throw e) a l -> effect cap w (m;; k) (Throw e) a l.
Proof.
  intros [w1 [Hm Hrest]]. exists w1. split; [|exact Hrest].
  apply (bind_throw _ _ w w1 e Hm).
Qed.

Lemma tidy_nil (P : TelemetrySpan -> Prop) : tidy P [] [].
Proof. repeat split. constructor. Qed.

Lemma tidy_warn (P : TelemetrySpan -> Prop) (msg : string) : tidy P [] [(Warn, msg)].
Proof. repeat split. constructor. Qed.

Lemma tidy_app (P : TelemetrySpan -> Prop) (a1 a2 : list TelemetrySpan)
    (l1 l2 : list (level * string)) :
  tidy P a1 l1 -> tidy P a2 l2 -> tidy P (a1 ++ a2) (l1 ++ l2).
Proof.
  intros [Ha1 [Hn1 He1]] [Ha2 [Hn2 He2]]. split; [|split].
  - apply Forall_app. split; assumption.
  - rewrite List.filter_app, !length_app. lia.
  - rewrite List.filter_app, He1, He2. reflexivity.
Qed.

Lemma decoder_effect_lift_throw {A} (P : TelemetrySpan -> Prop) (cap : nat) (w : world)
    (e : exn) (k : A -> M unit) :
  store_ok cap w -> decoder_effect P cap w (lift (Throw e) ≫= k).
Proof.
  intros Hok. exists (Throw e), [], []. split; [apply effect_lift_throw; exact Hok|].
  apply tidy_nil.
Qed.

Lemma decoder_effect_warn (P : TelemetrySpan -> Prop) (cap : nat) (w : world)
    (msg : string) :
  store_ok cap w -> decoder_effect P cap w (log Warn msg).
Proof.
  intros Hok. exists (Return tt), [], [(Warn, msg)].
  split; [apply effect_log; exact Hok|apply tidy_warn].
Qed.

Lemma decoder_effect_weaken (P Q : TelemetrySpan -> Prop) (cap : nat) (w : world)
    (m : M unit) :
  (forall t, P t -> Q t) -> decoder_effect P cap w m -> decoder_effect Q cap w m.
Proof.
  intros HPQ [o [a [l [Heff [Ha Hrest]]]]]. exists o, a, l. split; [exact Heff|].
  split; [|exact Hrest]. eapply Forall_impl; [exact Ha|exact HPQ].
Qed.

(** The span loop, one span after the other. *)
Lemma process_span_stores (cap : nat) (w : world) (service raw : value) (t : TelemetrySpan) :
  (0 < cap)%nat -> store_ok cap w ->
  convertSpan raw service = Return t ->
  effect cap w (process_span service raw) (Return tt) [t] [(Info, "Processed span")].
Proof.
  intros Hcap Hok Hconv. unfold process_span. rewrite Hconv.
  change (effect cap w (addSpan t;; log Info "Processed span") (Return tt)
            ([t] ++ []) ([] ++ [(Info, "Processed span")])).
  apply effect_seq; [apply effect_addSpan; assumption|].
  intros w' Hw'.
  destruct (effect_addSpan cap w t Hcap Hok) as [w1 [Hrun [Hok1 _]]].
  rewrite Hrun in Hw'. injection Hw' as <-.
  apply effect_log. exact Hok1.
Qed.

Lemma process_span_throws (cap : nat) (w : world) (service raw : value) (e : exn) :
  store_ok cap w ->
  convertSpan raw service = Throw e ->
  effect cap w (process_span service raw) (Throw e) [] [].
Proof.
  intros Hok Hconv. unfold process_span. rewrite Hconv.
  apply effect_lift_throw. exact Hok.
Qed.

Lemma effect_ok (cap : nat) (w w' : world) (m : M unit) (o : outcome unit)
    (a : list TelemetrySpan) (l : list (level * string)) :
  effect cap w m o a l -> m w = (o, w') -> store_ok cap w'.
Proof. intros [w1 [Hm [Hok _]]] Hrun. rewrite Hm in Hrun. injection Hrun as <-. exact Hok. Qed.

Lemma for_each_spans_ok (cap : nat) (service : value) (raws : list value)
    (ts : list TelemetrySpan) :
  (0 < cap)%nat ->
  Forall2 (fun raw t => convertSpan raw service = Return t) raws ts ->
  forall w, store_ok cap w ->
    effect cap w (for_each (process_span service) raws) (Return tt) ts
      (List.map (fun _ => (Info, "Processed span")) ts).
Proof.
  intros Hcap Hall. induction Hall as [|raw t raws ts Hraw Hrest IH]; intros w Hok.
  - apply effect_ret. exact Hok.
  - cbn [for_each List.map].
    pose proof (process_span_stores cap w service raw t Hcap Hok Hraw) as Hstep.
    change (effect cap w (process_span service raw;; for_each (process_span service) raws)
              (Return tt) ([t] ++ ts)
              ([(Info, "Processed span")] ++ List.map (fun _ => (Info, "Processed span")) ts)).
    apply effect_seq; [exact Hstep|].
    intros w' Hw'. apply IH. exact (effect_ok _ _ _ _ _ _ _ Hstep Hw').
Qed.

Lemma for_each_spans_fail (cap : nat) (service : value) (good rest : list value)
    (bad : value) (e : exn) (ts : list TelemetrySpan) :
  (0 < cap)%nat ->
  Forall2 (fun raw t => convertSpan raw service = Return t) good ts ->
  convertSpan bad service = Throw e ->
  forall w, store_ok cap w ->
    effect cap w (for_each (process_span service) (good ++ bad :: rest)) (Throw e) ts
      (List.map (fun _ => (Info, "Processed span")) ts).
Proof.
  intros Hcap Hall Hbad. induction Hall as [|raw t raws ts Hraw Hrest IH]; intros w Hok.
  - cbn [app for_each List.map]. apply effect_stop.
    apply process_span_throws; assumption.
  - cbn [app for_each List.map].
    pose proof (process_span_stores cap w service raw t Hcap Hok Hraw) as Hstep.
    change (effect cap w
              (process_span service raw;;
               for_each (process_span service) (raws ++ bad :: rest))
              (Throw e) ([t] ++ ts)
              ([(Info, "Processed span")] ++ List.map (fun _ => (Info, "Processed span")) ts)).
    apply effect_seq; [exact Hstep|].
    intros w' Hw'. apply IH. exact (effect_ok _ _ _ _ _ _ _ Hstep Hw').
Qed.

(** Any loop whose body has a decoder effect has one. *)
Lemma for_each_decoder_effect {A} (P : TelemetrySpan -> Prop) (cap : nat)
    (body : A -> M unit) (items : list A) :
  (forall x w, store_ok cap w -> decoder_effect P cap w (body x)) ->
  forall w, store_ok cap w -> decoder_effect P cap w (for_each body items).
Proof.
  intros Hbody. induction items as [|x rest IH]; intros w Hok.
  - exists (Return tt), [], []. split; [apply effect_ret; exact Hok|apply tidy_nil].
  - cbn [for_each].
    destruct (Hbody x w Hok) as [o [a [l [Heff Htidy]]]].
    destruct o as [[]|e].
    + destruct Heff as [w1 [Hrun [Hok1 Hrest]]].
      destruct (IH w1 Hok1) as [o2 [a2 [l2 [Heff2 Htidy2]]]].
      exists o2, (a ++ a2)%list, (l ++ l2)%list. split; [|apply tidy_app; assumption].
      apply effect_seq; [exists w1; split; [exact Hrun|split; [exact Hok1|exact Hrest]]|].
      intros w' Hw'. rewrite Hrun in Hw'. injection Hw' as <-. exact Heff2.
    + exists (Throw e), a, l. split; [apply effect_stop; exact Heff|exact Htidy].
Qed.

Lemma process_span_decoder_effect (cap : nat) (service raw : value) (w : world) :
  (0 < cap)%nat -> store_ok cap w ->
  decoder_effect (fun t => exists raw, convertSpan raw service = Return t) cap w
    (process_span service raw).
Proof.
  intros Hcap Hok. destruct (convertSpan raw service) as [t|e] eqn:Hconv.
  - exists (Return tt), [t], [(Info, "Processed span")].
    split; [apply process_span_stores; assumption|].
    split; [|split; reflexivity].
    constructor; [|constructor]. exists raw. exact Hconv.
  - exists (Throw e), [], []. split; [apply process_span_throws; assumption|apply tidy_nil].
Qed.

Lemma process_scopeSpan_decoder_effect (cap : nat) (service scopeSpan : value) (w : world) :
  (0 < cap)%nat -> store_ok cap w ->
  decoder_effect (fun t => exists raw, convertSpan raw service = Return t) cap w
    (process_scopeSpan service scopeSpan).
Proof.
  intros Hcap Hok. unfold process_scopeSpan.
  destruct (JS.get scopeSpan "spans") as [sp|e]; [|apply decoder_effect_lift_throw; exact Hok].
  change (decoder_effect (fun t => exists raw, convertSpan raw service = Return t) cap w
            (if negb (truthy sp) then log Warn "No spans found in scopeSpan"
             else items ← lift (iterate sp); for_each (process_span service) items)).
  destruct (negb (truthy sp)); [apply decoder_effect_warn; exact Hok|].
  destruct (iterate sp) as [items|e]; [|apply decoder_effect_lift_throw; exact Hok].
  change (decoder_effect (fun t => exists raw, convertSpan raw service = Return t) cap w (for_each (process_span service) items)).
  apply for_each_decoder_effect; [|exact Hok].
  intros raw w' Hok'. apply process_span_decoder_effect; assumption.
Qed.

Lemma process_resourceSpan_decoder_effect (cap : nat) (resourceSpan : value) (w : world) :
  (0 < cap)%nat -> store_ok cap w ->
  decoder_effect converted cap w (process_resourceSpan resourceSpan).
Proof.
  intros Hcap Hok. unfold process_resourceSpan.
  destruct (JS.get resourceSpan "resource") as [resource|e];
    [|apply decoder_effect_lift_throw; exact Hok].
  change (decoder_effect converted cap w
            (service ← lift (extractServiceName resource);
             scopes ← lift (JS.get resourceSpan "scopeSpans");
             if negb (truthy scopes) then log Warn "No scopeSpans found in resourceSpan"
             else items ← lift (iterate scopes);
                  for_each (process_scopeSpan service) items)).
  destruct (extractServiceName resource) as [service|e] eqn:Hservice;
    [|apply decoder_effect_lift_throw; exact Hok].
  change (decoder_effect converted cap w
            (scopes ← lift (JS.get resourceSpan "scopeSpans");
             if negb (truthy scopes) then log Warn "No scopeSpans found in resourceSpan"
             else items ← lift (iterate scopes);
                  for_each (process_scopeSpan service) items)).
  destruct (JS.get resourceSpan "scopeSpans") as [scopes|e];
    [|apply decoder_effect_lift_throw; exact Hok].
  change (decoder_effect converted cap w
            (if negb (truthy scopes) then log Warn "No scopeSpans found in resourceSpan"
             else items ← lift (iterate scopes);
                  for_each (process_scopeSpan service) items)).
  destruct (negb (truthy scopes)); [apply decoder_effect_warn; exact Hok|].
  destruct (iterate scopes) as [items|e]; [|apply decoder_effect_lift_throw; exact Hok].
  change (decoder_effect converted cap w (for_each (process_scopeSpan service) items)).
  apply for_each_decoder_effect; [|exact Hok].
  intros scope w' Hok'.
  apply (decoder_effect_weaken (fun t => exists raw, convertSpan raw service = Return t)).
  { intros t [raw Hraw]. exists raw, resource, service. split; assumption. }
  apply process_scopeSpan_decoder_effect; assumption.
Qed.

(** The body of the [try] of [processTraces], after its first log line. *)
Lemma processTraces_body_decoder_effect (cap : nat) (data : value) (w : world) :
  (0 < cap)%nat -> store_ok cap w ->
  decoder_effect converted cap w
    (if negb (truthy data) then log Warn "No resourceSpans found in traces data"
     else
       rs ← lift (JS.get data "resourceSpans");
       if negb (truthy rs) then log Warn "No resourceSpans found in traces data"
       else items ← lift (iterate rs); for_each process_resourceSpan items).
Proof.
  intros Hcap Hok.
  destruct (negb (truthy data)); [apply decoder_effect_warn; exact Hok|].
  destruct (JS.get data "resourceSpans") as [rs|e];
    [|apply decoder_effect_lift_throw; exact Hok].
  change (decoder_effect converted cap w
            (if negb (truthy rs) then log Warn "No resourceSpans found in traces data"
             else items ← lift (iterate rs); for_each process_resourceSpan items)).
  destruct (negb (truthy rs)); [apply decoder_effect_warn; exact Hok|].
  destruct (iterate rs) as [items|e]; [|apply decoder_effect_lift_throw; exact Hok].
  change (decoder_effect converted cap w (for_each process_resourceSpan items)).
  apply for_each_decoder_effect; [|exact Hok].
  intros g w' Hok'. apply process_resourceSpan_decoder_effect; assumption.
Qed.
End DecoderEffects.


Section DecoderFunctions.
Context `{Host}.
#[local] Open Scope string_scope.
#[local] Open Scope Z_scope.

Lemma bind_Return_inv {A B} (m : outcome A) (k : A -> outcome B) (b : B) :
  (m ≫= k) = Return b -> exists a, m = Return a /\ k a = Return b.
Proof. destruct m as [a|e]; [|discriminate]. intros Hk. exists a. split; [reflexivity|exact Hk]. Qed.

Lemma get_truthy (v : value) (k : string) :
  truthy v = true -> JS.get v k = Return (get_opt v k).
Proof. destruct v; try discriminate; intros _; reflexivity. Qed.

(** A number that is [=== 2] is neither [=== 0] nor [=== 1]. *)
Lemma eqb_two_exclusive (n : number) :
  Num.eqb n (Num.of_Z 2) = true ->
  Num.eqb n (Num.of_Z 0) = false /\ Num.eqb n (Num.of_Z 1) = false.
Proof.
  destruct n as [b|b| |s m e]; try (destruct b); try discriminate.
  unfold Num.eqb, SFeqb.
  change (Num.of_Z 2) with (S754_finite false 4503599627370496 (-51)).
  change (Num.of_Z 1) with (S754_finite false 4503599627370496 (-52)).
  change (Num.of_Z 0) with (S754_zero false).
  destruct s; cbn [SFcompare]; [discriminate|].
  destruct (Z.compare_spec e (-51)) as [->| |]; try discriminate.
  intros _. split; reflexivity.
Qed.

Lemma extractStatus_cases (st : value) :
  exists s : string,
    extractStatus st = Return s /\
    (s = "UNSET" \/ s = "OK" \/ s = "ERROR" \/ s = "UNKNOWN") /\
    (truthy st = false -> s = "OK") /\
    (s = "ERROR" <->
       truthy st = true /\ strict_eq_num (get_opt st "code") (Num.of_Z 2) = true).
Proof.
  unfold extractStatus. destruct (truthy st) eqn:Ht; cbn [negb].
  - rewrite (get_truthy st "code" Ht).
    change (Return (get_opt st "code") ≫= ?k) with (k (get_opt st "code")). cbv beta.
    destruct (strict_eq_num (get_opt st "code") (Num.of_Z 2)) eqn:E2.
    + assert (Hex : strict_eq_num (get_opt st "code") (Num.of_Z 0) = false /\
                    strict_eq_num (get_opt st "code") (Num.of_Z 1) = false).
      { destruct (get_opt st "code"); try discriminate E2. cbn in *.
        apply eqb_two_exclusive. exact E2. }
      destruct Hex as [-> ->]. exists "ERROR". split; [reflexivity|].
      split; [tauto|]. split; [discriminate|]. tauto.
    + destruct (strict_eq_num (get_opt st "code") (Num.of_Z 0));
        [|destruct (strict_eq_num (get_opt st "code") (Num.of_Z 1))];
        eexists; (split; [reflexivity|]);
        (split; [tauto|]); (split; [discriminate|]);
        (split; [discriminate|intros [_ Hf]; discriminate Hf]).
  - exists "OK". split; [reflexivity|]. split; [tauto|]. split; [reflexivity|].
    split; [discriminate|intros [Hf _]; discriminate Hf].
Qed.

Lemma extractStatus_texts (st : value) (s : string) :
  extractStatus st = Return s ->
  (s = "UNSET" \/ s = "OK" \/ s = "ERROR" \/ s = "UNKNOWN") /\
  (s = "ERROR" <->
     truthy st = true /\ strict_eq_num (get_opt st "code") (Num.of_Z 2) = true).
Proof.
  intros Hs. destruct (extractStatus_cases st) as [s' [Hs' [Hfour [_ Herr]]]].
  rewrite Hs in Hs'. injection Hs' as <-. split; assumption.
Qed.

(** X12. [extractStatus] never throws and returns one of four texts;
    a missing or falsy status reads as ["OK"]; the text is ["ERROR"]
    exactly for a truthy status whose [code] is strictly equal to the
    number 2, so a code given as the string ["2"] reads as ["UNKNOWN"]. *)
Theorem X12_extractStatus_total (st : value) :
  exists s : string,
    extractStatus st = Return s /\
    (s = "UNSET" \/ s = "OK" \/ s = "ERROR" \/ s = "UNKNOWN") /\
    (truthy st = false -> s = "OK") /\
    (s = "ERROR" <->
       truthy st = true /\ strict_eq_num (get_opt st "code") (Num.of_Z 2) = true) /\
    extractStatus (VObj [("code", VStr "2")]) = Return "UNKNOWN".
Proof.
  destruct (extractStatus_cases st) as [s [Hs [Hfour [Hfalsy Herr]]]].
  exists s. split; [exact Hs|]. split; [exact Hfour|]. split; [exact Hfalsy|].
  split; [exact Herr|reflexivity].
Qed.


(** X13. What every converted span satisfies: it carries the service name
    it was converted for; its operation name is truthy (the default
    replaces any falsy name); its status is one of the four texts, and
    [getStats] counts it as an error exactly when the raw status code is
    the number 2; its duration is the difference of its end and start
    times; and its start time is a valid time value, whose ISO text is the
    timestamp. *)
Theorem X13_converted_span_invariants (raw service : value) (t : TelemetrySpan) :
  convertSpan raw service = Return t ->
  serviceName t = service /\
  truthy (operationName t) = true /\
  (status t = "UNSET" \/ status t = "OK" \/ status t = "ERROR" \/ status t = "UNKNOWN") /\
  (is_error t = true <->
     truthy (get_opt raw "status") = true /\
     strict_eq_num (get_opt (get_opt raw "status") "code") (Num.of_Z 2) = true) /\
  duration t = Num.sub (endTime t) (startTime t) /\
  nanosToMillis (get_opt raw "startTimeUnixNano") = Return (startTime t) /\
  nanosToMillis (get_opt raw "endTimeUnixNano") = Return (endTime t) /\
  exists ms : Z,
    TimeClip (startTime t) = Some ms /\ Z.abs ms <= 8640000000000000 /\
    timestamp t = host_ISO_format ms.
Proof.
  intros Hconv. unfold convertSpan in Hconv.
  apply bind_Return_inv in Hconv as [start [Hstart Hconv]].
  apply bind_Return_inv in Hconv as [startTimeMs [HstartMs Hconv]].
  apply bind_Return_inv in Hconv as [stop [Hstop Hconv]].
  apply bind_Return_inv in Hconv as [endTimeMs [HendMs Hconv]].
  apply bind_Return_inv in Hconv as [tid [_ Hconv]].
  apply bind_Return_inv in Hconv as [trace [_ Hconv]].
  apply bind_Return_inv in Hconv as [sid [_ Hconv]].
  apply bind_Return_inv in Hconv as [spanid [_ Hconv]].
  apply bind_Return_inv in Hconv as [pid [_ Hconv]].
  apply bind_Return_inv in Hconv as [parent [_ Hconv]].
  apply bind_Return_inv in Hconv as [name [_ Hconv]].
  apply bind_Return_inv in Hconv as [st [Hst Hconv]].
  apply bind_Return_inv in Hconv as [status_text [Hstatus Hconv]].
  apply bind_Return_inv in Hconv as [attrs [_ Hconv]].
  apply bind_Return_inv in Hconv as [attributes_map [_ Hconv]].
  apply bind_Return_inv in Hconv as [evs [_ Hconv]].
  apply bind_Return_inv in Hconv as [events_list [_ Hconv]].
  apply bind_Return_inv in Hconv as [iso [Hiso Hconv]].
  injection Hconv as <-. cbn [serviceName operationName status duration endTime startTime
                               timestamp].
  assert (Hget : forall k x, JS.get raw k = Return x -> x = get_opt raw k).
  { intros k x Hx. unfold get_opt. rewrite Hx. reflexivity. }
  apply Hget in Hstart, Hstop, Hst. subst start stop st.
  destruct (extractStatus_texts _ _ Hstatus) as [Hfour Herr].
  split; [reflexivity|].
  split; [destruct (truthy name) eqn:Hname; [exact Hname|reflexivity]|].
  split; [exact Hfour|].
  split.
  { rewrite <- Herr. unfold is_error. cbn [status].
    destruct Hfour as [E|[E|[E|E]]]; rewrite E; cbn; split; congruence. }
  split; [reflexivity|]. split; [exact HstartMs|]. split; [exact HendMs|].
  unfold Date_toISOString in Hiso.
  destruct (TimeClip startTimeMs) as [ms|] eqn:Hclip; [|discriminate Hiso].
  injection Hiso as <-. exists ms. split; [reflexivity|]. split; [|reflexivity].
  unfold TimeClip in Hclip. destruct (Num.trunc_Z startTimeMs) as [z|]; [|discriminate].
  destruct (Z.leb_spec (Z.abs z) 8640000000000000); [|discriminate].
  injection Hclip as <-. assumption.
Qed.

(** *** The service name *)

Lemma scan_service_name_truthy (attrs : list value) (v : value) :
  scan_service_name attrs = Return v -> truthy v = true.
Proof.
  induction attrs as [|attr rest IH]; cbn [scan_service_name].
  - intros Hv. injection Hv as <-. reflexivity.
  - intros Hv. apply bind_Return_inv in Hv as [k [_ Hv]].
    destruct (strict_eq_str k "service.name"); [|apply IH; exact Hv].
    apply bind_Return_inv in Hv as [x [_ Hv]]. injection Hv as <-.
    destruct (truthy (get_opt x "stringValue")) eqn:Hsv; [exact Hsv|reflexivity].
Qed.

(** X14. Whatever the resource is, a service name that
    [extractServiceName] returns is truthy: an empty, missing or otherwise
    falsy [stringValue] is replaced by the default.  A resource that is
    falsy or has falsy attributes gives the default, and truthy attributes
    that cannot be iterated make it throw. *)
Theorem X14_serviceName_is_truthy (resource : value) :
  (forall v, extractServiceName resource = Return v -> truthy v = true) /\
  (truthy resource = false \/ truthy (get_opt resource "attributes") = false ->
   extractServiceName resource = Return (VStr "unknown-service")) /\
  (truthy resource = true ->
   truthy (get_opt resource "attributes") = true ->
   returns (iterate (get_opt resource "attributes")) = false ->
   returns (extractServiceName resource) = false).
Proof.
  unfold extractServiceName. destruct (truthy resource) eqn:Hres; cbn [negb].
  - rewrite (get_truthy resource "attributes" Hres).
    change (Return (get_opt resource "attributes") ≫= ?k)
      with (k (get_opt resource "attributes")). cbv beta.
    destruct (truthy (get_opt resource "attributes")) eqn:Hattrs; cbn [negb].
    + split; [|split].
      * intros v Hv. apply bind_Return_inv in Hv as [items [_ Hv]].
        apply (scan_service_name_truthy items v Hv).
      * intros [Hf|Hf]; discriminate Hf.
      * intros _ _ Hiter. destruct (iterate (get_opt resource "attributes"));
          [discriminate Hiter|reflexivity].
    + split; [|split].
      * intros v Hv. injection Hv as <-. reflexivity.
      * reflexivity.
      * intros _ Hf. discriminate Hf.
  - split; [|split].
    + intros v Hv. injection Hv as <-. reflexivity.
    + reflexivity.
    + intros Hf. discriminate Hf.
Qed.

Lemma converted_names (t : TelemetrySpan) :
  converted t ->
  truthy (serviceName t) = true /\ truthy (operationName t) = true /\
  (status t = "UNSET" \/ status t = "OK" \/ status t = "ERROR" \/ status t = "UNKNOWN").
Proof.
  intros [raw [resource [service [Hservice Hconv]]]].
  unfold extractServiceName in Hservice.
  assert (Htruthy : truthy service = true).
  { destruct (negb (truthy resource)); [injection Hservice as <-; reflexivity|].
    apply bind_Return_inv in Hservice as [attrs [_ Hservice]].
    destruct (negb (truthy attrs)); [injection Hservice as <-; reflexivity|].
    apply bind_Return_inv in Hservice as [items [_ Hservice]].
    apply (scan_service_name_truthy items service Hservice). }
  unfold convertSpan in Hconv.
  repeat (apply bind_Return_inv in Hconv as [? [? Hconv]]).
  injection Hconv as <-. cbn [serviceName operationName status].
  split; [exact Htruthy|].
  split; [match goal with |- truthy (if truthy ?n then _ else _) = true =>
            destruct (truthy n) eqn:Hn; [exact Hn|reflexivity] end|].
  match goal with Hs : extractStatus _ = Return _ |- _ =>
    apply (extractStatus_texts _ _ Hs) end.
Qed.

(** *** Identifiers *)

Lemma hex_byte_round_trip (b : byte) (r : string) :
  bytes_of_hex (hex_byte b ++ r) =
    match bytes_of_hex r with Some rest => Some (b :: rest) | None => None end.
Proof.
  destruct b;
    match goal with |- context [hex_byte ?b] =>
      let s := eval vm_compute in (hex_byte b) in change (hex_byte b) with s end;
    cbv [String.append]; cbn [bytes_of_hex]; generalize (bytes_of_hex r); intros [rest|]; reflexivity.
Qed.

Lemma hex_byte_length (b : byte) (r : string) :
  String.length (hex_byte b ++ r) = S (S (String.length r)).
Proof.
  destruct b;
    match goal with |- context [hex_byte ?b] =>
      let s := eval vm_compute in (hex_byte b) in change (hex_byte b) with s end;
    cbv [String.append]; reflexivity.
Qed.

Lemma hex_bytes_cons (b : byte) (l : list byte) :
  hex_bytes (b :: l) = hex_byte b ++ hex_bytes l.
Proof.
  unfold hex_bytes. cbn [List.map]. destruct l as [|c l]; cbn [List.map String.concat].
  - destruct b; reflexivity.
  - reflexivity.
Qed.

Lemma hex_bytes_round_trip (l : list byte) :
  bytes_of_hex (hex_bytes l) = Some l /\
  String.length (hex_bytes l) = (2 * List.length l)%nat.
Proof.
  induction l as [|b l [IH1 IH2]]; [split; reflexivity|].
  rewrite hex_bytes_cons, hex_byte_round_trip, IH1. split; [reflexivity|].
  rewrite hex_byte_length, IH2. cbn [List.length]. lia.
Qed.

(** X15. A sequence of bytes is rendered with two lowercase hex digits
    per byte, and the bytes can be read back from the text: distinct
    identifiers get distinct texts. *)
Theorem X15_bytesToHex_round_trip (l : list byte) :
  Z.of_nat (List.length l) < 2 ^ 32 ->
  exists s : string,
    bytesToHex (bytes_value l) = Return s /\
    String.length s = (2 * List.length l)%nat /\
    bytes_of_hex s = Some l.
Proof.
  intros Hlen. exists (hex_bytes l). split; [apply bytesToHex_bytes; exact Hlen|].
  destruct (hex_bytes_round_trip l) as [Hback Hsize]. split; assumption.
Qed.

(** *** Attributes *)

Lemma set_prop_inv (result result' : object) (k v : value) :
  set_prop result k v = Return result' ->
  exists name, ToString k = Return name /\
    ((proto result' = proto result /\ own result' = <[name := v]> (own result) /\
      (name = "__proto__" ->
         is_Some (own result !! "__proto__") \/ proto result <> ObjectPrototype)) \/
     (name = "__proto__" /\ own result' = own result)).
Proof.
  unfold set_prop. intros Hs. apply bind_Return_inv in Hs as [name [Hname Hs]].
  injection Hs as <-. exists name. split; [exact Hname|].
  destruct (String.eqb_spec name "__proto__") as [->|Hne]; cbn [andb].
  - destruct (bool_decide (is_Some (own result !! "__proto__"))) eqn:Hown; cbn [negb andb].
    + left. split; [reflexivity|]. split; [reflexivity|].
      intros _. left. apply bool_decide_eq_true in Hown. exact Hown.
    + destruct (reaches_proto_setter (proto result)) eqn:Hreach.
      * right. split; [reflexivity|]. destruct v; reflexivity.
      * left. split; [reflexivity|]. split; [reflexivity|].
        intros _. right. intros Hp. rewrite Hp in Hreach. discriminate Hreach.
  - left. split; [reflexivity|]. split; [reflexivity|]. intros Heq. contradiction.
Qed.

Lemma extract_attribute_inv (result result' : object) (attr : value) :
  extract_attribute result attr = Return result' ->
  result' = result \/
  exists name, kept_entry attr name /\
    ((exists v, proto result' = proto result /\ own result' = <[name := v]> (own result) /\
        (name = "__proto__" ->
           is_Some (own result !! "__proto__") \/ proto result <> ObjectPrototype)) \/
     (name = "__proto__" /\ own result' = own result)).
Proof.
  unfold extract_attribute. intros He.
  apply bind_Return_inv in He as [k [Hk He]].
  assert (k = get_opt attr "key") as -> by (unfold get_opt; rewrite Hk; reflexivity).
  destruct (truthy (get_opt attr "key")) eqn:Hkey; cbn [negb] in He;
    [|left; injection He as <-; reflexivity].
  apply bind_Return_inv in He as [v [Hv He]].
  assert (v = get_opt attr "value") as -> by (unfold get_opt; rewrite Hv; reflexivity).
  destruct (truthy (get_opt attr "value")) eqn:Hval; cbn [negb] in He;
    [|left; injection He as <-; reflexivity].
  right.
  assert (Hset : forall x, set_prop result (get_opt attr "key") x = Return result' ->
            exists name, kept_entry attr name /\
              ((exists v, proto result' = proto result /\
                  own result' = <[name := v]> (own result) /\
                  (name = "__proto__" ->
                     is_Some (own result !! "__proto__") \/ proto result <> ObjectPrototype)) \/
               (name = "__proto__" /\ own result' = own result))).
  { intros x Hx. apply set_prop_inv in Hx as [name [Hname Hcases]].
    exists name. split; [split; [exact Hkey|split; [exact Hval|exact Hname]]|].
    destruct Hcases as [Hwrite|Hsetter]; [left; exists x; exact Hwrite|right; exact Hsetter]. }
  apply bind_Return_inv in He as [sv [_ He]].
  destruct (negb (is_undefined sv)); [apply (Hset _ He)|].
  apply bind_Return_inv in He as [iv [_ He]].
  destruct (negb (is_undefined iv)).
  { apply bind_Return_inv in He as [n [_ He]]. apply (Hset _ He). }
  apply bind_Return_inv in He as [dv [_ He]].
  destruct (negb (is_undefined dv)); [apply (Hset _ He)|].
  apply bind_Return_inv in He as [bv [_ He]].
  destruct (negb (is_undefined bv)); apply (Hset _ He).
Qed.

Lemma two_entries_app {A} (l1 l2 l3 rest : list A) (e1 e2 : A) :
  ((l1 ++ e1 :: l2 ++ e2 :: l3) ++ rest = l1 ++ e1 :: l2 ++ e2 :: (l3 ++ rest))%list.
Proof. rewrite <- app_assoc. cbn [app]. rewrite <- app_assoc. reflexivity. Qed.

(** What the loop keeps, [pre] being the entries already visited: an own
    property comes from a kept entry of that name; the prototype is
    replaced only by a kept entry named [__proto__]; and an own property
    [__proto__] takes two such entries, one to put the accessor out of
    reach and a later one to write the property. *)
Lemma fold_extract_attribute_keys (l : list value) :
  forall (pre : list value) (acc result : object),
    (forall name, is_Some (own acc !! name) ->
       exists entry, entry ∈ pre /\ kept_entry entry name) ->
    (proto acc <> ObjectPrototype ->
       exists entry, entry ∈ pre /\ kept_entry entry "__proto__") ->
    (is_Some (own acc !! "__proto__") ->
       exists l1 e1 l2 e2 l3,
         pre = (l1 ++ e1 :: l2 ++ e2 :: l3)%list /\
         kept_entry e1 "__proto__" /\ kept_entry e2 "__proto__") ->
    fold_outcome extract_attribute acc l = Return result ->
    (forall name, is_Some (own result !! name) ->
       exists entry, entry ∈ (pre ++ l)%list /\ kept_entry entry name) /\
    (is_Some (own result !! "__proto__") ->
       exists l1 e1 l2 e2 l3,
         (pre ++ l)%list = (l1 ++ e1 :: l2 ++ e2 :: l3)%list /\
         kept_entry e1 "__proto__" /\ kept_entry e2 "__proto__").
Proof.
  induction l as [|entry l IH]; intros pre acc result Hown Hproto Htwo Hfold.
  - injection Hfold as <-. rewrite app_nil_r. split; assumption.
  - cbn [fold_outcome] in Hfold. apply bind_Return_inv in Hfold as [acc' [Hstep Hfold]].
    replace (pre ++ entry :: l)%list with ((pre ++ [entry]) ++ l)%list
      by (rewrite <- app_assoc; reflexivity).
    assert (Hown_old : forall name, is_Some (own acc !! name) ->
              exists e, e ∈ (pre ++ [entry])%list /\ kept_entry e name).
    { intros name Hname. destruct (Hown name Hname) as [e [He Hk]].
      exists e. split; [apply elem_of_app; left; exact He|exact Hk]. }
    assert (Hproto_old : proto acc <> ObjectPrototype ->
              exists e, e ∈ (pre ++ [entry])%list /\ kept_entry e "__proto__").
    { intros Hp. destruct (Hproto Hp) as [e [He Hk]].
      exists e. split; [apply elem_of_app; left; exact He|exact Hk]. }
    assert (Htwo_old : is_Some (own acc !! "__proto__") ->
              exists l1 e1 l2 e2 l3,
                (pre ++ [entry])%list = (l1 ++ e1 :: l2 ++ e2 :: l3)%list /\
                kept_entry e1 "__proto__" /\ kept_entry e2 "__proto__").
    { intros Hp. destruct (Htwo Hp) as [l1 [e1 [l2 [e2 [l3 [-> Hk]]]]]].
      exists l1, e1, l2, e2, (l3 ++ [entry])%list.
      split; [apply two_entries_app|exact Hk]. }
    assert (Hhere : entry ∈ (pre ++ [entry])%list)
      by (apply elem_of_app; right; apply list_elem_of_singleton; reflexivity).
    apply extract_attribute_inv in Hstep as [->|[name [Hkept [[v [Hp [Ho Hside]]]|[-> Ho]]]]].
    + apply (IH (pre ++ [entry])%list acc result); assumption.
    + apply (IH (pre ++ [entry])%list acc' result); try exact Hfold.
      * intros n Hn. rewrite Ho in Hn.
        destruct (String.eqb_spec name n) as [<-|Hdiff]; [exists entry; split; assumption|].
        rewrite lookup_insert_ne in Hn by exact Hdiff. apply Hown_old. exact Hn.
      * rewrite Hp. exact Hproto_old.
      * intros Hn. rewrite Ho in Hn.
        destruct (String.eqb_spec name "__proto__") as [->|Hdiff].
        -- assert (Hearlier : exists e, e ∈ pre /\ kept_entry e "__proto__").
           { destruct (Hside eq_refl) as [Hhas|Hchanged];
               [apply Hown; exact Hhas|apply Hproto; exact Hchanged]. }
           destruct Hearlier as [e1 [He1 Hk1]].
           apply list_elem_of_split in He1 as [l1 [l2 ->]].
           exists l1, e1, l2, entry, []. split; [|split; assumption].
           rewrite <- app_assoc. reflexivity.
        -- rewrite lookup_insert_ne in Hn by exact Hdiff. apply Htwo_old. exact Hn.
    + apply (IH (pre ++ [entry])%list acc' result); try exact Hfold.
      * intros n Hn. rewrite Ho in Hn. apply Hown_old. exact Hn.
      * intros _. exists entry. split; assumption.
      * intros Hn. rewrite Ho in Hn. apply Htwo_old. exact Hn.
Qed.

(** X16. Whatever the list of attributes is, each key of the mapping that
    [extractAttributes] returns is the text of the key of an entry of the
    list with a truthy key and a truthy value: entries without them add
    nothing.  The key ["__proto__"] is not always dropped: the mapping has
    it only when two kept entries of the list are named so, as when the
    first sets the prototype to [null] and the second then writes an own
    property. *)
Theorem X16_extractAttributes_keys (attributes : value) (m : gmap string value) :
  (extractAttributes attributes = Return m ->
   (truthy attributes = false -> m = ∅) /\
   (forall name : string, is_Some (m !! name) ->
      exists (items : list value) (entry : value),
        iterate attributes = Return items /\ entry ∈ items /\ kept_entry entry name) /\
   (is_Some (m !! "__proto__") ->
      exists (l1 : list value) (e1 : value) (l2 : list value) (e2 : value) (l3 : list value),
        iterate attributes = Return (l1 ++ e1 :: l2 ++ e2 :: l3)%list /\
        kept_entry e1 "__proto__" /\ kept_entry e2 "__proto__")) /\
  extractAttributes
    (VArr [attribute "__proto__" (VObj [("stringValue", VNull)]);
           string_attribute "__proto__" "x"])
    = Return {[ "__proto__" := VStr "x" ]} /\
  extractAttributes
    (VArr [attribute "__proto__" (VObj [("stringValue", VObj [("__proto__", VNull)])]);
           string_attribute "__proto__" "x"])
    = Return {[ "__proto__" := VStr "x" ]} /\
  extractAttributes
    (VArr [attribute "__proto__" (VObj [("stringValue", VObj [("a", VNull)])]);
           string_attribute "__proto__" "x"])
    = Return ∅.
Proof.
  split; [|split; [reflexivity|split; reflexivity]].
  unfold extractAttributes. intros Hm.
  destruct (truthy attributes) eqn:Hattrs; cbn [negb] in Hm.
  - apply bind_Return_inv in Hm as [items [Hitems Hm]].
    apply bind_Return_inv in Hm as [result [Hfold Hm]]. injection Hm as <-.
    destruct (fold_extract_attribute_keys items [] object_literal result) as [Hkeys Htwo];
      try exact Hfold.
    + intros name [x Hx]. cbn [own object_literal] in Hx.
      rewrite lookup_empty in Hx. discriminate Hx.
    + intros Hp. exfalso. apply Hp. reflexivity.
    + intros [x Hx]. cbn [own object_literal] in Hx.
      rewrite lookup_empty in Hx. discriminate Hx.
    + cbn [app] in Hkeys, Htwo. split; [discriminate|]. split.
      * intros name Hname. destruct (Hkeys name Hname) as [entry [Hin Hk]].
        exists items, entry. split; [exact Hitems|]. split; assumption.
      * intros Hname. destruct (Htwo Hname) as [l1 [e1 [l2 [e2 [l3 [Heq Hk]]]]]].
        exists l1, e1, l2, e2, l3. rewrite Hitems, Heq. split; [reflexivity|exact Hk].
  - injection Hm as <-. split; [reflexivity|]. split.
    + intros name [x Hx]. rewrite lookup_empty in Hx. discriminate Hx.
    + intros [x Hx]. rewrite lookup_empty in Hx. discriminate Hx.
Qed.

(** *** Events *)

Lemma map_outcome_inv {A B} (f : A -> outcome B) (l : list A) :
  forall l' : list B,
    map_outcome f l = Return l' -> Forall2 (fun x y => f x = Return y) l l'.
Proof.
  induction l as [|x r IH]; intros l' Hl'.
  - injection Hl' as <-. constructor.
  - cbn [map_outcome] in Hl'. apply bind_Return_inv in Hl' as [y [Hy Hl']].
    apply bind_Return_inv in Hl' as [ys [Hys Hl']]. injection Hl' as <-.
    constructor; [exact Hy|apply IH; exact Hys].
Qed.

(** X17. [extractEvents] returns no events for a falsy value, throws for
    a truthy value that is not an array, and otherwise returns one event
    per element, in order, each with a truthy name (the default replaces a
    falsy one) and the time of the element in milliseconds. *)
Theorem X17_extractEvents_one_per_element (evs : value) (l : list SpanEvent) :
  extractEvents evs = Return l ->
  (truthy evs = false /\ l = []) \/
  (exists raw : list value,
      evs = VArr raw /\ List.length l = List.length raw /\
      Forall2 (fun x ev =>
                 truthy (ev_name ev) = true /\
                 nanosToMillis (get_opt x "timeUnixNano") = Return (ev_timestamp ev) /\
                 extractAttributes (get_opt x "attributes") = Return (ev_attributes ev))
              raw l).
Proof.
  unfold extractEvents. intros Hl.
  destruct (truthy evs) eqn:Hevs; cbn [negb] in Hl;
    [|left; injection Hl as <-; split; reflexivity].
  right. destruct evs as [| | | | |raw|]; try discriminate Hl.
  exists raw. split; [reflexivity|].
  apply map_outcome_inv in Hl.
  split; [symmetry; apply (Forall2_length _ _ _ Hl)|].
  eapply Forall2_impl; [exact Hl|]. intros x ev Hev. cbv beta in Hev.
  unfold convertEvent in Hev.
  apply bind_Return_inv in Hev as [name [Hname Hev]].
  apply bind_Return_inv in Hev as [t [Ht Hev]].
  apply bind_Return_inv in Hev as [ts [Hts Hev]].
  apply bind_Return_inv in Hev as [attrs [Hattrs Hev]].
  apply bind_Return_inv in Hev as [a [Ha Hev]].
  injection Hev as <-. cbn [ev_name ev_timestamp ev_attributes].
  assert (Hget : forall k y, JS.get x k = Return y -> y = get_opt x k).
  { intros k y Hy. unfold get_opt. rewrite Hy. reflexivity. }
  apply Hget in Ht, Hattrs. subst t attrs.
  split; [destruct (truthy name) eqn:Hn; [exact Hn|reflexivity]|].
  split; assumption.
Qed.
End DecoderFunctions.

Section DecoderRuns.
Context `{Host}.
#[local] Open Scope string_scope.
#[local] Open Scope Z_scope.

Lemma process_scopeSpan_scope_value (service : value) (raw : list value) :
  process_scopeSpan service (scope_value raw) = for_each (process_span service) raw.
Proof. reflexivity. Qed.

Lemma process_resourceSpan_group_value (g : value * list (list value)) :
  process_resourceSpan (group_value g) =
    (service ← lift (extractServiceName (fst g));
     for_each (process_scopeSpan service) (List.map scope_value (snd g))).
Proof. reflexivity. Qed.

Lemma for_each_scopes_ok (cap : nat) (service : value) (scopes : list (list value))
    (tss : list (list TelemetrySpan)) :
  (0 < cap)%nat ->
  Forall2 (Forall2 (fun raw t => convertSpan raw service = Return t)) scopes tss ->
  forall w, store_ok cap w ->
    effect cap w (for_each (process_scopeSpan service) (List.map scope_value scopes))
      (Return tt) (concat tss)
      (List.map (fun _ => (Info, "Processed span")) (concat tss)).
Proof.
  intros Hcap Hall. induction Hall as [|raw ts scopes tss Hraw Hrest IH]; intros w Hok.
  - apply effect_ret. exact Hok.
  - cbn [List.map for_each concat]. rewrite map_app, process_scopeSpan_scope_value.
    pose proof (for_each_spans_ok cap service raw ts Hcap Hraw w Hok) as Hstep.
    apply effect_seq; [exact Hstep|].
    intros w' Hw'. apply IH. exact (effect_ok _ _ _ _ _ _ _ Hstep Hw').
Qed.

Lemma for_each_groups_ok (cap : nat) (groups : list (value * list (list value)))
    (decoded : list (list (list TelemetrySpan))) :
  (0 < cap)%nat ->
  Forall2 group_decodes groups decoded ->
  forall w, store_ok cap w ->
    effect cap w (for_each process_resourceSpan (List.map group_value groups))
      (Return tt) (concat (concat decoded))
      (List.map (fun _ => (Info, "Processed span")) (concat (concat decoded))).
Proof.
  intros Hcap Hall. induction Hall as [|g tss groups decoded Hg Hrest IH]; intros w Hok.
  - apply effect_ret. exact Hok.
  - cbn [List.map for_each concat]. rewrite concat_app, map_app.
    destruct Hg as [service [Hservice Hscopes]].
    assert (Hstep : effect cap w (process_resourceSpan (group_value g)) (Return tt)
                      (concat tss)
                      (List.map (fun _ => (Info, "Processed span")) (concat tss))).
    { rewrite process_resourceSpan_group_value, Hservice.
      apply (for_each_scopes_ok cap service (snd g) tss Hcap Hscopes w Hok). }
    apply effect_seq; [exact Hstep|].
    intros w' Hw'. apply IH. exact (effect_ok _ _ _ _ _ _ _ Hstep Hw').
Qed.

Lemma processTraces_run (data : value) (w : world) :
  processTraces data w =
    let w0 := {| heap := heap w; storage := storage w;
                 logged := (logged w ++ [(Info, "Processing OTLP traces data")])%list |} in
    match (if negb (truthy data) then log Warn "No resourceSpans found in traces data"
           else
             rs ← lift (JS.get data "resourceSpans");
             if negb (truthy rs) then log Warn "No resourceSpans found in traces data"
             else items ← lift (iterate rs); for_each process_resourceSpan items) w0 with
    | (Return a, w') => (Return a, w')
    | (Throw e, w') =>
        (Throw e,
         {| heap := heap w'; storage := storage w';
            logged := (logged w' ++ [(Error, "Error processing traces:")])%list |})
    end.
Proof. reflexivity. Qed.

Lemma store_ok_logged (cap : nat) (w : world) (l : list (level * string)) :
  store_ok cap w ->
  store_ok cap {| heap := heap w; storage := storage w; logged := l |}.
Proof. intros Hok. exact Hok. Qed.

(** X9. A payload all of whose raw spans are convertible is stored whole:
    [processTraces] returns, and the spans are appended in the order of the
    document (resource groups, then scope groups, then spans), each with
    the service name of its resource group and one log line; the store
    then holds the last [maxSpans] of what it held and these. *)
Theorem X9_processTraces_stores_in_document_order (cap : nat)
    (groups : list (value * list (list value)))
    (decoded : list (list (list TelemetrySpan))) (w : world) :
  (0 < cap)%nat -> store_ok cap w ->
  Forall2 group_decodes groups decoded ->
  let w' := exec (processTraces (payload_value groups)) w in
  result (processTraces (payload_value groups)) w = Return tt /\
  contents w' = last_n cap (contents w ++ concat (concat decoded)) /\
  logged w' =
    (logged w ++ (Info, "Processing OTLP traces data")
       :: List.map (fun _ => (Info, "Processed span")) (concat (concat decoded)))%list.
Proof.
  intros Hcap Hok Hall. cbv zeta. unfold result, exec. rewrite processTraces_run. cbv zeta.
  set (w0 := {| heap := heap w; storage := storage w;
                logged := (logged w ++ [(Info, "Processing OTLP traces data")])%list |}).
  destruct (for_each_groups_ok cap groups decoded Hcap Hall w0
              (store_ok_logged cap w _ Hok)) as [w1 [Hrun [Hok1 [Hc Hl]]]].
  change ((if negb (truthy (payload_value groups)) then _ else _) w0)
    with (for_each process_resourceSpan (List.map group_value groups) w0).
  rewrite Hrun. cbn [fst snd]. split; [reflexivity|]. split; [exact Hc|].
  rewrite Hl. unfold w0. cbn [logged]. rewrite <- app_assoc. reflexivity.
Qed.

Lemma processTraces_effect (cap : nat) (data : value) (w : world) :
  (0 < cap)%nat -> store_ok cap w ->
  exists (o : outcome unit) (added : list TelemetrySpan) (msgs : list (level * string))
         (w' : world),
    processTraces data w = (o, w') /\
    store_ok cap w' /\
    contents w' = last_n cap (contents w ++ added) /\
    tidy converted added msgs /\
    logged w' =
      (logged w ++ (Info, "Processing OTLP traces data") :: msgs ++
         match o with
         | Return _ => []
         | Throw _ => [(Error, "Error processing traces:")]
         end)%list.
Proof.
  intros Hcap Hok.
  set (w0 := {| heap := heap w; storage := storage w;
                logged := (logged w ++ [(Info, "Processing OTLP traces data")])%list |}).
  destruct (processTraces_body_decoder_effect cap data w0 Hcap (store_ok_logged cap w _ Hok))
    as [o [added [msgs [[w1 [Hrun [Hok1 [Hc Hl]]]] Htidy]]]].
  rewrite processTraces_run. cbv zeta. fold w0. rewrite Hrun.
  destruct o as [[]|e].
  - exists (Return tt), added, msgs, w1.
    split; [reflexivity|]. split; [exact Hok1|]. split; [exact Hc|]. split; [exact Htidy|].
    rewrite Hl, app_nil_r. unfold w0. cbn [logged]. rewrite <- app_assoc. reflexivity.
  - eexists (Throw e), added, msgs, _.
    split; [reflexivity|]. split; [exact Hok1|]. split; [exact Hc|]. split; [exact Htidy|].
    cbn [logged]. rewrite Hl. unfold w0. cbn [logged]. rewrite <- !app_assoc. reflexivity.
Qed.

(** X10. Whatever the payload is, [processTraces] only appends to the
    store: afterwards the store holds the last [maxSpans] of what it held
    and of the spans appended, each of them the conversion of a raw span
    under the service name of a resource, with truthy service and
    operation names, and each with one log line.  A run that throws has logged the error as its last
    line; a run that returns has logged no error. *)
Theorem X10_processTraces_only_appends (cap : nat) (data : value) (w : world) :
  (0 < cap)%nat -> store_ok cap w ->
  exists (added : list TelemetrySpan) (msgs : list (level * string)),
    let w' := exec (processTraces data) w in
    store_ok cap w' /\
    contents w' = last_n cap (contents w ++ added) /\
    Forall converted added /\
    Forall (fun t => truthy (serviceName t) = true /\ truthy (operationName t) = true) added /\
    List.length (List.filter processed msgs) = List.length added /\
    List.filter is_Error msgs = [] /\
    logged w' =
      (logged w ++ (Info, "Processing OTLP traces data") :: msgs ++
         match result (processTraces data) w with
         | Return _ => []
         | Throw _ => [(Error, "Error processing traces:")]
         end)%list.
Proof.
  intros Hcap Hok.
  destruct (processTraces_effect cap data w Hcap Hok)
    as [o [added [msgs [w' [Hrun [Hok' [Hc [[Hconv [Hcount Herr]] Hl]]]]]]]].
  exists added, msgs. cbv zeta. unfold result, exec. rewrite Hrun. cbn [fst snd].
  split; [exact Hok'|]. split; [exact Hc|]. split; [exact Hconv|].
  split.
  { eapply Forall_impl; [exact Hconv|]. intros t Ht.
    destruct (converted_names t Ht) as [Hs [Ho _]]. split; assumption. }
  split; [exact Hcount|]. split; [exact Herr|exact Hl].
Qed.

Lemma processTraces_spans_fail (cap : nat)
    (good rest : list value) (bad : value) (e : exn) (ts : list TelemetrySpan) (w : world) :
  (0 < cap)%nat -> store_ok cap w ->
  Forall2 (fun raw t => convertSpan raw (VStr "unknown-service") = Return t) good ts ->
  convertSpan bad (VStr "unknown-service") = Throw e ->
  exists w' : world,
    processTraces (payload_of_spans (good ++ bad :: rest)) w = (Throw e, w') /\
    contents w' = last_n cap (contents w ++ ts) /\
    logged w' =
      (logged w ++ (Info, "Processing OTLP traces data")
         :: List.map (fun _ => (Info, "Processed span")) ts
         ++ [(Error, "Error processing traces:")])%list.
Proof.
  intros Hcap Hok Hgood Hbad.
  rewrite processTraces_run. cbv zeta.
  set (w0 := {| heap := heap w; storage := storage w;
                logged := (logged w ++ [(Info, "Processing OTLP traces data")])%list |}).
  destruct (for_each_spans_fail cap (VStr "unknown-service") good rest bad e ts
              Hcap Hgood Hbad w0 (store_ok_logged cap w _ Hok))
    as [w1 [Hrun [Hok1 [Hc Hl]]]].
  change ((if negb (truthy (payload_of_spans (good ++ bad :: rest))) then _ else _) w0)
    with (((for_each (process_span (VStr "unknown-service")) (good ++ bad :: rest);;
            mret tt);; mret tt) w0).
  rewrite (bind_throw _ _ w0 w1 e (bind_throw _ _ w0 w1 e Hrun)).
  eexists. split; [reflexivity|]. cbn [logged].
  split; [exact Hc|].
  rewrite Hl. unfold w0. cbn [logged]. rewrite <- !app_assoc. reflexivity.
Qed.

(** X11. Nothing is rolled back when a span fails: with raw spans that
    are convertible followed by one whose conversion throws,
    [processTraces] re-throws that error after logging it, the spans before
    the failing one stay in the store, and the ones after it are never
    looked at. *)
Theorem X11_processTraces_keeps_spans_before_failure (cap : nat)
    (good rest : list value) (bad : value) (e : exn) (ts : list TelemetrySpan) (w : world) :
  (0 < cap)%nat -> store_ok cap w ->
  Forall2 (fun raw t => convertSpan raw (VStr "unknown-service") = Return t) good ts ->
  convertSpan bad (VStr "unknown-service") = Throw e ->
  let w' := exec (processTraces (payload_of_spans (good ++ bad :: rest))) w in
  result (processTraces (payload_of_spans (good ++ bad :: rest))) w = Throw e /\
  contents w' = last_n cap (contents w ++ ts) /\
  logged w' =
    (logged w ++ (Info, "Processing OTLP traces data")
       :: List.map (fun _ => (Info, "Processed span")) ts
       ++ [(Error, "Error processing traces:")])%list.
Proof.
  intros Hcap Hok Hgood Hbad. cbv zeta.
  destruct (processTraces_spans_fail cap good rest bad e ts w Hcap Hok Hgood Hbad)
    as [w' [Hrun [Hc Hl]]].
  unfold result, exec. rewrite Hrun. cbn [fst snd].
  split; [reflexivity|]. split; assumption.
Qed.
End DecoderRuns.

Section DecoderAndStats.
Context `{Host}.
#[local] Open Scope string_scope.
#[local] Open Scope Z_scope.

Lemma converted_is_error (raw service : value) (t : TelemetrySpan) :
  convertSpan raw service = Return t -> is_error t = has_error_code raw.
Proof.
  intros Hconv. unfold convertSpan in Hconv.
  repeat (apply bind_Return_inv in Hconv as [? [? Hconv]]).
  injection Hconv as <-. 
  match goal with Hst : JS.get raw "status" = Return ?st,
                  Hs : extractStatus ?st = Return ?text |- _ =>
    assert (st = get_opt raw "status") as -> by (unfold get_opt; rewrite Hst; reflexivity);
    destruct (extractStatus_texts _ _ Hs) as [Hfour Herr]
  end.
  unfold is_error, has_error_code. cbn [status].
  destruct (truthy (get_opt raw "status") &&
            strict_eq_num (get_opt (get_opt raw "status") "code") (Num.of_Z 2)) eqn:Hcode.
  - apply andb_true_iff in Hcode. apply Herr in Hcode. rewrite Hcode. reflexivity.
  - destruct Hfour as [E|[E|[E|E]]]; rewrite E in *; try reflexivity.
    destruct (proj1 Herr eq_refl) as [Ht Hc]. rewrite Ht, Hc in Hcode. discriminate Hcode.
Qed.

Lemma filter_length_Forall2 {A B} (p : A -> bool) (q : B -> bool) (R : A -> B -> Prop)
    (l : list A) (l' : list B) :
  (forall a b, R a b -> q b = p a) ->
  Forall2 R l l' ->
  List.length (List.filter q l') = List.length (List.filter p l).
Proof.
  intros HR Hall. induction Hall as [|a b l l' Hab Hrest IH]; [reflexivity|].
  cbn [List.filter]. rewrite (HR a b Hab). destruct (p a); cbn [List.length]; lia.
Qed.

Lemma filter_length_concat {A} (p : A -> bool) (ll : list (list A)) :
  List.length (List.filter p (concat ll)) =
    list_sum (List.map (fun l => List.length (List.filter p l)) ll).
Proof.
  induction ll as [|l ll IH]; [reflexivity|].
  cbn [concat List.map list_sum]. rewrite List.filter_app, length_app, IH. reflexivity.
Qed.

Lemma decoded_error_count (groups : list (value * list (list value)))
    (decoded : list (list (list TelemetrySpan))) :
  Forall2 group_decodes groups decoded ->
  List.length (List.filter is_error (concat (concat decoded))) =
    List.length (List.filter has_error_code (raw_spans groups)) /\
  List.length (concat (concat decoded)) = List.length (raw_spans groups).
Proof.
  intros Hall. unfold raw_spans.
  induction Hall as [|g tss groups decoded [service [_ Hg]] Hrest [IH1 IH2]];
    [split; reflexivity|].
  cbn [concat List.map]. rewrite concat_app, !List.filter_app, !length_app, IH1, IH2.
  assert (Hscopes :
            List.length (List.filter is_error (concat tss)) =
              List.length (List.filter has_error_code (concat (snd g))) /\
            List.length (concat tss) = List.length (concat (snd g))).
  { clear - Hg. induction Hg as [|raws ts scopes tss Hraws Hrest [IH1 IH2]];
      [split; reflexivity|].
    cbn [concat]. rewrite !List.filter_app, !length_app, IH1, IH2.
    rewrite (filter_length_Forall2 has_error_code is_error _ raws ts
               (fun a b Hab => converted_is_error a service b Hab) Hraws).
    rewrite (Forall2_length _ _ _ Hraws). split; reflexivity. }
  destruct Hscopes as [-> ->]. split; reflexivity.
Qed.

(** X26. From the payload to the statistics: when a payload of
    convertible spans fits into the store, [getStats] afterwards counts as
    many more spans as the payload has, and as many more errors as the
    payload has spans whose status code is the number 2. *)
Theorem X26_stats_count_ingested_errors (cap : nat)
    (groups : list (value * list (list value)))
    (decoded : list (list (list TelemetrySpan))) (w : world) :
  (0 < cap)%nat -> store_ok cap w ->
  Forall2 group_decodes groups decoded ->
  (List.length (contents w) + List.length (raw_spans groups) <= cap)%nat ->
  exists before after : TelemetryStats,
    result getStats w = Return before /\
    result getStats (exec (processTraces (payload_value groups)) w) = Return after /\
    totalSpans after = (List.length (contents w) + List.length (raw_spans groups))%nat /\
    errorCount after =
      (errorCount before + List.length (List.filter has_error_code (raw_spans groups)))%nat /\
    successCount after =
      (successCount before +
       List.length (List.filter (fun raw => negb (has_error_code raw)) (raw_spans groups)))%nat.
Proof.
  intros Hcap Hok Hall Hfits.
  destruct (decoded_error_count groups decoded Hall) as [Herrs Hlen].
  set (w0 := {| heap := heap w; storage := storage w;
                logged := (logged w ++ [(Info, "Processing OTLP traces data")])%list |}).
  destruct (for_each_groups_ok cap groups decoded Hcap Hall w0
              (store_ok_logged cap w _ Hok)) as [w1 [Hrun [Hok1 [Hc Hl]]]].
  assert (Hexec : exec (processTraces (payload_value groups)) w = w1).
  { unfold exec. rewrite processTraces_run. cbv zeta. fold w0.
    change ((if negb (truthy (payload_value groups)) then _ else _) w0)
      with (for_each process_resourceSpan (List.map group_value groups) w0).
    rewrite Hrun. reflexivity. }
  rewrite Hexec.
  change (contents w0) with (contents w) in Hc.
  rewrite last_n_all in Hc by (rewrite length_app, Hlen; exact Hfits).
  destruct (stats_counts w) as [before [Hbefore [Hbe Hbs]]].
  destruct (stats_counts w1) as [after [Hafter [Hae Has]]].
  exists before, after. split; [exact Hbefore|]. split; [exact Hafter|].
  assert (Htotal : totalSpans after = List.length (contents w1)).
  { unfold result in Hafter. rewrite getStats_run in Hafter. cbn [fst] in Hafter.
    injection Hafter as <-. unfold stats_of.
    destruct (Z.eqb_spec (Z.of_nat (List.length (contents w1))) 0) as [Hz|Hnz].
    - cbn [totalSpans empty_stats]. lia.
    - destruct (fold_left count_span (contents w1) ([], 0%nat, 0%nat)) as [[? ?] ?].
      reflexivity. }
  split; [rewrite Htotal, Hc, length_app, Hlen; reflexivity|].
  rewrite Hae, Has, Hbe, Hbs, Hc, !List.filter_app, !length_app, Herrs.
  split; [reflexivity|]. f_equal.
  pose proof (filter_length is_error (concat (concat decoded))) as Hsplit1.
  pose proof (filter_length has_error_code (raw_spans groups)) as Hsplit2.
  lia.
Qed.
End DecoderAndStats.

Section DecoderWitnesses.
#[local] Open Scope string_scope.
#[local] Open Scope Z_scope.

(** Two resource groups, the first with two scope groups of which one is
    empty. *)
Lemma X9_processTraces_stores_in_document_order_witness :
  let payload :=
    payload_value
      [(resource_with [string_attribute "service.name" "shop"],
        [[VObj [("startTimeUnixNano", VStr "0")]]; []]);
       (VUndefined, [[VObj [("startTimeUnixNano", VStr "1000000")]]])] in
  result (@processTraces any_host payload) (new_world 5) = Return tt.
Proof.
  refine (proj1 (@X9_processTraces_stores_in_document_order any_host 5%nat _ _
                   (new_world 5) _ _ _)).
  - lia.
  - split; [unfold wf; cbn; lia|]. split; [reflexivity|cbn; lia].
  - repeat econstructor.
Defined.

(** A payload whose second span cannot be converted. *)
Lemma X10_processTraces_only_appends_witness :
  let data := payload_of_spans [VObj [("startTimeUnixNano", VStr "0")]; VObj []] in
  exists (added : list TelemetrySpan) (msgs : list (level * string)),
    contents (exec (@processTraces any_host data) (new_world 5))
      = last_n 5 (contents (new_world 5) ++ added) /\
    List.length (List.filter processed msgs) = List.length added.
Proof.
  cbv zeta.
  destruct (@X10_processTraces_only_appends any_host 5%nat
              (payload_of_spans [VObj [("startTimeUnixNano", VStr "0")]; VObj []])
              (new_world 5))
    as [added [msgs [_ [Hc [_ [_ [Hn _]]]]]]].
  - lia.
  - split; [unfold wf; cbn; lia|]. split; [reflexivity|cbn; lia].
  - exists added, msgs. split; assumption.
Defined.

(** One good span, one without a start time, one that is never read. *)
Lemma X11_processTraces_keeps_spans_before_failure_witness :
  result (@processTraces any_host
            (payload_of_spans
               ([VObj [("startTimeUnixNano", VStr "0")]] ++ VObj [] :: [VNull])))
    (new_world 5)
  = Throw (RangeError "Invalid time value").
Proof.
  refine (proj1 (@X11_processTraces_keeps_spans_before_failure any_host 5%nat
                   [VObj [("startTimeUnixNano", VStr "0")]] [VNull] (VObj [])
                   (RangeError "Invalid time value") _ (new_world 5) _ _ _ _)).
  - lia.
  - split; [unfold wf; cbn; lia|]. split; [reflexivity|cbn; lia].
  - repeat econstructor.
  - reflexivity.
Defined.

(** A raw span with status code 2. *)
Lemma X13_converted_span_invariants_witness :
  exists t : TelemetrySpan,
    @convertSpan any_host
      (VObj [("startTimeUnixNano", VStr "0");
             ("status", VObj [("code", VNum (Num.of_Z 2))])])
      (VStr "shop") = Return t /\
    serviceName t = VStr "shop" /\ truthy (operationName t) = true /\ is_error t = true.
Proof.
  eexists. split; [reflexivity|].
  destruct (@X13_converted_span_invariants any_host
              (VObj [("startTimeUnixNano", VStr "0");
                     ("status", VObj [("code", VNum (Num.of_Z 2))])])
              (VStr "shop") _ eq_refl) as [Hs [Ho [_ [He _]]]].
  split; [exact Hs|]. split; [exact Ho|]. apply He. split; reflexivity.
Defined.

Lemma X15_bytesToHex_round_trip_witness :
  exists s : string,
    @bytesToHex any_host (bytes_value [x1f; x0a]%byte) = Return s /\
    String.length s = 4%nat /\
    bytes_of_hex s = Some [x1f; x0a]%byte.
Proof.
  apply (@X15_bytesToHex_round_trip any_host [x1f; x0a]%byte). reflexivity.
Defined.

(** Two entries with the key [__proto__], the first with the value
    [null]. *)
Lemma X16_extractAttributes_keys_witness :
  let entries := [attribute "__proto__" (VObj [("stringValue", VNull)]);
                  string_attribute "__proto__" "x"] in
  @extractAttributes any_host (VArr entries) = Return {[ "__proto__" := VStr "x" ]} /\
  exists (l1 : list value) (e1 : value) (l2 : list value) (e2 : value) (l3 : list value),
    iterate (VArr entries) = Return (l1 ++ e1 :: l2 ++ e2 :: l3)%list /\
    @kept_entry any_host e1 "__proto__" /\ @kept_entry any_host e2 "__proto__".
Proof.
  intros entries. split; [reflexivity|].
  refine (proj2 (proj2 (proj1 (@X16_extractAttributes_keys any_host (VArr entries)
                                 {[ "__proto__" := VStr "x" ]}) eq_refl)) _).
  exists (VStr "x"). reflexivity.
Defined.

(** An event with no field at all. *)
Lemma X17_extractEvents_one_per_element_witness :
  exists l : list SpanEvent,
    @extractEvents any_host (VArr [VObj []]) = Return l /\ List.length l = 1%nat.
Proof.
  eexists. split; [reflexivity|].
  destruct (@X17_extractEvents_one_per_element any_host (VArr [VObj []]) _ eq_refl)
    as [[Hf _]|[raw [Heq [Hlen _]]]]; [discriminate Hf|].
  injection Heq as <-. exact Hlen.
Defined.
End DecoderWitnesses.

Section DecoderAndStatsWitness.
#[local] Open Scope string_scope.
#[local] Open Scope Z_scope.

(** One span with status code 2 and one without a status. *)
Lemma X26_stats_count_ingested_errors_witness :
  exists st : TelemetryStats,
    result getStats
      (exec (@processTraces any_host
               (payload_value
                  [(VUndefined,
                    [[VObj [("startTimeUnixNano", VStr "0");
                            ("status", VObj [("code", VNum (Num.of_Z 2))])];
                      VObj [("startTimeUnixNano", VStr "0")]]])]))
         (new_world 5)) = Return st /\
    totalSpans st = 2%nat /\ errorCount st = 1%nat.
Proof.
  assert (Hd : exists decoded,
             Forall2 (@group_decodes any_host)
               [(VUndefined,
                 [[VObj [("startTimeUnixNano", VStr "0");
                         ("status", VObj [("code", VNum (Num.of_Z 2))])];
                   VObj [("startTimeUnixNano", VStr "0")]]])] decoded)
    by (eexists; repeat econstructor).
  destruct Hd as [decoded Hd].
  destruct (@X26_stats_count_ingested_errors any_host 5%nat _ decoded (new_world 5)
              ltac:(lia)
              ltac:(split; [unfold wf; cbn; lia|split; [reflexivity|cbn; lia]])
              Hd ltac:(cbn; lia))
    as [before [after [Hb [Ha [Ht [He _]]]]]].
  exists after. split; [exact Ha|]. split; [exact Ht|].
  rewrite He. vm_compute in Hb. injection Hb as <-. reflexivity.
Defined.
End DecoderAndStatsWitness.

Section RouteFacts.
Context `{Host}.
#[local] Open Scope string_scope.
#[local] Open Scope Z_scope.

Lemma slice_range_0 {A} (n : nat) (l : list A) :
  slice_range 0 (Z.of_nat n) l = take n l.
Proof.
  unfold slice_range. cbv zeta. change (0 <? 0) with false. cbv iota.
  destruct (Z.ltb_spec (Z.of_nat n) 0) as [Hneg|_]; [lia|].
  rewrite (Z.min_l 0) by lia. change (Z.to_nat 0) with 0%nat. rewrite drop_0, Z.sub_0_r.
  destruct (Z.le_gt_cases (Z.of_nat n) (Z.of_nat (List.length l))) as [Hle|Hgt].
  - rewrite Z.min_l by lia. rewrite Nat2Z.id. reflexivity.
  - rewrite Z.min_r by lia. rewrite Nat2Z.id. rewrite !take_ge by lia. reflexivity.
Qed.

Lemma get_telemetry_spans_run (w : world) :
  wf w ->
  get_telemetry_spans w =
    (Return {| code := 200;
               body := ReplySpans (Z.of_nat (List.length (contents w)))
                         (take 100 (rev (contents w))) |},
     with_heap (heap w ++ [rev (contents w); take 100 (rev (contents w))]) w).
Proof.
  intros Hwf. unfold get_telemetry_spans.
  rewrite (bind_return _ _ w _ _ (getAllSpans_run w)).
  unfold array_length, array_slice_range, array_read, array_new, with_heap, mbind, M_bind, mret,
    M_ret.
  cbn [heap storage logged].
  rewrite !lookup_app_r by lia. rewrite !Nat.sub_diag.
  cbn [lookup list_lookup default]. unfold id.
  rewrite length_rev.
  change 100 with (Z.of_nat 100). rewrite !slice_range_0.
  rewrite <- app_assoc. reflexivity.
Qed.

(** X18. [GET /telemetry/spans] reports in [total] the number of spans
    held, and lists the 100 most recently added of them, newest first: all
    of them when no more than 100 are held.  The store is not changed. *)
Theorem X18_spans_route_lists_newest_100 (w : world) :
  wf w ->
  exists page : list TelemetrySpan,
    result get_telemetry_spans w
      = Return {| code := 200;
                  body := ReplySpans (Z.of_nat (List.length (contents w))) page |} /\
    page = rev (last_n 100 (contents w)) /\
    List.length page = Nat.min 100 (List.length (contents w)) /\
    contents (exec get_telemetry_spans w) = contents w.
Proof.
  intros Hwf. exists (take 100 (rev (contents w))).
  unfold result, exec. rewrite (get_telemetry_spans_run w Hwf). cbn [fst snd].
  split; [reflexivity|]. split; [|split].
  - unfold last_n. apply firstn_rev.
  - rewrite length_take, length_rev. reflexivity.
  - apply contents_with_heap_app. exact Hwf.
Qed.

Lemma post_v1_traces_run (b : value) (w : world) :
  b <> VUndefined ->
  post_v1_traces b w =
    match processTraces b
            {| heap := heap w; storage := storage w;
               logged := (logged w ++ [(Info, "Received traces data")])%list |} with
    | (Return _, w') => (Return {| code := 200; body := ReplySuccess |}, w')
    | (Throw _, w') =>
        (Return {| code := 500; body := ReplyError "Failed to process traces" |},
         {| heap := heap w'; storage := storage w';
            logged := (logged w' ++ [(Error, "Error processing traces:")])%list |})
    end.
Proof.
  intros Hb. unfold post_v1_traces, try_catch, JSON_stringify_body.
  destruct b; try contradiction; cbn [is_undefined JSON_stringify JS.get];
    unfold mbind, M_bind, lift, log, mret, M_ret; cbn [heap storage logged];
    match goal with |- context [processTraces ?b ?w0] =>
      destruct (processTraces b w0) as [[[]|e] w'] end; reflexivity.
Qed.

Lemma post_v1_traces_undefined (w : world) :
  post_v1_traces VUndefined w =
    (Return {| code := 500; body := ReplyError "Failed to process traces" |},
     {| heap := heap w; storage := storage w;
        logged := (logged w ++ [(Error, "Error processing traces:")])%list |}).
Proof. reflexivity. Qed.

Lemma post_v1_traces_effect (cap : nat) (b : value) (w : world) :
  (0 < cap)%nat -> store_ok cap w ->
  exists (resp : response) (added : list TelemetrySpan) (w' : world),
    post_v1_traces b w = (Return resp, w') /\
    (resp = {| code := 200; body := ReplySuccess |} \/
     resp = {| code := 500; body := ReplyError "Failed to process traces" |}) /\
    (code resp = 200 <->
       b <> VUndefined /\
       result (processTraces b) (exec (log Info "Received traces data") w) = Return tt) /\
    store_ok cap w' /\
    contents w' = last_n cap (contents w ++ added) /\
    Forall converted added.
Proof.
  intros Hcap Hok.
  assert (Hcases : b = VUndefined \/ b <> VUndefined)
    by (destruct b; (left; reflexivity) || (right; discriminate)).
  destruct Hcases as [->|Hb].
  - eexists {| code := 500; body := ReplyError "Failed to process traces" |}, [], _.
    rewrite post_v1_traces_undefined. cbn [code].
    split; [reflexivity|]. split; [right; reflexivity|].
    split; [split; [discriminate|intros [Hf _]; congruence]|].
    split; [exact Hok|]. split; [|constructor].
    rewrite app_nil_r. symmetry. apply last_n_all. apply Hok.
  - set (w0 := {| heap := heap w; storage := storage w;
                  logged := (logged w ++ [(Info, "Received traces data")])%list |}).
    destruct (processTraces_effect cap b w0 Hcap (store_ok_logged cap w _ Hok))
      as [o [added [msgs [w' [Hrun [Hok' [Hc [[Hconv _] _]]]]]]]].
    rewrite (post_v1_traces_run b w Hb). fold w0.
    unfold result, exec.
    change (log Info "Received traces data" w) with (Return tt, w0). cbn [snd].
    rewrite Hrun. destruct o as [[]|e]; cbn [fst snd] in *.
    + eexists {| code := 200; body := ReplySuccess |}, added, _.
      split; [reflexivity|]. split; [left; reflexivity|].
      split; [split; [intros _; split; [exact Hb|reflexivity]|reflexivity]|].
      split; [exact Hok'|]. split; [exact Hc|exact Hconv].
    + eexists {| code := 500; body := ReplyError "Failed to process traces" |}, added, _.
      split; [reflexivity|]. split; [right; reflexivity|].
      split; [split; [discriminate|intros [_ Hf]; discriminate Hf]|].
      split; [exact Hok'|]. split; [exact Hc|exact Hconv].
Qed.

(** X19. [POST /v1/traces] always answers, with 200 or with 500, whatever
    the body is: the handler never throws.  It answers 200 exactly when the
    body is defined and [processTraces] returns.  In both cases the store
    has only been appended to, with converted spans. *)
Theorem X19_traces_route_always_answers (cap : nat) (b : value) (w : world) :
  (0 < cap)%nat -> store_ok cap w ->
  exists (resp : response) (added : list TelemetrySpan),
    let w' := exec (post_v1_traces b) w in
    result (post_v1_traces b) w = Return resp /\
    (resp = {| code := 200; body := ReplySuccess |} \/
     resp = {| code := 500; body := ReplyError "Failed to process traces" |}) /\
    (code resp = 200 <->
       b <> VUndefined /\
       result (processTraces b) (exec (log Info "Received traces data") w) = Return tt) /\
    store_ok cap w' /\
    contents w' = last_n cap (contents w ++ added) /\
    Forall converted added.
Proof.
  intros Hcap Hok. cbv zeta.
  destruct (post_v1_traces_effect cap b w Hcap Hok)
    as [resp [added [w' [Hrun [Hcases [Hiff [Hok' [Hc Hconv]]]]]]]].
  assert (Hres : result (post_v1_traces b) w = Return resp)
    by (unfold result; rewrite Hrun; reflexivity).
  assert (Hexec : exec (post_v1_traces b) w = w')
    by (unfold exec; rewrite Hrun; reflexivity).
  exists resp, added. rewrite Hexec.
  split; [exact Hres|]. split; [exact Hcases|]. split; [exact Hiff|].
  split; [exact Hok'|]. split; [exact Hc|exact Hconv].
Qed.

(** X20. An answer of 500 does not mean that nothing was stored: when a
    raw span fails after convertible ones, the route answers 500, the spans
    before the failing one are in the store, and the error was logged
    twice, by the processor and by the handler. *)
Theorem X20_traces_route_500_after_partial_store (cap : nat)
    (good rest : list value) (bad : value) (e : exn) (ts : list TelemetrySpan) (w : world) :
  (0 < cap)%nat -> store_ok cap w ->
  Forall2 (fun raw t => convertSpan raw (VStr "unknown-service") = Return t) good ts ->
  convertSpan bad (VStr "unknown-service") = Throw e ->
  let b := payload_of_spans (good ++ bad :: rest) in
  let w' := exec (post_v1_traces b) w in
  result (post_v1_traces b) w
    = Return {| code := 500; body := ReplyError "Failed to process traces" |} /\
  contents w' = last_n cap (contents w ++ ts) /\
  logged w' =
    (logged w ++ (Info, "Received traces data") :: (Info, "Processing OTLP traces data")
       :: List.map (fun _ => (Info, "Processed span")) ts
       ++ [(Error, "Error processing traces:"); (Error, "Error processing traces:")])%list.
Proof.
  intros Hcap Hok Hgood Hbad. cbv zeta.
  set (w0 := {| heap := heap w; storage := storage w;
                logged := (logged w ++ [(Info, "Received traces data")])%list |}).
  destruct (processTraces_spans_fail cap good rest bad e ts w0
              Hcap (store_ok_logged cap w _ Hok) Hgood Hbad) as [w' [Hrun [Hc Hl]]].
  unfold result, exec.
  rewrite (post_v1_traces_run _ w) by discriminate. fold w0. rewrite Hrun.
  cbn [fst snd logged].
  split; [reflexivity|]. split; [exact Hc|].
  rewrite Hl. unfold w0. cbn [logged]. rewrite <- !app_assoc. cbn [app].
  rewrite <- !app_assoc. reflexivity.
Qed.

(** X21. After [DELETE /telemetry/clear], whatever was held, the stats
    route reports zero spans and no time range, and the spans route an
    empty list. *)
Theorem X21_clear_route_empties_the_reads (w : world) :
  result delete_telemetry_clear w
    = Return {| code := 200; body := ReplyCleared "All telemetry data cleared" |} /\
  result (delete_telemetry_clear;; get_telemetry_stats) w
    = Return {| code := 200; body := ReplyStats empty_stats |} /\
  result (delete_telemetry_clear;; get_telemetry_spans) w
    = Return {| code := 200; body := ReplySpans 0 [] |} /\
  contents (exec delete_telemetry_clear w) = [] /\
  logged (exec delete_telemetry_clear w)
    = (logged w ++ [(Info, "Cleared all telemetry data")])%list.
Proof.
  set (w1 := {| heap := (heap w ++ [[]])%list;
                storage := {| spans := List.length (heap w);
                              maxSpans := maxSpans (storage w) |};
                logged := (logged w ++ [(Info, "Cleared all telemetry data")])%list |}).
  assert (Hrun : delete_telemetry_clear w =
                 (Return {| code := 200; body := ReplyCleared "All telemetry data cleared" |},
                  w1)) by reflexivity.
  assert (Hempty : contents w1 = []).
  { unfold contents, w1. cbn [heap storage spans].
    rewrite lookup_app_r by lia. rewrite Nat.sub_diag. reflexivity. }
  assert (Hwf : wf w1).
  { unfold wf, w1. cbn [heap storage spans]. rewrite length_app. cbn. lia. }
  unfold result, exec. rewrite !(bind_return _ _ w w1 _ Hrun), Hrun. cbn [fst snd].
  split; [reflexivity|].
  split; [unfold get_telemetry_stats; rewrite (bind_return _ _ w1 w1 _ (getStats_run w1));
          rewrite Hempty; reflexivity|].
  split; [rewrite (get_telemetry_spans_run w1 Hwf), Hempty; reflexivity|].
  split; [exact Hempty|reflexivity].
Qed.

(** *** The server *)




End RouteFacts.

Section RouteWitnesses.
#[local] Open Scope string_scope.
#[local] Open Scope Z_scope.

Lemma X18_spans_route_lists_newest_100_witness :
  exists page : list TelemetrySpan,
    result get_telemetry_spans sample_store
      = Return {| code := 200; body := ReplySpans 3 page |} /\
    List.map traceId page = ["03"; "02"; "01"].
Proof.
  destruct (X18_spans_route_lists_newest_100 sample_store) as [page [Hres [Hpage _]]].
  { unfold wf. vm_compute. lia. }
  exists page. split; [exact Hres|]. rewrite Hpage. reflexivity.
Defined.

(** A request without a parsed body. *)
Lemma X19_traces_route_always_answers_witness :
  exists resp : response,
    result (@post_v1_traces any_host VUndefined) (new_world 5) = Return resp /\
    code resp = 500.
Proof.
  destruct (@X19_traces_route_always_answers any_host 5%nat VUndefined (new_world 5))
    as [resp [added [Hres [Hcases [Hiff _]]]]].
  - lia.
  - split; [unfold wf; cbn; lia|]. split; [reflexivity|cbn; lia].
  - exists resp. split; [exact Hres|].
    destruct Hcases as [->| ->]; [|reflexivity].
    destruct (proj1 Hiff eq_refl) as [Hf _]. contradiction.
Defined.

Lemma X20_traces_route_500_after_partial_store_witness :
  result (@post_v1_traces any_host
            (payload_of_spans ([VObj [("startTimeUnixNano", VStr "0")]] ++ VObj [] :: [])))
    (new_world 5)
  = Return {| code := 500; body := ReplyError "Failed to process traces" |}.
Proof.
  refine (proj1 (@X20_traces_route_500_after_partial_store any_host 5%nat
                   [VObj [("startTimeUnixNano", VStr "0")]] [] (VObj [])
                   (RangeError "Invalid time value") _ (new_world 5) _ _ _ _)).
  - lia.
  - split; [unfold wf; cbn; lia|]. split; [reflexivity|cbn; lia].
  - repeat econstructor.
  - reflexivity.
Defined.
End RouteWitnesses.

Section ClientFacts.
#[local] Open Scope string_scope.
#[local] Open Scope Z_scope.

Lemma assign_lookup (o : gmap string value) (key k : string) (v : value) :
  assign o key v !! k =
    if String.eqb key "__proto__" then o !! k
    else if String.eqb key k then Some v else o !! k.
Proof.
  unfold assign. destruct (String.eqb key "__proto__"); [reflexivity|].
  destruct (String.eqb_spec key k) as [->|Hne].
  - apply lookup_insert_eq.
  - apply lookup_insert_ne. exact Hne.
Qed.

Lemma flatten_fold_lookup (entries : list (string * value)) :
  forall (acc : gmap string value) (k : string) (v : value),
    NoDup entries.*1 ->
    (forall x, acc !! k = Some x -> k ∉ entries.*1) ->
    fold_left
      (fun flattened kv =>
         if negb (is_undefined (snd kv)) then assign flattened (fst kv) (snd kv)
         else flattened)
      entries acc !! k = Some v <->
    acc !! k = Some v \/
    ((k, v) ∈ entries /\ v <> VUndefined /\ k <> "__proto__").
Proof.
  induction entries as [|[key x] rest IH]; intros acc k v Hnd Hfresh.
  - cbn [fold_left]. split; [left; assumption|].
    intros [Hacc|[Hin _]]; [exact Hacc|inversion Hin].
  - cbn [fmap list_fmap fst] in Hnd. apply NoDup_cons in Hnd as [Hkey Hrest].
    cbn [fold_left fst snd]. rewrite IH; [|exact Hrest|].
    + destruct (is_undefined x) eqn:Hx; cbn [negb].
      * split.
        -- intros [Hacc|[Hin Hv]]; [left; exact Hacc|].
           right. split; [apply elem_of_cons; right; exact Hin|exact Hv].
        -- intros [Hacc|[Hin [Hv Hk]]]; [left; exact Hacc|].
           apply elem_of_cons in Hin as [Heq|Hin].
           ++ injection Heq as -> ->. destruct x; try discriminate Hx. contradiction.
           ++ right. repeat split; assumption.
      * rewrite assign_lookup.
        destruct (String.eqb_spec key "__proto__") as [->|Hproto].
        -- split.
           ++ intros [Hacc|[Hin Hv]]; [left; exact Hacc|].
              right. split; [apply elem_of_cons; right; exact Hin|exact Hv].
           ++ intros [Hacc|[Hin [Hv Hk]]]; [left; exact Hacc|].
              apply elem_of_cons in Hin as [Heq|Hin].
              ** injection Heq as -> ->. contradiction.
              ** right. repeat split; assumption.
        -- destruct (String.eqb_spec key k) as [->|Hne].
           ++ split.
              ** intros [Hacc|[Hin Hv]].
                 --- injection Hacc as ->. right.
                     split; [apply elem_of_cons; left; reflexivity|].
                     split; [destruct v; try discriminate Hx; discriminate|exact Hproto].
                 --- exfalso. apply Hkey. apply list_elem_of_fmap.
                     exists (k, v). split; [reflexivity|exact Hin].
              ** intros [Hacc|[Hin [Hv Hk]]].
                 --- exfalso. apply (Hfresh v Hacc). cbn. apply elem_of_cons. left. reflexivity.
                 --- apply elem_of_cons in Hin as [Heq|Hin].
                     +++ injection Heq as ->. left. reflexivity.
                     +++ exfalso. apply Hkey. apply list_elem_of_fmap.
                         exists (k, v). split; [reflexivity|exact Hin].
           ++ split.
              ** intros [Hacc|[Hin Hv]]; [left; exact Hacc|].
                 right. split; [apply elem_of_cons; right; exact Hin|exact Hv].
              ** intros [Hacc|[Hin [Hv Hk]]]; [left; exact Hacc|].
                 apply elem_of_cons in Hin as [Heq|Hin].
                 --- injection Heq as -> ->. contradiction.
                 --- right. repeat split; assumption.
    + intros y Hy Hin.
      destruct (is_undefined x); cbn [negb] in Hy.
      * apply (Hfresh y Hy). cbn. apply elem_of_cons. right. exact Hin.
      * rewrite assign_lookup in Hy.
        destruct (String.eqb key "__proto__").
        -- apply (Hfresh y Hy). cbn. apply elem_of_cons. right. exact Hin.
        -- destruct (String.eqb_spec key k) as [->|Hne]; [contradiction|].
           apply (Hfresh y Hy). cbn. apply elem_of_cons. right. exact Hin.
Qed.

(** X22. [flattenMetadata] keeps exactly the entries of the metadata whose
    value is not [undefined], under their own keys and with their own
    values, except an entry named [__proto__], which sets no property; a
    missing metadata object gives the empty object. *)
Theorem X22_flattenMetadata_keeps_defined_entries (entries : list (string * value))
    (k : string) (v : value) :
  NoDup entries.*1 ->
  (flattenMetadata (Some entries) !! k = Some v <->
     (k, v) ∈ entries /\ v <> VUndefined /\ k <> "__proto__") /\
  flattenMetadata (Some entries) !! k <> Some VUndefined /\
  flattenMetadata None = ∅.
Proof.
  intros Hnd.
  assert (Hiff : forall x, flattenMetadata (Some entries) !! k = Some x <->
                   (k, x) ∈ entries /\ x <> VUndefined /\ k <> "__proto__").
  { intros x. unfold flattenMetadata. rewrite (flatten_fold_lookup entries ∅ k x Hnd).
    - rewrite lookup_empty. split; [intros [Hf|Hin]; [discriminate Hf|exact Hin]|].
      intros Hin. right. exact Hin.
    - intros y Hy. rewrite lookup_empty in Hy. discriminate Hy. }
  split; [apply Hiff|]. split; [|reflexivity].
  intros Hu. apply Hiff in Hu as [_ [Hf _]]. contradiction.
Qed.

Lemma X22_flattenMetadata_keeps_defined_entries_witness :
  flattenMetadata (Some [("a", VStr "x"); ("b", VUndefined)]) !! "a" = Some (VStr "x") /\
  flattenMetadata (Some [("a", VStr "x"); ("b", VUndefined)]) !! "b" = None.
Proof.
  destruct (X22_flattenMetadata_keeps_defined_entries
              [("a", VStr "x"); ("b", VUndefined)] "a" (VStr "x")) as [Hiff _].
  { cbn. apply NoDup_cons. split; [|apply NoDup_singleton].
    intros Hin. apply list_elem_of_singleton in Hin. discriminate Hin. }
  split; [|reflexivity].
  apply Hiff. split; [apply elem_of_cons; left; reflexivity|]. split; discriminate.
Defined.

(** *** The path of a URL *)

Lemma replace_slashes_no_slash (s : string) :
  forall c, List.In c (list_ascii_of_string (replace_slashes s)) -> c <> "/"%char.
Proof.
  induction s as [|a r IH]; cbn [replace_slashes list_ascii_of_string]; intros c Hc;
    [destruct Hc|].
  destruct Hc as [<-|Hc]; [|apply IH; exact Hc].
  destruct (Ascii.eqb_spec a "/"); [discriminate|assumption].
Qed.

(** X23. The path [getPathFromUrl] returns is never empty and has no
    slash in it: it is ["invalid_url"] when the URL does not parse,
    ["root"] when nothing is left of the path, and otherwise the path with
    an underscore for every slash but a leading one. *)
Theorem X23_getPathFromUrl_never_empty (pathname_of : string -> option string)
    (url : string) :
  getPathFromUrl pathname_of url <> "" /\
  (forall c, List.In c (list_ascii_of_string (getPathFromUrl pathname_of url)) ->
     c <> "/"%char) /\
  (pathname_of url = None -> getPathFromUrl pathname_of url = "invalid_url") /\
  (pathname_of url = Some "/" -> getPathFromUrl pathname_of url = "root") /\
  (forall rest, pathname_of url = Some (String "/" rest) -> rest <> "" ->
     getPathFromUrl pathname_of url = replace_slashes rest).
Proof.
  unfold getPathFromUrl. destruct (pathname_of url) as [pathname|].
  - set (path := drop_leading_underscore (replace_slashes pathname)).
    assert (Hpath : forall c, List.In c (list_ascii_of_string path) -> c <> "/"%char).
    { intros c Hc. apply (replace_slashes_no_slash pathname).
      unfold path, drop_leading_underscore in Hc.
      destruct (replace_slashes pathname) as [|a r]; [exact Hc|].
      destruct (Ascii.eqb_spec a "_"%char) as [->|Hne]; [right; exact Hc|].
      destruct a as [[] [] [] [] [] [] [] []]; try exact Hc. contradiction. }
    cbv zeta. destruct (String.eqb_spec path "") as [Hempty|Hne]; cbn [negb].
    + split; [discriminate|]. split.
      { intros c Hc. cbn in Hc. intros ->.
        repeat (destruct Hc as [Hc|Hc]; [discriminate Hc|]). exact Hc. }
      split; [discriminate|]. split; [reflexivity|].
      intros rest Hp Hrest. injection Hp as ->. exfalso.
      unfold path in Hempty. cbn in Hempty.
      destruct rest; [contradiction|discriminate Hempty].
    + split; [exact Hne|]. split; [exact Hpath|]. split; [discriminate|].
      split.
      { intros Hp. injection Hp as ->. contradiction Hne. reflexivity. }
      intros rest Hp _. injection Hp as ->. reflexivity.
  - split; [discriminate|]. split.
    { intros c Hc. cbn in Hc. intros ->.
      repeat (destruct Hc as [Hc|Hc]; [discriminate Hc|]). exact Hc. }
    split; [reflexivity|]. split; [discriminate|]. intros rest Hp. discriminate Hp.
Qed.

(** *** From the client to the store *)

Lemma bind_ret {A B} (a : A) (k : A -> outcome B) : (Return a ≫= k) = k a.
Proof. reflexivity. Qed.

Lemma export_string_entries `{Host} (l : list (string * string)) :
  map_outcome export_attribute (string_entries l) =
    Return (List.map (fun kv => string_attribute (fst kv) (snd kv)) l).
Proof.
  induction l as [|[k t] r IH]; [reflexivity|].
  cbn [string_entries List.map map_outcome] in *. fold (string_entries r).
  rewrite IH. reflexivity.
Qed.

(** A string never changes the prototype: while the object has no own
    property [__proto__], an entry of that name is dropped. *)
Lemma extract_string_attribute `{Host} (acc : gmap string value) (k t : string) :
  acc !! "__proto__" = None ->
  extract_attribute {| proto := ObjectPrototype; own := acc |} (string_attribute k t) =
    Return {| proto := ObjectPrototype;
              own := if kept_key (k, VStr t) then <[k := VStr t]> acc else acc |}.
Proof.
  intros Hnone.
  unfold extract_attribute, string_attribute, attribute, kept_key.
  change (JS.get (VObj [("key", VStr k); ("value", VObj [("stringValue", VStr t)])]) "key")
    with (Return (VStr k)).
  change (JS.get (VObj [("key", VStr k); ("value", VObj [("stringValue", VStr t)])]) "value")
    with (Return (VObj [("stringValue", VStr t)])).
  rewrite bind_ret. cbn [truthy fst].
  destruct (String.eqb k ""); cbn [negb andb]; [reflexivity|].
  rewrite bind_ret. cbn [truthy negb].
  change (JS.get (VObj [("stringValue", VStr t)]) "stringValue") with (Return (VStr t)).
  rewrite bind_ret. cbn [negb is_undefined].
  unfold set_prop, ToString. cbn [ToString_radix]. rewrite bind_ret. cbn [proto own].
  destruct (String.eqb_spec k "__proto__") as [->|Hne]; cbn [andb negb]; [|reflexivity].
  rewrite Hnone. reflexivity.
Qed.

Lemma extract_string_attributes `{Host} (l : list (string * string)) :
  forall acc : gmap string value,
    acc !! "__proto__" = None ->
    fold_outcome extract_attribute {| proto := ObjectPrototype; own := acc |}
      (List.map (fun kv => string_attribute (fst kv) (snd kv)) l) =
    Return {| proto := ObjectPrototype;
              own := fold_left
                       (fun m kv => if kept_key kv then <[fst kv := snd kv]> m else m)
                       (string_entries l) acc |}.
Proof.
  induction l as [|[k t] r IH]; intros acc Hnone; [reflexivity|].
  cbn [List.map fold_outcome string_entries fold_left fst snd].
  rewrite (extract_string_attribute acc k t Hnone), bind_ret. fold (string_entries r).
  apply IH. unfold kept_key. cbn [fst].
  destruct (String.eqb_spec k "__proto__") as [->|Hne];
    [rewrite andb_false_r; exact Hnone|].
  destruct (negb (String.eqb k "")); cbn [andb negb]; [|exact Hnone].
  rewrite lookup_insert_ne by exact Hne. exact Hnone.
Qed.

Lemma fold_kept_list_to_map (l : list (string * value)) :
  fold_left (fun m kv => if kept_key kv then <[fst kv := snd kv]> m else m) l ∅ =
    (list_to_map (rev (List.filter kept_key l)) : gmap string value).
Proof.
  induction l as [|kv l IH] using rev_ind; [reflexivity|].
  rewrite fold_left_app, List.filter_app. cbn [fold_left List.filter].
  rewrite IH. destruct (kept_key kv).
  - rewrite rev_app_distr. cbn [rev app]. destruct kv as [k v]. reflexivity.
  - rewrite app_nil_r. reflexivity.
Qed.

(** X24. The receiver decodes the payload that [manualExportSpan] builds
    into one span, which it stores: the identifiers and the name are the
    client's (an empty name reads as the default), the service is
    ["opentelemetry-rn-app"], the status is ["OK"], there are no events and
    no parent, the times are the client's nanosecond texts read back and
    divided down, and the attributes are the client's, as strings, except
    those with an empty key or the key [__proto__]; the last entry of a key
    decides.  It is assumed that the two nanosecond texts read back as the
    numbers they print, and that the start is a valid time. *)
Theorem X24_exported_span_is_stored `{Host} (cap : nat) (w : world)
    (traceId spanId spanName : string) (now : number)
    (attributes : list (string * string)) (ms : Z) :
  let start := number_mul now (Num.of_Z 1000000) in
  let stop := number_mul (number_add now (Num.of_Z 100)) (Num.of_Z 1000000) in
  let startMs := Num.floor (Num.div start (Num.of_Z 1000000)) in
  let stopMs := Num.floor (Num.div stop (Num.of_Z 1000000)) in
  (0 < cap)%nat -> store_ok cap w ->
  Num.parseInt_string (Number_toString 10 start) = start ->
  Num.parseInt_string (Number_toString 10 stop) = stop ->
  TimeClip startMs = Some ms ->
  exists data : value,
    otlpData traceId spanId now spanName (string_entries attributes) = Return data /\
    result (processTraces data) w = Return tt /\
    contents (exec (processTraces data) w) =
      last_n cap
        (contents w ++
         [{| traceId := traceId; spanId := spanId; parentSpanId := None;
             operationName :=
               if String.eqb spanName "" then VStr "unknown-operation" else VStr spanName;
             startTime := startMs; endTime := stopMs;
             duration := Num.sub stopMs startMs;
             status := "OK";
             attributes :=
               list_to_map (rev (List.filter kept_key (string_entries attributes)));
             events := [];
             serviceName := VStr "opentelemetry-rn-app";
             timestamp := host_ISO_format ms |}]).
Proof.
  intros start stop startMs stopMs Hcap Hok Hstart Hstop Hvalid.
  unfold otlpData. rewrite export_string_entries, bind_ret.
  fold start. fold stop.
  eexists. split; [reflexivity|].
  set (raw := VObj [("traceId", VStr traceId); ("spanId", VStr spanId);
                    ("name", VStr spanName); ("kind", VNum (Num.of_Z 1));
                    ("startTimeUnixNano", VStr (Number_toString 10 start));
                    ("endTimeUnixNano", VStr (Number_toString 10 stop));
                    ("attributes",
                     VArr (List.map (fun kv => string_attribute (fst kv) (snd kv)) attributes));
                    ("status", VObj [("code", VNum (Num.of_Z 1))])]).
  set (t := {| traceId := traceId; spanId := spanId; parentSpanId := None;
               operationName :=
                 if String.eqb spanName "" then VStr "unknown-operation" else VStr spanName;
               startTime := startMs; endTime := stopMs;
               duration := Num.sub stopMs startMs;
               status := "OK";
               attributes :=
                 list_to_map (rev (List.filter kept_key (string_entries attributes)));
               events := [];
               serviceName := VStr "opentelemetry-rn-app";
               timestamp := host_ISO_format ms |}).
  assert (Hconv : convertSpan raw (VStr "opentelemetry-rn-app") = Return t).
  { unfold convertSpan.
    change (JS.get raw "startTimeUnixNano") with (Return (VStr (Number_toString 10 start))).
    rewrite bind_ret, nanosToMillis_string, Hstart, bind_ret. fold startMs.
    change (JS.get raw "endTimeUnixNano") with (Return (VStr (Number_toString 10 stop))).
    rewrite bind_ret, nanosToMillis_string, Hstop, bind_ret. fold stopMs.
    change (JS.get raw "traceId") with (Return (VStr traceId)).
    rewrite bind_ret. cbn [bytesToHex]. rewrite bind_ret.
    change (JS.get raw "spanId") with (Return (VStr spanId)).
    rewrite bind_ret. cbn [bytesToHex]. rewrite bind_ret.
    change (JS.get raw "parentSpanId") with (Return VUndefined).
    rewrite bind_ret. cbn [truthy]. rewrite bind_ret.
    change (JS.get raw "name") with (Return (VStr spanName)).
    rewrite bind_ret.
    change (JS.get raw "status") with (Return (VObj [("code", VNum (Num.of_Z 1))])).
    rewrite bind_ret.
    change (extractStatus (VObj [("code", VNum (Num.of_Z 1))])) with (Return "OK").
    rewrite bind_ret.
    change (JS.get raw "attributes")
      with (Return (VArr (List.map (fun kv => string_attribute (fst kv) (snd kv)) attributes))).
    rewrite bind_ret.
    unfold extractAttributes. cbn [truthy negb iterate]. rewrite bind_ret.
    unfold object_literal. rewrite extract_string_attributes by apply lookup_empty.
    rewrite bind_ret. cbn [own]. rewrite fold_kept_list_to_map, bind_ret.
    change (JS.get raw "events") with (Return VUndefined).
    rewrite bind_ret. unfold extractEvents. cbn [truthy negb]. rewrite bind_ret.
    unfold Date_toISOString. rewrite Hvalid, bind_ret.
    unfold t. cbn [truthy]. destruct (String.eqb spanName ""); reflexivity. }
  set (w0 := {| heap := heap w; storage := storage w;
                logged := (logged w ++ [(Info, "Processing OTLP traces data")])%list |}).
  destruct (process_span_stores cap w0 (VStr "opentelemetry-rn-app") raw t Hcap
              (store_ok_logged cap w _ Hok) Hconv) as [w1 [Hrun [_ [Hc _]]]].
  unfold result, exec. rewrite processTraces_run. cbv zeta. fold w0.
  match goal with |- context [(if negb (truthy ?d) then _ else _) w0] =>
    change ((if negb (truthy d) then _ else _) w0)
      with ((((process_span (VStr "opentelemetry-rn-app") raw;; mret tt);; mret tt);;
             mret tt) w0) end.
  assert (H1 : (process_span (VStr "opentelemetry-rn-app") raw;; mret tt) w0
               = (Return tt, w1))
    by (rewrite (bind_return _ _ w0 w1 tt Hrun); reflexivity).
  assert (H2 : ((process_span (VStr "opentelemetry-rn-app") raw;; mret tt);; mret tt) w0
               = (Return tt, w1))
    by (rewrite (bind_return _ _ w0 w1 tt H1); reflexivity).
  rewrite (bind_return _ _ w0 w1 tt H2). cbn [fst snd mret M_ret].
  split; [reflexivity|exact Hc].
Qed.

(** An export at one second after the epoch. *)
Lemma X24_exported_span_is_stored_witness :
  exists data : value,
    @otlpData any_host "0123456789abcdef0123456789abcdef" "0123456789abcdef"
      (Num.of_Z 1000) "user_interaction.click"
      (string_entries [("user.action", "click"); ("", "dropped")]) = Return data /\
    List.map startTime (contents (exec (@processTraces any_host data) (new_world 5)))
      = [Num.of_Z 1000].
Proof.
  destruct (@X24_exported_span_is_stored any_host 5%nat (new_world 5)
              "0123456789abcdef0123456789abcdef" "0123456789abcdef"
              "user_interaction.click" (Num.of_Z 1000)
              [("user.action", "click"); ("", "dropped")] 1000)
    as [data [Hdata [_ Hc]]].
  - lia.
  - split; [unfold wf; cbn; lia|]. split; [reflexivity|cbn; lia].
  - vm_compute. reflexivity.
  - vm_compute. reflexivity.
  - vm_compute. reflexivity.
  - exists data. split; [exact Hdata|]. rewrite Hc. vm_compute. reflexivity.
Defined.

(** X25. The start time the receiver stores can be one millisecond before
    the client's clock.  At [now = 1706668798898] the product with
    [1000000] is not a binary64 number; it is rounded down, and the
    receiver's division and floor give [1706668798897]. *)
Theorem X25_exported_start_can_lose_a_millisecond `{Host} :
  let now := 1706668798898 in
  let start := number_mul (Num.of_Z now) (Num.of_Z 1000000) in
  Num.parseInt_string (Number_toString 10 start) = start ->
  Num.to_Z (Num.of_Z now) = Some now /\
  nanosToMillis (VStr (Number_toString 10 start)) = Return (Num.of_Z (now - 1)).
Proof.
  cbv zeta. intros Hprint. split; [vm_compute; reflexivity|].
  rewrite nanosToMillis_string, Hprint. vm_compute. reflexivity.
Qed.

Lemma X25_exported_start_can_lose_a_millisecond_witness :
  @nanosToMillis exact_host
    (VStr (@Number_toString exact_host 10
             (number_mul (Num.of_Z 1706668798898) (Num.of_Z 1000000))))
  = Return (Num.of_Z 1706668798897).
Proof.
  refine (proj2 (@X25_exported_start_can_lose_a_millisecond exact_host _)).
  vm_compute. reflexivity.
Defined.
End ClientFacts.

Section ClockFacts.
#[local] Open Scope Z_scope.

Lemma shr_1_m (mrs : shr_record) :
  0 <= shr_m mrs -> shr_m (shr_1 mrs) = shr_m mrs / 2 /\ 0 <= shr_m (shr_1 mrs).
Proof.
  destruct mrs as [m r s]. cbn [shr_m]. intros Hm.
  destruct m as [|p|p]; [split; [reflexivity|cbn; lia]| |lia].
  destruct p as [p|p|]; cbn [shr_1 shr_m].
  - split; [|lia]. apply (Z.div_unique_pos (Zpos p~1) 2 (Zpos p) 1); lia.
  - split; [|lia]. apply (Z.div_unique_pos (Zpos p~0) 2 (Zpos p) 0); lia.
  - split; [reflexivity|lia].
Qed.

Lemma shr_m_iter (k : positive) :
  forall mrs : shr_record,
    0 <= shr_m mrs ->
    shr_m (SpecFloat.iter_pos shr_1 k mrs) = shr_m mrs / 2 ^ Zpos k /\
    0 <= shr_m (SpecFloat.iter_pos shr_1 k mrs).
Proof.
  induction k as [k IH|k IH|]; intros mrs Hm; cbn [SpecFloat.iter_pos].
  - destruct (shr_1_m mrs Hm) as [H1 H1'].
    destruct (IH _ H1') as [H2 H2']. destruct (IH _ H2') as [H3 H3'].
    split; [|exact H3']. rewrite H3, H2, H1.
    assert (Hpow : 0 < 2 ^ Zpos k) by (apply Z.pow_pos_nonneg; lia).
    assert (E : 2 ^ Zpos k~1 = 2 * 2 ^ Zpos k * 2 ^ Zpos k).
    { assert (E0 : Zpos k~1 = 1 + Zpos k + Zpos k) by lia.
      rewrite E0. rewrite (Z.pow_add_r 2 (1 + Zpos k) (Zpos k)) by lia.
      rewrite (Z.pow_add_r 2 1 (Zpos k)) by lia. reflexivity. }
    rewrite E, !Z.div_div by lia. f_equal. ring.
  - destruct (IH _ Hm) as [H2 H2']. destruct (IH _ H2') as [H3 H3'].
    split; [|exact H3']. rewrite H3, H2.
    assert (Hpow : 0 < 2 ^ Zpos k) by (apply Z.pow_pos_nonneg; lia).
    assert (E : 2 ^ Zpos k~0 = 2 ^ Zpos k * 2 ^ Zpos k).
    { assert (E0 : Zpos k~0 = Zpos k + Zpos k) by lia.
      rewrite E0. apply Z.pow_add_r; lia. }
    rewrite E, !Z.div_div by lia. f_equal.
  - destruct (shr_1_m mrs Hm) as [H1 H1']. split; [|exact H1'].
    rewrite H1. reflexivity.
Qed.

Lemma round_nearest_even_near (m : Z) (l : location) :
  m <= round_nearest_even m l <= m + 1.
Proof. destruct l as [|[| |]]; cbn [round_nearest_even]; try destruct (Z.even m); lia. Qed.

(** The last step of a rounding, with the size of the mantissa it
    leaves. *)
Lemma round_tail_digits (sx : bool) (q1 e1 : Z) :
  2 ^ 52 <= q1 <= 2 ^ 53 -> -1074 <= e1 <= 970 ->
  exists (m : positive) (e : Z),
    (let '(mrs, e') := shr_fexp 53 1024 q1 e1 loc_Exact in
     match shr_m mrs with
     | Z0 => S754_zero sx
     | Zpos m => if e' <=? 1024 - 53 then S754_finite sx m e' else S754_infinity sx
     | Zneg _ => S754_nan
     end) = S754_finite sx m e /\
    e1 <= e <= e1 + 1 /\ Zpos m * 2 ^ (e - e1) = q1 /\
    2 ^ 52 <= Zpos m < 2 ^ 53.
Proof.
  intros Hq He.
  destruct (Z.eq_dec q1 (2 ^ 53)) as [->|Hne].
  - exists (Z.to_pos (2 ^ 52)), (e1 + 1).
    unfold shr_fexp, fexp, emin.
    change (Zdigits2 (2 ^ 53)) with 54.
    replace (Z.max (54 + e1 - 53) (3 - 1024 - 53) - e1) with 1 by lia.
    cbn [shr SpecFloat.iter_pos shr_record_of_loc].
    change (2 ^ 53) with (Zpos (xO (Z.to_pos (2 ^ 52)))) at 1.
    cbn [shr_1 shr_m orb].
    destruct (Z.leb_spec (e1 + 1) (1024 - 53)); [|lia].
    split; [reflexivity|]. split; [lia|].
    replace (e1 + 1 - e1) with 1 by lia. split; [reflexivity|].
    split; [reflexivity|reflexivity].
  - destruct q1 as [|p|p]; try lia.
    exists p, e1.
    assert (Hd : Zpos (digits2_pos p) = 53) by (apply digits2_unique; lia).
    unfold shr_fexp, fexp, emin. cbn [Zdigits2]. rewrite Hd.
    replace (Z.max (53 + e1 - 53) (3 - 1024 - 53) - e1) with 0 by lia.
    cbn [shr shr_record_of_loc shr_m].
    destruct (Z.leb_spec e1 (1024 - 53)); [|lia].
    split; [reflexivity|]. split; [lia|].
    rewrite Z.sub_diag. split; lia.
Qed.

(** Rounding an exact product [P * 2^eP] of [53 + k] digits: [k] digits
    are shifted out, and the mantissa left is the quotient or the next
    integer. *)
Lemma binary_round_aux_product (P eP : Z) (k : positive) :
  2 ^ (52 + Zpos k) <= P < 2 ^ (53 + Zpos k) ->
  -1074 <= eP + Zpos k <= 970 ->
  exists (m : positive) (e : Z),
    binary_round_aux 53 1024 false P eP loc_Exact = S754_finite false m e /\
    eP + Zpos k <= e <= eP + Zpos k + 1 /\
    2 ^ 52 <= Zpos m < 2 ^ 53 /\
    P / 2 ^ Zpos k <= Zpos m * 2 ^ (e - eP - Zpos k) <= P / 2 ^ Zpos k + 1.
Proof.
  intros HP He.
  assert (Hpow : 0 < 2 ^ Zpos k) by (apply Z.pow_pos_nonneg; lia).
  assert (HPpos : 0 < P).
  { assert (0 < 2 ^ (52 + Zpos k)) by (apply Z.pow_pos_nonneg; lia). lia. }
  destruct P as [|p|p]; try lia.
  assert (Hd : Zpos (digits2_pos p) = 53 + Zpos k).
  { apply digits2_unique. replace (53 + Zpos k - 1) with (52 + Zpos k) by lia. exact HP. }
  unfold binary_round_aux.
  unfold shr_fexp at 1, fexp, emin. cbn [Zdigits2]. rewrite Hd.
  replace (Z.max (53 + Zpos k + eP - 53) (3 - 1024 - 53) - eP) with (Zpos k) by lia.
  cbn [shr shr_record_of_loc].
  destruct (shr_m_iter k {| shr_m := Zpos p; shr_r := false; shr_s := false |})
    as [Hm _]; [cbn; lia|].
  cbn [shr_m] in Hm.
  set (mrs := SpecFloat.iter_pos shr_1 k _) in *.
  assert (Hm1 : 2 ^ 52 <= shr_m mrs < 2 ^ 53).
  { rewrite Hm. rewrite !Z.pow_add_r in HP by lia. split.
    - apply Z.div_le_lower_bound; lia.
    - apply Z.div_lt_upper_bound; lia. }
  pose proof (round_nearest_even_near (shr_m mrs) (loc_of_shr_record mrs)) as Hq1.
  destruct (round_tail_digits false (round_nearest_even (shr_m mrs) (loc_of_shr_record mrs))
              (eP + Zpos k)) as [m [e [Htail [He' [Hmq Hdig]]]]]; [lia|lia|].
  exists m, e. split; [exact Htail|]. split; [lia|]. split; [exact Hdig|].
  replace (e - eP - Zpos k) with (e - (eP + Zpos k)) by lia. rewrite Hmq, <- Hm. exact Hq1.
Qed.

Lemma pow2_pos (a : Z) : 0 <= a -> 0 < 2 ^ a.
Proof. intros Ha. apply Z.pow_pos_nonneg; lia. Qed.

Lemma pow2_split (a b : Z) : 0 <= a -> 0 <= b -> 2 ^ (a + b) = 2 ^ a * 2 ^ b.
Proof. intros Ha Hb. apply Z.pow_add_r; assumption. Qed.

(** The product of a clock value of [d] bits and [1000000], as the
    multiplication rounds it: a mantissa of 53 digits that, shifted by [h],
    is within [2^k] of the exact product of the two mantissas. *)
Lemma mul_million (n d : Z) :
  1 <= d <= 53 -> 2 ^ (d - 1) <= n < 2 ^ d ->
  exists (mx : positive) (h k : Z),
    number_mul (Num.of_Z n) (Num.of_Z 1000000) = S754_finite false mx (d - 86 + h) /\
    2 ^ 52 <= Zpos mx < 2 ^ 53 /\
    52 <= k <= 53 /\ k <= h <= k + 1 /\
    n * 2 ^ (53 - d) * 8589934592000000 - 2 ^ k < Zpos mx * 2 ^ h
      <= n * 2 ^ (53 - d) * 8589934592000000 + 2 ^ k.
Proof.
  intros Hd Hn.
  pose proof (of_Z_normal false n d Hd Hn) as HofZ. cbn [cond_Zopp] in HofZ.
  rewrite HofZ, of_Z_million.
  assert (H2d : 0 < 2 ^ (53 - d)) by (apply pow2_pos; lia).
  assert (H2d1 : 0 < 2 ^ (d - 1)) by (apply pow2_pos; lia).
  assert (Hsplit : 2 ^ (d - 1) * 2 ^ (53 - d) = 2 ^ 52).
  { rewrite <- Z.pow_add_r by lia. f_equal. lia. }
  assert (Hsplit' : 2 ^ d * 2 ^ (53 - d) = 2 ^ 53).
  { rewrite <- Z.pow_add_r by lia. f_equal. lia. }
  set (mn := n * 2 ^ (53 - d)).
  assert (Hmn : 2 ^ 52 <= mn < 2 ^ 53) by (unfold mn; nia).
  assert (Hmnpos : Zpos (Z.to_pos mn) = mn) by (apply Z2Pos.id; lia).
  unfold number_mul, Num.prec, Num.emax, SFmul. cbn [xorb].
  rewrite Pos2Z.inj_mul, Hmnpos.
  set (P := mn * 8589934592000000).
  assert (HP : 2 ^ 104 <= P < 2 ^ 106).
  { unfold P. change (2 ^ 104) with (2 ^ 52 * 2 ^ 52). change (2 ^ 106) with (2 ^ 53 * 2 ^ 53).
    change (2 ^ 52) with 4503599627370496 in *. change (2 ^ 53) with 9007199254740992 in *.
    nia. }
  replace (d - 53 + -33) with (d - 86) by lia.
  assert (Hcase : exists k : positive,
             52 <= Zpos k <= 53 /\ 2 ^ (52 + Zpos k) <= P < 2 ^ (53 + Zpos k)).
  { destruct (Z.lt_ge_cases P (2 ^ 105)) as [Hlt|Hge].
    - exists 52%positive. split; [lia|]. change (52 + 52) with 104. change (53 + 52) with 105.
      lia.
    - exists 53%positive. split; [lia|]. change (52 + 53) with 105. change (53 + 53) with 106.
      lia. }
  destruct Hcase as [k [Hk HPk]].
  destruct (binary_round_aux_product P (d - 86) k HPk) as [m [e [Hround [He [Hdig Hm]]]]];
    [lia|].
  exists m, (e - (d - 86)), (Zpos k).
  rewrite Hround. split; [f_equal; lia|]. split; [exact Hdig|]. split; [exact Hk|].
  split; [lia|].
  assert (Hpk : 0 < 2 ^ Zpos k) by (apply pow2_pos; lia).
  pose proof (Z.div_mod P (2 ^ Zpos k) ltac:(lia)) as Hdm.
  pose proof (Z.mod_pos_bound P (2 ^ Zpos k) Hpk) as Hrem.
  assert (Hh : 2 ^ (e - (d - 86)) = 2 ^ (e - (d - 86) - Zpos k) * 2 ^ Zpos k).
  { rewrite <- Z.pow_add_r by lia. f_equal. lia. }
  rewrite Hh. fold mn. fold P.
  set (u := Zpos m * 2 ^ (e - (d - 86) - Zpos k)) in *.
  replace (Zpos m * (2 ^ (e - (d - 86) - Zpos k) * 2 ^ Zpos k)) with (u * 2 ^ Zpos k)
    by (unfold u; ring).
  nia.
Qed.

(** The quotient of a positive number by [1000000], as the division
    rounds it. *)
Lemma div_million (mx : positive) (ex : Z) :
  2 ^ 52 <= Zpos mx < 2 ^ 53 -> -1054 <= ex <= 980 ->
  exists (m : positive) (e q : Z),
    Num.div (S754_finite false mx ex) (Num.of_Z 1000000) = S754_finite false m e /\
    ex - 20 <= e <= ex - 18 /\
    q - 1 <= Zpos m * 2 ^ (e - (ex - 20)) <= q + 1 /\
    q * 8589934592000000 <= Zpos mx * 2 ^ 53 < (q + 1) * 8589934592000000.
Proof.
  intros Hmx Hex. rewrite of_Z_million.
  unfold Num.div, Num.prec, Num.emax, SFdiv. cbn [xorb].
  unfold SFdiv_core_binary. cbn [Zdigits2].
  rewrite (digits2_unique mx 53) by lia.
  change (Zpos (digits2_pos 8589934592000000)) with 53.
  unfold fexp, emin.
  replace (Z.min (Z.max (53 + ex - (53 + -33) - 53) (3 - 1024 - 53)) (ex - -33))
    with (ex - 20) by lia.
  replace (ex - -33 - (ex - 20)) with 53 by lia.
  rewrite Z.shiftl_mul_pow2 by lia.
  pose proof (Z_div_mod (Zpos mx * 2 ^ 53) 8589934592000000 eq_refl) as Hdm.
  destruct (Z.div_eucl (Zpos mx * 2 ^ 53) 8589934592000000) as [q r].
  destruct Hdm as [Hqr Hr].
  assert (Hq : 2 ^ 52 <= q < 2 ^ 54).
  { change (2 ^ 52) with 4503599627370496 in *. change (2 ^ 53) with 9007199254740992 in *.
    change (2 ^ 54) with 18014398509481984. nia. }
  destruct (binary_round_aux_near false q (ex - 20) (new_location 8589934592000000 r) Hq)
    as [m [e [Hround [He [Hu _]]]]]; [lia|].
  exists m, e, q. split; [exact Hround|]. split; [lia|]. split; [exact Hu|]. lia.
Qed.

(** The clock value the receiver reads back, for a clock value of [d]
    bits: the value itself or one less. *)
Lemma floor_div_mul_million (n d : Z) :
  1 <= d <= 49 -> 2 ^ (d - 1) <= n < 2 ^ d ->
  exists z : Z,
    Num.floor (Num.div (number_mul (Num.of_Z n) (Num.of_Z 1000000)) (Num.of_Z 1000000))
      = Num.of_Z z /\
    n - 1 <= z <= n.
Proof.
  intros Hd Hn.
  destruct (mul_million n d ltac:(lia) Hn) as [mx [h [k [Hmul [Hmx [Hk [Hh HP]]]]]]].
  rewrite Hmul.
  destruct (div_million mx (d - 86 + h) Hmx ltac:(lia)) as [m [e [q [Hdiv [He [Hu Hq]]]]]].
  rewrite Hdiv. unfold Num.floor.
  destruct (Z.leb_spec 0 e) as [Hpos|Hneg]; [lia|].
  set (my := 8589934592000000) in *.
  set (t := - e). set (u := e - (d - 86 + h - 20)) in *.
  assert (Hu0 : 0 <= u <= 2) by (unfold u; lia).
  assert (Ht0 : 0 < t) by (unfold t; lia).
  assert (Htu : t + u = 106 - d - h) by (unfold t, u; lia).
  set (T := 2 ^ (106 - d - h)).
  assert (HT : T = 2 ^ t * 2 ^ u) by (unfold T; rewrite <- Htu; apply pow2_split; lia).
  assert (HT4 : 4 <= T).
  { unfold T. change 4 with (2 ^ 2). apply Z.pow_le_mono_r; lia. }
  assert (H2t : 0 < 2 ^ t) by (apply pow2_pos; lia).
  assert (H2u : 0 < 2 ^ u) by (apply pow2_pos; lia).
  assert (H2h : 0 < 2 ^ h) by (apply pow2_pos; lia).
  assert (H2k : 0 < 2 ^ k) by (apply pow2_pos; lia).
  assert (Hkh : 2 ^ k <= 2 ^ h) by (apply Z.pow_le_mono_r; lia).
  assert (HA : 2 ^ (53 - d) * 2 ^ 53 = T * 2 ^ h).
  { unfold T. rewrite <- !Z.pow_add_r by lia. f_equal. lia. }
  assert (Hmy : 2 ^ 53 < 2 * my) by reflexivity.
  assert (Hmy0 : 0 < my) by reflexivity.
  (* everything in units of [my * 2^h] *)
  assert (HPT : n * 2 ^ (53 - d) * my * 2 ^ 53 = n * T * (my * 2 ^ h)).
  { transitivity (n * my * (2 ^ (53 - d) * 2 ^ 53)); [ring|]. rewrite HA. ring. }
  set (W := my * 2 ^ h) in *.
  assert (HW : 0 < W) by (unfold W; apply Z.mul_pos_pos; assumption).
  assert (Hslack : 2 ^ k * 2 ^ 53 < 2 * W).
  { apply Z.le_lt_trans with (2 ^ h * 2 ^ 53).
    - apply Z.mul_le_mono_nonneg_r; [lia|exact Hkh].
    - unfold W. replace (2 * (my * 2 ^ h)) with (2 ^ h * (2 * my)) by ring.
      apply Z.mul_lt_mono_pos_l; [exact H2h|exact Hmy]. }
  assert (HqW : q * W <= Zpos mx * 2 ^ 53 * 2 ^ h < (q + 1) * W).
  { unfold W. rewrite !Z.mul_assoc. split.
    - apply Z.mul_le_mono_nonneg_r; [lia|apply Hq].
    - apply Z.mul_lt_mono_pos_r; [exact H2h|apply Hq]. }
  assert (HPW : (n * 2 ^ (53 - d) * my - 2 ^ k) * 2 ^ 53 < Zpos mx * 2 ^ 53 * 2 ^ h
                <= (n * 2 ^ (53 - d) * my + 2 ^ k) * 2 ^ 53).
  { replace (Zpos mx * 2 ^ 53 * 2 ^ h) with (Zpos mx * 2 ^ h * 2 ^ 53) by ring. split.
    - apply Z.mul_lt_mono_pos_r; [lia|apply HP].
    - apply Z.mul_le_mono_nonneg_r; [lia|apply HP]. }
  assert (Hup : q * W <= n * T * W + 2 ^ k * 2 ^ 53).
  { rewrite Z.mul_add_distr_r, HPT in HPW. lia. }
  assert (Hlo : n * T * W - 2 ^ k * 2 ^ 53 < (q + 1) * W).
  { rewrite Z.mul_sub_distr_r, HPT in HPW. lia. }
  assert (Hq1 : n * T - 2 <= q <= n * T + 1).
  { assert (Hlt : q < n * T + 2).
    { apply (Z.mul_lt_mono_pos_r W); [exact HW|]. rewrite Z.mul_add_distr_r. lia. }
    assert (Hgt : n * T - 2 < q + 1).
    { apply (Z.mul_lt_mono_pos_r W); [exact HW|]. rewrite Z.mul_sub_distr_r. lia. }
    lia. }
  assert (Hm1 : (n - 1) * T < Zpos m * 2 ^ u < (n + 1) * T).
  { fold u in Hu. rewrite Z.mul_sub_distr_r, Z.mul_add_distr_r. lia. }
  assert (Hm2 : (n - 1) * 2 ^ t < Zpos m < (n + 1) * 2 ^ t).
  { rewrite HT, !Z.mul_assoc in Hm1. destruct Hm1 as [Hlo1 Hup1]. split.
    - apply (Z.mul_lt_mono_pos_r (2 ^ u)); [exact H2u|exact Hlo1].
    - apply (Z.mul_lt_mono_pos_r (2 ^ u)); [exact H2u|exact Hup1]. }
  exists (Zpos m / 2 ^ t).
  assert (Hz : n - 1 <= Zpos m / 2 ^ t <= n).
  { split.
    - apply Z.div_le_lower_bound; lia.
    - assert (Zpos m / 2 ^ t < n + 1); [|lia].
      apply Z.div_lt_upper_bound; lia. }
  split; [|exact Hz].
  cbn [cond_Zopp]. fold t.
  destruct (Zpos m / 2 ^ t) as [|z|z]; [reflexivity|reflexivity|].
  assert (0 < 2 ^ (d - 1)) by (apply pow2_pos; lia). lia.
Qed.

(** X28. The receiver reads the client's clock back to within one
    millisecond, and never late: for every clock value [now] from 1 up to
    [2^49] ms, the start time it derives from the client's
    [startTimeUnixNano] is [now] or [now - 1].  It is assumed that the
    printed nanosecond text parses back to the number printed. *)
Theorem X28_exported_start_within_one_millisecond `{Host} (now : Z) :
  let start := number_mul (Num.of_Z now) (Num.of_Z 1000000) in
  0 < now < 2 ^ 49 ->
  Num.parseInt_string (Number_toString 10 start) = start ->
  nanosToMillis (VStr (Number_toString 10 start)) = Return (Num.of_Z now) \/
  nanosToMillis (VStr (Number_toString 10 start)) = Return (Num.of_Z (now - 1)).
Proof.
  cbv zeta. intros Hnow Hprint.
  destruct (digits_exists now) as [d [Hd Hbits]].
  { assert (2 ^ 49 < 2 ^ 53) by reflexivity. lia. }
  assert (Hd49 : d <= 49).
  { destruct (Z.le_gt_cases d 49) as [Hle|Hgt]; [exact Hle|].
    assert (2 ^ 49 <= 2 ^ (d - 1)) by (apply Z.pow_le_mono_r; lia). lia. }
  destruct (floor_div_mul_million now d ltac:(lia) Hbits) as [z [Hz Hrange]].
  rewrite nanosToMillis_string, Hprint, Hz.
  assert (Hcases : z = now \/ z = now - 1) by lia.
  destruct Hcases as [-> | ->]; [left|right]; reflexivity.
Qed.

(** One second after the epoch. *)
Lemma X28_exported_start_within_one_millisecond_witness :
  @nanosToMillis any_host
    (VStr (@Number_toString any_host 10 (number_mul (Num.of_Z 1000) (Num.of_Z 1000000))))
    = Return (Num.of_Z 1000) \/
  @nanosToMillis any_host
    (VStr (@Number_toString any_host 10 (number_mul (Num.of_Z 1000) (Num.of_Z 1000000))))
    = Return (Num.of_Z 999).
Proof.
  refine (@X28_exported_start_within_one_millisecond any_host 1000 _ _).
  - vm_compute. split; reflexivity.
  - vm_compute. reflexivity.
Defined.
End ClockFacts.

Section ManagerFacts.

Lemma manager_run_snoc (events : list manager_event) (ev : manager_event)
    (s : TelemetryManager * nat) :
  manager_run (events ++ [ev]) s = manager_step (manager_run events s) ev.
Proof. unfold manager_run. rewrite fold_left_app. reflexivity. Qed.

Lemma manager_invariant (events : list manager_event) :
  let m := fst (manager_run events (new_manager, O)) in
  (provider m = true -> isInitialized m = true) /\
  (isInitialized m = true -> config m <> None) /\
  (config m = None <-> List.filter is_Initialize events = []).
Proof.
  cbv zeta. induction events as [|ev events IH] using rev_ind.
  - split; [discriminate|]. split; [discriminate|]. split; reflexivity.
  - rewrite manager_run_snoc, List.filter_app.
    destruct (manager_run events (new_manager, O)) as [m p]. cbn [fst] in *.
    destruct IH as [Hprov [Hcfg Hnone]].
    destruct ev as [sdk c| |]; cbn [manager_step List.filter is_Initialize].
    + unfold initialize. destruct (isInitialized m) eqn:Hi; cbn [fst provider isInitialized config].
      * split; [intros _; exact Hi|]. split; [intros _; apply Hcfg; reflexivity|].
        split; [intros Hf; exfalso; apply Hcfg; [reflexivity|exact Hf]|].
        intros Hf. apply app_eq_nil in Hf as [_ Hf]. discriminate Hf.
      * split; [reflexivity|]. split; [discriminate|].
        split; [discriminate|].
        intros Hf. apply app_eq_nil in Hf as [_ Hf]. discriminate Hf.
    + rewrite app_nil_r. destruct (shutdown_starts m); cbn [fst];
        (split; [exact Hprov|]; split; [exact Hcfg|exact Hnone]).
    + rewrite app_nil_r. destruct p; cbn [fst].
      * split; [exact Hprov|]. split; [exact Hcfg|exact Hnone].
      * cbn [shutdown_settles provider isInitialized config].
        split; [discriminate|]. split; [discriminate|exact Hnone].
Qed.

Lemma manager_stuck_stays (events : list manager_event) (m : TelemetryManager)
    (pending : nat) :
  isInitialized m = true -> provider m = false ->
  pending = O \/ List.filter is_ShutdownSettles events = [] ->
  manager_run events (m, pending) = (m, pending).
Proof.
  intros Hready Hnone. induction events as [|ev events IH]; intros Hquiet; [reflexivity|].
  unfold manager_run in *. cbn [fold_left].
  assert (Hstep : manager_step (m, pending) ev = (m, pending)).
  { destruct ev as [sdk c| |]; cbn [manager_step].
    - unfold initialize. rewrite Hready. reflexivity.
    - unfold shutdown_starts. rewrite Hnone. reflexivity.
    - destruct Hquiet as [->|Hf]; [reflexivity|].
      cbn [List.filter is_ShutdownSettles] in Hf. discriminate Hf. }
  rewrite Hstep. apply IH.
  destruct Hquiet as [Hp|Hf]; [left; exact Hp|right].
  cbn [List.filter] in Hf. destruct (is_ShutdownSettles ev); [discriminate Hf|exact Hf].
Qed.

(** X29. The manager under any sequence of calls and settlements: a
    provider exists only while the manager counts as initialized; the
    configuration is missing exactly as long as [initialize] was never
    called, and stays after a shutdown; [initialize] always leaves the
    manager ready, also when the set-up threw.  When the set-up throws
    before the provider is assigned, the manager is ready without a
    provider, with or without a shutdown still pending.  A manager in that
    state refuses every [initialize] and starts no shutdown: it stays as it
    is under any calls, as long as no shutdown started earlier settles.
    When one does, the manager is reset and the next [initialize] is
    accepted. *)
Theorem X29_manager_ready_without_provider (events : list manager_event)
    (m : TelemetryManager) (pending : nat) (c : TelemetryConfig) :
  let reached := fst (manager_run events (new_manager, O)) in
  let stuck := {| provider := false; isInitialized := true; config := Some c |} in
  (provider reached = true -> isReady reached = true) /\
  (getConfig reached = None <-> List.filter is_Initialize events = []) /\
  (forall sdk c', isReady (initialize sdk c' reached) = true) /\
  manager_run [Initialize SdkFailsBeforeProvider c] (new_manager, O) = (stuck, O) /\
  manager_run [Initialize SdkReady c; Shutdown; Shutdown; ShutdownSettles;
               Initialize SdkFailsBeforeProvider c] (new_manager, O) = (stuck, 1%nat) /\
  (isReady m = true -> provider m = false ->
   pending = O \/ List.filter is_ShutdownSettles events = [] ->
   manager_run events (m, pending) = (m, pending)) /\
  (forall sdk c',
      manager_run [ShutdownSettles; Initialize sdk c'] (m, S pending)
        = (initialize sdk c' (shutdown_settles m), pending) /\
      isReady (shutdown_settles m) = false /\
      isReady (initialize sdk c' (shutdown_settles m)) = true /\
      getConfig (initialize sdk c' (shutdown_settles m)) = Some c').
Proof.
  cbv zeta. destruct (manager_invariant events) as [Hprov [_ Hnone]]. cbv zeta in *.
  split; [exact Hprov|]. split; [exact Hnone|]. split.
  { intros sdk c'. unfold isReady, initialize.
    destruct (isInitialized _) eqn:Hi; [exact Hi|reflexivity]. }
  split; [reflexivity|]. split; [reflexivity|]. split.
  { intros Hready Hnoprov Hquiet. apply manager_stuck_stays; assumption. }
  intros sdk c'. repeat split.
Qed.

(** A manager that is ready without a provider, with no shutdown pending:
    a shutdown, an [initialize] and a settlement leave it as it is. *)
Lemma X29_manager_ready_without_provider_witness :
  let stuck := {| provider := false; isInitialized := true;
                  config := Some defaultTelemetryConfig |} in
  manager_run [Shutdown; Initialize SdkReady defaultTelemetryConfig; ShutdownSettles]
    (stuck, O) = (stuck, O).
Proof.
  intros stuck.
  refine (proj1 (proj2 (proj2 (proj2 (proj2 (proj2
            (X29_manager_ready_without_provider
               [Shutdown; Initialize SdkReady defaultTelemetryConfig; ShutdownSettles]
               stuck O defaultTelemetryConfig)))))) _ _ _).
  - reflexivity.
  - reflexivity.
  - left. reflexivity.
Defined.
End ManagerFacts.
